(* ===== verification/_CoqProject ===== *)
-Q . S2P
Prelude.v
ClassList.v
Storage.v
Theme.v
JsString.v
Escape.v
Json.v
JsonParse.v
JsonRoundtrip.v
JsonFuel.v
Comments.v
Scroll.v
Keyboard.v
Form.v
Page.v
Quota.v
