(* ===== verification/Prelude.v ===== *)
(** * A verification development of [src/index.js]

    The repository is one browser script, [src/index.js], an immediately
    invoked function that enhances a static blog page.  Its parts share
    two resources, the page's DOM and the origin's [localStorage]:

    - Theme toggle ([applyBW], [loadPref], the start-up class fix-up, the
      click handler of the B/W button, [__blogUI.setBW]/[isBW]): BW mode
      is the class [bw] on [<html>], mirrored on the button (two exclusive
      classes and [aria-pressed]) and persisted under [blog_bw_mode_v1] as
      ["1"] or ["0"].
    - Comment board ([loadComments], [saveComments], [renderComments], the
      submit and clear handlers, [escapeHtml]): an array of records
      persisted as JSON under [blog_comments_v1], capped at 200 entries on
      submission, rendered with every user string HTML-escaped.
    - Back-to-top control ([onScroll], the top button's click handler):
      the button carries [hidden] exactly when the offset is at most 300.
    - Keyboard shortcuts and the [window.__blogUI] API, which call into
      the three parts above.

    ** Files, in dependency order

    - [Prelude] (this file): the exceptions [js_exn] and the result monad
      [js] for every call that may throw ([catch_js] is a [try]/[catch]);
      [slice_neg], [Array.prototype.slice] with a negative start; the
      interface [lens]/[LensLaws] through which the page composes its
      parts; the hint database [blog] and the tactics
      [blog_cases]/[blog_crush].
    - [ClassList]: [Element.classList] as an ordered token set ([contains],
      [add], [remove], [toggle], the [class] attribute parser) with the
      equivalence [≡cl] (same tokens, any order) and its [Proper] instances.
    - [Storage]: [localStorage] as a [gmap string string] with its two
      failures, disabled storage ([SecurityError]) and the origin quota
      ([QuotaExceededError]); [setItem_quiet] is the script's
      [try { setItem } catch {}].
    - [Theme] (Module [Theme]): the record [theme] (classes of [<html>] and
      the button, [aria-pressed], storage), [mkBtn], [applyBW], [loadPref],
      [initBtnClass], [bw_click], [setBW], [theme_init], and runs of events.
    - [JsString]: [String.prototype.trim] and global one-character
      [replace] on Latin-1 strings, with the specification of [trim].
    - [Escape]: the five replacements of [escapeHtml] ([escape_chain]), a
      one-pass reference escaper, and [html_text], how the HTML parser
      reads plain text with the five character references.
    - [Json], [JsonParse], [JsonRoundtrip], [JsonFuel]: JSON values,
      [JSON.stringify], a recursive-descent [JSON.parse] with fuel,
      property access, truthiness and [String(v)] on parsed values; the
      round trip parse-of-print; fuel adequacy and distinct keys of every
      parsed object.
    - [Comments] (Module [Comments]): the record [board] (array, storage,
      list, form fields, focus), [loadComments], [saveComments],
      [render_item]/[renderComments], [submit], [clear], [board_init], the
      events [board_step] (edits of the form, submissions, clears) and
      reachability [board_reachable]; the spec's abstract comment list
      [spec_board]/[spec_step] and the relation [refines] between the two.
    - [Scroll]: [onScroll] and the top button; offsets are rationals.
    - [Keyboard]: the [keydown] listener's decision.
    - [Form]: the constraints the static markup puts on the form
      (lines 135, 138): [maxlength] of the two fields ([enter],
      [type_fields]) and the [required] body checked by the browser before
      the [submit] listener ([form_submit]).
    - [Page]: the whole page over ONE storage shared by theme and board
      ([theme_lens], [board_lens], instances of [LensLaws] that overlap
      only on the storage), start-up
      [page_init] in source order with the abort when [renderComments]
      throws ([Crashed]), one [page_step] per listener or API call (a
      submission goes through [form_submit], typing through the fields'
      [maxlength]), and [page_reachable], whose events are those a browser
      delivers ([event_ok]: [Date.now()] is a time value).
    - [Quota]: the length of the text [saveComments] writes, bounded on
      every reachable page.

    ** What the theorems show

    - Theme: the page's theme refines the spec's one-boolean toggle
      ([theme_refines_mode]); the click handler equals
      [applyBW(!isBW(), true)]; the button
      shows exactly the state class matching [<html>] on every reachable
      state; start-up never writes and turns BW on iff ["1"] is stored;
      the preference stays in sync while writes fit; two clicks give the
      page back up to class order, and store the canonical value.
    - Escaping: the chain equals the one-pass escaper (no double escaping),
      leaves no [<], [>] or quote, and is read back by the HTML parser as
      the original string (no injection).
    - JSON: [JSON.parse (JSON.stringify v) = v] for every value whose
      objects have distinct keys; every parsed value has such objects;
      load after save returns the array.
    - Board: an accepted submission appends the trimmed record and keeps
      the last 200; a short body changes only the focus; [loadComments]
      reads every failure as the empty array and never throws; clear empties
      only after confirmation; on every reachable board the list shows the
      array and no handler throws; a stored [null] crashes start-up.  The
      board refines the spec's list of records: after any edits,
      submissions and clears its array is the stored form of the list the
      spec computes ([board_refines_spec], by a one-step simulation
      [refines_step] lifted to runs).
    - Page: the invariants of all parts hold together on every reachable
      page over the shared storage; shortcuts equal the buttons; theme and
      board do not interfere; the top button is hidden iff offset <= 300;
      [getComments] agrees with the page when the write fit; [setBW] uses
      truthiness and stores exactly the preference when the write fits,
      nothing otherwise.  The form's [maxlength] bounds every stored record (60 and 2000 characters), and
      with the cap and the range of time values the stored array text has
      at most 2488401 characters ([Quota.page_reachable_stored_size]).
      The visitor is never stuck: from any page, at most two events reach
      either mode with an empty board ([page_can_reset], stated with the
      inductive [eventually] over a sequence of events).  Examples show the findings: a stored [null] disables
      the theme; a dropped write makes [getComments] diverge; comments
      filling the quota make the preference write fail.

    ** Bounds and fuel

    [JSON_parse] gives [parse_value] one unit of fuel more than the length
    of the text.  Every parser call returns a rest strictly shorter than
    its input ([JsonFuel.parse_length]), so a call on a text of length [l]
    only recurses on shorter texts, and all fuels above [l] give the same
    answer ([JsonFuel.parse_fuel]): the bound is enough on every text, not
    only on printed ones.  No other definition uses fuel; the comment
    array is a list, its cap of 200 is [MAX_COMMENTS].  The storage bound
    counts six characters per escaped code unit and, for a timestamp, one
    decimal digit per binary digit (at most 53 for [|t| <= 8.64e15]); it
    is stated over [nat] but never computed in it.

    ** Not modelled

    - Numbers are integers: [JSON.parse] of a fraction or an exponent is
      rejected by the model (the board writes only integer timestamps).
    - Strings are Latin-1: [\uXXXX] escapes above [0xFF] are rejected;
      JavaScript's reordering of integer-like object keys is not modelled.
    - The date text [new Date(ts).toLocaleString()] depends on locale and
      time zone and is a parameter; theorems that need it assume only that
      it returns a text for every number.
    - The injected stylesheet and the static layout (lines 12-76, 79-81,
      114-150 apart from the form's constraints), [title]/[innerHTML] of
      the buttons, the list's [scrollTop], and the smooth-scroll animation
      (the browser's; it is seen as later [Scrolled] events): presentation
      the script never reads back.
    - Typing is modelled as the field receiving the first [maxlength]
      characters of a text ([Form.enter]); where in the field the visitor
      inserts is not modelled, only what the field ends up holding.
*)

From Stdlib Require Export String Ascii.
From stdpp Require Export base list gmap strings.

(** [length] is the length of a list; the length of a string is written
    [String.length]. *)
Abbreviation length := Datatypes.length.

(** stdpp's [naive_solver] clears hypotheses that may be absent. *)
#[export] Set Warnings "-clear-no-such-hyp".

Declare Scope blog_scope.
Delimit Scope blog_scope with blog.

(** String concatenation, the [+] of JavaScript strings; [++] stays the
    list append of stdpp. *)
Notation "s1 +++ s2" := (String.append s1 s2)
  (at level 60, right associativity) : blog_scope.

#[global] Open Scope string_scope.
#[global] Open Scope nat_scope.
#[global] Open Scope list_scope.
#[global] Open Scope blog_scope.

(** ** Exceptions

    The exceptions the script can meet: a [TypeError] (property access on
    [null], conversion of an object to a primitive), a [SecurityError]
    (storage disabled), a [QuotaExceededError] (storage full) and a
    [SyntaxError] (from [JSON.parse]). *)
Inductive js_exn :=
  | TypeError
  | SecurityError
  | QuotaExceededError
  | SyntaxError.

#[export] Instance js_exn_eq_dec : EqDecision js_exn.
Proof. solve_decision. Defined.

(** A computation that returns an [A] or throws. *)
Definition js (A : Type) : Type := (js_exn + A)%type.

#[export] Instance js_mret : MRet js := λ A x, inr x.
#[export] Instance js_mbind : MBind js :=
  λ A B f m, match m with inl e => inl e | inr a => f a end.

Definition throw {A} (e : js_exn) : js A := inl e.

(** [try { m } catch (e) { h(e) }] where the handler cannot throw. *)
Definition catch_js {A} (m : js A) (h : js_exn → A) : A :=
  match m with inl e => h e | inr a => a end.

(** ** [Array.prototype.slice] with a negative start

    [a.slice(-k)] for [k > 0] returns the last [k] elements of [a], or the
    whole array when it is shorter: the start index is
    [max(len - k, 0)]. *)
Definition slice_neg {A} (k : nat) (l : list A) : list A :=
  drop (length l - k) l.

(** ** Parts of a larger state

    A component of the page sees its own part of the page's state: [lget]
    reads the part, [lput] writes a new part back.  [LensLaws] is what a
    part promises to the page: reading after writing gives what was
    written, writing back what was read changes nothing, and the second of
    two writes wins. *)
Record lens (S A : Type) := Lens { lget : S → A; lput : A → S → S }.
Arguments Lens {_ _} _ _.
Arguments lget {_ _} _ _.
Arguments lput {_ _} _ _ _.

Class LensLaws {S A} (l : lens S A) := {
  lget_lput a s : lget l (lput l a s) = a;
  lput_lget s : lput l (lget l s) s = s;
  lput_lput a b s : lput l a (lput l b s) = lput l a s
}.

Create HintDb blog.
Create Rewrite HintDb blog.

Section slice_neg.
Context {A : Type}.
Implicit Types l : list A.

Lemma length_slice_neg k l : length (slice_neg k l) = min k (length l).
Proof. unfold slice_neg. rewrite length_drop. lia. Qed.

Lemma slice_neg_short k l : length l ≤ k → slice_neg k l = l.
Proof. intros H. unfold slice_neg. by replace (length l - k) with 0 by lia. Qed.

(** The result is a suffix of the input. *)
Lemma slice_neg_suffix k l : ∃ p, l = p ++ slice_neg k l.
Proof. exists (take (length l - k) l). unfold slice_neg. by rewrite take_drop. Qed.

(** The last element survives a cap of at least one. *)
Lemma slice_neg_snoc k l x :
  0 < k → ∃ p, slice_neg k (l ++ [x]) = p ++ [x].
Proof.
  intros Hk. unfold slice_neg. rewrite length_app. simpl.
  rewrite drop_app_le by lia.
  by eexists.
Qed.

Lemma slice_neg_Forall (P : A → Prop) k l :
  Forall P l → Forall P (slice_neg k l).
Proof. intros H. unfold slice_neg. by apply Forall_drop. Qed.
End slice_neg.

#[export] Hint Resolve slice_neg_Forall : blog.
#[export] Hint Rewrite @length_slice_neg : blog.

(** ** Tactics *)

(** Case on every boolean decision and [if] of the goal, then clean up. *)
Ltac blog_cases :=
  repeat (case_bool_decide || case_decide || case_match); simplify_eq/=.

(** Close a goal about a definition by unfolding it and case analysis. *)
Ltac blog_crush := intros; simpl in *; blog_cases; eauto with blog; try done; try lia.
