(* ===== verification/ClassList.v ===== *)
(** * [Element.classList]: a DOMTokenList

    The script reads and changes classes only through [classList.add],
    [classList.remove], [classList.toggle] and [classList.contains] (lines
    240-248, 265-268, 273-280, 294-296, 324 of [src/index.js]) and sets a
    [class] attribute once per element ([className = ...], lines 80, 89,
    193).  A DOMTokenList is an ordered set of tokens: the attribute is
    split on ASCII whitespace and a token is kept at its first occurrence;
    [add] appends a token that is absent, [remove] deletes it, [toggle]
    does one or the other and returns whether the token is now present.

    All the tokens the script passes are literal class names, so the
    [SyntaxError]/[InvalidCharacterError] that the DOM raises for an empty
    token or one with whitespace cannot occur and is not modelled.

    Two token lists with the same tokens style an element the same way;
    [≡cl] is that equivalence, and every operation respects it. *)

From S2P Require Import Prelude.

Module ClassList.

(** The ASCII whitespace of the DOM: TAB, LF, FF, CR and SPACE. *)
Definition is_ascii_ws (c : ascii) : bool :=
  match nat_of_ascii c with
  | 9 | 10 | 12 | 13 | 32 => true
  | _ => false
  end.

(** Splitting a [class] attribute into its tokens; [cur] is the token read
    so far. *)
Fixpoint split_ws_from (cur : string) (s : string) : list string :=
  match s with
  | EmptyString => if String.eqb cur EmptyString then [] else [cur]
  | String c s' =>
      if is_ascii_ws c then
        (if String.eqb cur EmptyString then [] else [cur])
          ++ split_ws_from EmptyString s'
      else split_ws_from (cur +++ String c EmptyString) s'
  end.

Definition split_ws (s : string) : list string := split_ws_from EmptyString s.

Definition contains (tok : string) (l : list string) : bool :=
  bool_decide (tok ∈ l).

Definition add (tok : string) (l : list string) : list string :=
  if contains tok l then l else l ++ [tok].

Definition remove (tok : string) (l : list string) : list string :=
  filter (λ x, x ≠ tok) l.

(** [toggle] returns the new list and whether the token is now present. *)
Definition toggle (tok : string) (l : list string) : list string * bool :=
  if contains tok l then (remove tok l, false) else (add tok l, true).

(** The ordered-set parser run when [className] is assigned. *)
Definition of_className (s : string) : list string :=
  foldl (λ acc tok, add tok acc) [] (split_ws s).

(** Same tokens, in any order. *)
Definition cl_equiv (l1 l2 : list string) : Prop := ∀ x, x ∈ l1 ↔ x ∈ l2.

Notation "l1 ≡cl l2" := (cl_equiv l1 l2) (at level 70, no associativity) : blog_scope.

(** ** Membership after each operation *)

Lemma contains_true tok l : contains tok l = true ↔ tok ∈ l.
Proof. unfold contains. by rewrite bool_decide_eq_true. Qed.

Lemma contains_false tok l : contains tok l = false ↔ tok ∉ l.
Proof. unfold contains. by rewrite bool_decide_eq_false. Qed.

Lemma elem_of_add x tok l : x ∈ add tok l ↔ x = tok ∨ x ∈ l.
Proof.
  unfold add, contains. case_bool_decide.
  - naive_solver.
  - rewrite elem_of_app, list_elem_of_singleton. naive_solver.
Qed.

Lemma elem_of_remove x tok l : x ∈ remove tok l ↔ x ∈ l ∧ x ≠ tok.
Proof. unfold remove. rewrite list_elem_of_filter. naive_solver. Qed.

Lemma contains_add tok l : contains tok (add tok l) = true.
Proof. apply contains_true, elem_of_add. by left. Qed.

Lemma contains_remove tok l : contains tok (remove tok l) = false.
Proof. apply contains_false. rewrite elem_of_remove. naive_solver. Qed.

Lemma contains_add_ne tok tok' l :
  tok ≠ tok' → contains tok (add tok' l) = contains tok l.
Proof.
  intros Hne. unfold contains. apply bool_decide_ext.
  rewrite elem_of_add. naive_solver.
Qed.

Lemma contains_remove_ne tok tok' l :
  tok ≠ tok' → contains tok (remove tok' l) = contains tok l.
Proof.
  intros Hne. unfold contains. apply bool_decide_ext.
  rewrite elem_of_remove. naive_solver.
Qed.

(** [toggle] removes a present token and adds an absent one, and its
    result says which it did. *)
Lemma toggle_spec tok l :
  toggle tok l = (if contains tok l then remove tok l else add tok l,
                  negb (contains tok l)).
Proof. unfold toggle. by destruct (contains tok l). Qed.

Lemma toggle_contains tok l :
  snd (toggle tok l) = contains tok (fst (toggle tok l)).
Proof.
  rewrite toggle_spec. destruct (contains tok l); simpl;
    by rewrite ?contains_add, ?contains_remove.
Qed.

(** Adding a present token, or removing an absent one, changes nothing. *)
Lemma add_present tok l : tok ∈ l → add tok l = l.
Proof. intros H. unfold add. by rewrite (proj2 (contains_true tok l) H). Qed.

Lemma remove_absent tok l : tok ∉ l → remove tok l = l.
Proof.
  intros H. unfold remove. induction l as [|y l IH]; [done|].
  rewrite filter_cons_True by set_solver. f_equal. apply IH. set_solver.
Qed.

(** Removing a token just added gives the list back exactly. *)
Lemma remove_add tok l : tok ∉ l → remove tok (add tok l) = l.
Proof.
  intros H. unfold add. rewrite (proj2 (contains_false tok l) H).
  unfold remove. rewrite filter_app, filter_cons_False, filter_nil, app_nil_r
    by (intros Hn; by apply Hn).
  by apply remove_absent.
Qed.

(** ** Duplicate-freedom: a DOMTokenList never holds a token twice *)

Lemma NoDup_add tok l : NoDup l → NoDup (add tok l).
Proof.
  intros Hl. unfold add, contains. case_bool_decide; [done|].
  apply NoDup_app. split; [done|]. split; [|apply NoDup_singleton].
  intros x Hx ->%list_elem_of_singleton. done.
Qed.

Lemma NoDup_remove tok l : NoDup l → NoDup (remove tok l).
Proof. intros Hl. by apply NoDup_filter. Qed.

Lemma NoDup_toggle tok l : NoDup l → NoDup (fst (toggle tok l)).
Proof.
  intros Hl. rewrite toggle_spec. destruct (contains tok l); simpl.
  - by apply NoDup_remove.
  - by apply NoDup_add.
Qed.

Lemma NoDup_of_className s : NoDup (of_className s).
Proof.
  unfold of_className. generalize (@NoDup_nil_2 string).
  generalize (@nil string). induction (split_ws s) as [|tok ts IH]; simpl.
  - done.
  - intros acc Hacc. apply IH. by apply NoDup_add.
Qed.

Lemma elem_of_of_className x s : x ∈ of_className s ↔ x ∈ split_ws s.
Proof.
  unfold of_className.
  enough (∀ acc, x ∈ foldl (λ acc tok, add tok acc) acc (split_ws s)
                 ↔ x ∈ acc ∨ x ∈ split_ws s) as H.
  { rewrite H. set_solver. }
  induction (split_ws s) as [|tok ts IH]; intros acc; simpl.
  - set_solver.
  - rewrite IH, elem_of_add. set_solver.
Qed.

#[export] Hint Resolve NoDup_add NoDup_remove NoDup_toggle NoDup_of_className : blog.

(** ** The equivalence [≡cl] and the operations that respect it *)

#[export] Instance cl_equiv_equivalence : Equivalence cl_equiv.
Proof.
  split.
  - intros l x. done.
  - intros l1 l2 H x. by rewrite (H x).
  - intros l1 l2 l3 H1 H2 x. by rewrite (H1 x), (H2 x).
Qed.

#[export] Instance contains_proper : Proper (eq ==> cl_equiv ==> eq) contains.
Proof. intros t ? <- l1 l2 H. unfold contains. apply bool_decide_ext, H. Qed.

#[export] Instance add_proper : Proper (eq ==> cl_equiv ==> cl_equiv) add.
Proof. intros t ? <- l1 l2 H x. rewrite !elem_of_add. by rewrite (H x). Qed.

#[export] Instance remove_proper : Proper (eq ==> cl_equiv ==> cl_equiv) remove.
Proof. intros t ? <- l1 l2 H x. rewrite !elem_of_remove. by rewrite (H x). Qed.

Lemma toggle_fst_proper tok l1 l2 :
  l1 ≡cl l2 → fst (toggle tok l1) ≡cl fst (toggle tok l2).
Proof.
  intros H. rewrite !toggle_spec. simpl. rewrite (contains_proper tok tok eq_refl _ _ H).
  destruct (contains tok l2); [by apply remove_proper | by apply add_proper].
Qed.

(** Adding back a token that was removed restores the same tokens. *)
Lemma add_remove tok l : tok ∈ l → add tok (remove tok l) ≡cl l.
Proof.
  intros H x. rewrite elem_of_add, elem_of_remove.
  destruct (decide (x = tok)); naive_solver.
Qed.

End ClassList.
