(* ===== verification/Storage.v ===== *)
(** * [window.localStorage]

    The script uses two keys of the origin's storage, [blog_bw_mode_v1]
    (lines 251, 258, 282 of [src/index.js]) and [blog_comments_v1] (lines
    165, 173).  Storage is a map from strings to strings.  Two failures are
    modelled because the code guards every access with [try]/[catch]:
    storage that is disabled (privacy mode, a sandboxed frame: every access
    throws a [SecurityError]) and the origin quota (a write that would make
    the stored keys and values longer than the quota throws a
    [QuotaExceededError] and leaves the storage unchanged).  String lengths
    are counted in characters of the model's strings. *)

From S2P Require Import Prelude.

Module Storage.

Record storage := mkStorage {
  items : gmap string string;
  enabled : bool;
  quota : nat
}.

(** The space the stored keys and values take. *)
Definition usage (m : gmap string string) : nat :=
  map_fold (λ k v acc, String.length k + String.length v + acc) 0 m.

(** [localStorage.getItem(k)]: [null] is [None]. *)
Definition getItem (k : string) (st : storage) : js (option string) :=
  if enabled st then mret (items st !! k) else throw SecurityError.

(** [localStorage.setItem(k, v)]. *)
Definition setItem (k v : string) (st : storage) : js storage :=
  if negb (enabled st) then throw SecurityError
  else
    let m := <[k:=v]> (items st) in
    if bool_decide (quota st < usage m) then throw QuotaExceededError
    else mret {| items := m; enabled := true; quota := quota st |}.

(** [try { localStorage.setItem(k, v); } catch (e) { /* ignore */ }]: the
    pattern of lines 173, 251 and 282. *)
Definition setItem_quiet (k v : string) (st : storage) : storage :=
  catch_js (setItem k v st) (λ _, st).

(** A write of [k := v] that the storage accepts. *)
Definition write_fits (k v : string) (st : storage) : Prop :=
  enabled st = true ∧ usage (<[k:=v]> (items st)) ≤ quota st.

#[export] Instance write_fits_dec k v st : Decision (write_fits k v st).
Proof. unfold write_fits. apply _. Defined.

(** ** Lemmas *)

Lemma usage_insert k v m :
  usage (<[k:=v]> m) = String.length k + String.length v + usage (delete k m).
Proof.
  unfold usage. rewrite <- insert_delete_eq.
  rewrite (map_fold_insert_L (λ (k v : string) (acc : nat),
              String.length k + String.length v + acc));
    [done | intros; lia | apply lookup_delete_eq].
Qed.

(** Replacing a value by one of the same length uses the same space. *)
Lemma usage_insert_same_length k v1 v2 m :
  String.length v1 = String.length v2 →
  usage (<[k:=v1]> m) = usage (<[k:=v2]> m).
Proof. intros H. rewrite !usage_insert. lia. Qed.

Lemma setItem_fits k v st :
  write_fits k v st →
  setItem k v st = inr {| items := <[k:=v]> (items st); enabled := true;
                          quota := quota st |}.
Proof.
  intros [He Hq]. unfold setItem. rewrite He. simpl.
  rewrite bool_decide_false by lia. done.
Qed.

(** A write that does not fit throws, and the quiet write then leaves the
    storage as it was. *)
Lemma setItem_no_fit k v st :
  ¬ write_fits k v st → ∃ e, setItem k v st = inl e.
Proof.
  intros Hn. unfold setItem, write_fits in *.
  destruct (enabled st); simpl; [|by eexists].
  case_bool_decide; [by eexists | lia].
Qed.

Lemma setItem_quiet_fits k v st :
  write_fits k v st → items (setItem_quiet k v st) = <[k:=v]> (items st).
Proof. intros H. unfold setItem_quiet. by rewrite setItem_fits. Qed.

Lemma setItem_quiet_no_fit k v st :
  ¬ write_fits k v st → setItem_quiet k v st = st.
Proof.
  intros H. unfold setItem_quiet. by destruct (setItem_no_fit k v st H) as [e ->].
Qed.

(** The quiet write never changes whether storage is enabled, nor its
    quota, and it changes no key but [k]. *)
Lemma setItem_quiet_enabled k v st : enabled (setItem_quiet k v st) = enabled st.
Proof.
  unfold setItem_quiet, setItem, catch_js.
  destruct (enabled st) eqn:E; simpl; [case_bool_decide|]; simpl; done.
Qed.

Lemma setItem_quiet_quota k v st : quota (setItem_quiet k v st) = quota st.
Proof.
  unfold setItem_quiet, setItem, catch_js.
  destruct (enabled st); simpl; [case_bool_decide|]; done.
Qed.

Lemma setItem_quiet_other k k' v st :
  k ≠ k' → items (setItem_quiet k v st) !! k' = items st !! k'.
Proof.
  intros Hne. destruct (decide (write_fits k v st)) as [H|H].
  - rewrite setItem_quiet_fits by done. by apply lookup_insert_ne.
  - by rewrite setItem_quiet_no_fit.
Qed.

(** Read-after-write: the value just written is read back. *)
Lemma getItem_setItem k v st st' :
  setItem k v st = inr st' → getItem k st' = inr (Some v).
Proof.
  unfold setItem, getItem. destruct (enabled st); simpl; [|done].
  case_bool_decide; [done|]. intros [= <-]. simpl. by rewrite lookup_insert_eq.
Qed.

Lemma getItem_disabled k st : enabled st = false → getItem k st = inl SecurityError.
Proof. intros H. unfold getItem. by rewrite H. Qed.

Lemma getItem_enabled k st : enabled st = true → getItem k st = inr (items st !! k).
Proof. intros H. unfold getItem. by rewrite H. Qed.

(** Writing the value a key already holds changes nothing. *)
Lemma setItem_quiet_same k v st :
  write_fits k v st → items st !! k = Some v → setItem_quiet k v st = st.
Proof.
  intros Hw Hk. unfold setItem_quiet. rewrite setItem_fits by done.
  destruct st as [m e q]; destruct Hw as [He _]; simpl in *; subst.
  by rewrite insert_id.
Qed.

(** A second write of the same key overwrites the first. *)
Lemma setItem_quiet_twice k v1 v2 st :
  write_fits k v1 st → write_fits k v2 st →
  setItem_quiet k v2 (setItem_quiet k v1 st) = setItem_quiet k v2 st.
Proof.
  intros Hw1 Hw2. unfold setItem_quiet at 2. rewrite setItem_fits by done.
  unfold setItem_quiet. rewrite !setItem_fits; simpl.
  - by rewrite insert_insert_eq.
  - done.
  - destruct Hw2 as [_ Hq]. split; [done|]. simpl. by rewrite insert_insert_eq.
Qed.

#[export] Hint Resolve setItem_fits : blog.
#[export] Hint Rewrite setItem_quiet_enabled setItem_quiet_quota : blog.

End Storage.
