(* ===== verification/Theme.v ===== *)
(** * The theme toggle

    Lines 100-106 and 236-283 of [src/index.js], and [setBW]/[isBW] of the
    external API (lines 323-324).  The state the toggle touches is the
    class list of [<html>], the class list and [aria-pressed] attribute of
    the B/W button, and the storage; [theme] gathers them.  BW mode is the
    class [bw] on [<html>] ([isBW]).

    The operations are [applyBW] (lines 237-253), [loadPref] (256-262), the
    start-up fix-up of the button class [initBtnClass] (265-269), the click
    handler [bw_click] (272-283) and [setBW] (323).  [theme_init] is the
    start-up sequence: the button as [mkBtn] builds it, then [loadPref],
    then the fix-up.

    The theorems: the click handler is [applyBW (!isBW) true] (the two code
    paths the spec asks to keep identical do agree); the invariant
    [theme_inv] (the button shows exactly one of its two state classes, the
    one matching [<html>], and [aria-pressed] agrees) holds from start-up
    through every click and API call; start-up never writes storage; the
    stored preference is ["1"] exactly in BW mode as long as storage accepts
    the writes; two clicks give the same page back up to class order. *)

From S2P Require Import Prelude ClassList Storage.
Import ClassList Storage.

Module Theme.

Definition LS_KEY : string := "blog_bw_mode_v1".
Definition BTN_ON : string := "bw-toggle-btn-on".
Definition BTN_OFF : string := "bw-toggle-btn-off".
Definition BW : string := "bw".

Record theme := mkTheme {
  html_cls : list string;    (** [document.documentElement.classList] *)
  btn_cls : list string;     (** [bwBtn.classList] *)
  btn_pressed : string;      (** [bwBtn]'s [aria-pressed] attribute *)
  store : storage            (** [localStorage] *)
}.

(** ** The toolbar buttons: [mkBtn] (lines 84-98)

    The class attribute is the four strings joined by spaces, the last one
    being [extraClasses] (empty by default, which leaves a trailing space);
    [aria-pressed] is ["true"] or ["false"].  Title and inner HTML are
    static text and not modelled. *)
Definition mkBtn_className (extraClasses : string) : string :=
  "w-11 h-11 rounded-lg border flex items-center justify-center" +++ " "
  +++ "bg-white text-black border-gray-200 shadow-sm" +++ " "
  +++ "hover:-translate-y-1 transition-transform" +++ " " +++ extraClasses.

Definition aria_bool (b : bool) : string := if b then "true" else "false".

Definition mkBtn (pressed : bool) (extraClasses : string) : list string * string :=
  (of_className (mkBtn_className extraClasses), aria_bool pressed).

(** [document.documentElement.classList.contains('bw')]: [isBW] of the API
    (line 324), also the test of line 265. *)
Definition isBW (s : theme) : bool := contains BW (html_cls s).

(** The stored form of a boolean, [enabled ? '1' : '0']. *)
Definition pref_value (b : bool) : string := if b then "1" else "0".

(** [applyBW(enabled, persist)], lines 237-253. *)
Definition applyBW (enabled persist : bool) (s : theme) : theme :=
  let s1 :=
    if enabled then
      {| html_cls := add BW (html_cls s);
         btn_cls := add BTN_ON (remove BTN_OFF (btn_cls s));
         btn_pressed := "true";
         store := store s |}
    else
      {| html_cls := remove BW (html_cls s);
         btn_cls := add BTN_OFF (remove BTN_ON (btn_cls s));
         btn_pressed := "false";
         store := store s |} in
  if persist then
    {| html_cls := html_cls s1; btn_cls := btn_cls s1; btn_pressed := btn_pressed s1;
       store := setItem_quiet LS_KEY (pref_value enabled) (store s1) |}
  else s1.

(** [loadPref], lines 256-262: BW mode exactly when the stored value is
    ["1"]; a missing value, any other value, or a storage access that
    throws all give light-off, and nothing is written. *)
Definition loadPref (s : theme) : theme :=
  match getItem LS_KEY (store s) with
  | inr v => if bool_decide (v = Some "1") then applyBW true false s
             else applyBW false false s
  | inl _ => applyBW false false s
  end.

(** Lines 265-269: add the state class matching [<html>]. *)
Definition initBtnClass (s : theme) : theme :=
  if contains BW (html_cls s) then
    {| html_cls := html_cls s; btn_cls := add BTN_ON (btn_cls s);
       btn_pressed := btn_pressed s; store := store s |}
  else
    {| html_cls := html_cls s; btn_cls := add BTN_OFF (btn_cls s);
       btn_pressed := btn_pressed s; store := store s |}.

(** The click handler of the B/W button, lines 272-283. *)
Definition bw_click (s : theme) : theme :=
  let '(root, enabled) := toggle BW (html_cls s) in
  {| html_cls := root;
     btn_pressed := aria_bool enabled;
     btn_cls := if enabled then add BTN_ON (remove BTN_OFF (btn_cls s))
                else add BTN_OFF (remove BTN_ON (btn_cls s));
     store := setItem_quiet LS_KEY (pref_value enabled) (store s) |}.

(** [__blogUI.setBW(v)], line 323, once [Boolean(v)] is computed. *)
Definition setBW (v : bool) (s : theme) : theme := applyBW v true s.

(** Start-up: the B/W button as [mkBtn] builds it (lines 101-105), then
    [loadPref] and the fix-up.  [html_class] is the [class] attribute of
    [<html>] in the page's markup and [st] the storage at page load. *)
Definition theme_init (html_class : string) (st : storage) : theme :=
  let '(cls, pressed) := mkBtn false EmptyString in
  initBtnClass (loadPref {| html_cls := of_className html_class; btn_cls := cls;
                            btn_pressed := pressed; store := st |}).

(** The events that reach the toggle after start-up: a click on the button
    (also what the [b] shortcut does, line 311) and [__blogUI.setBW]. *)
Inductive theme_event :=
  | Click
  | SetBW (v : bool).

Definition theme_step (ev : theme_event) (s : theme) : theme :=
  match ev with
  | Click => bw_click s
  | SetBW v => setBW v s
  end.

Definition run_theme (evs : list theme_event) (s : theme) : theme :=
  foldl (λ s ev, theme_step ev s) s evs.

(** ** The toggle the spec describes

    Spec section 4.1 describes the theme as one boolean that a click flips
    and [setBW(v)] sets; [mode_step] is that machine. *)
Definition mode_step (ev : theme_event) (m : bool) : bool :=
  match ev with
  | Click => negb m
  | SetBW v => v
  end.

Definition run_mode (evs : list theme_event) (m : bool) : bool :=
  foldl (λ m ev, mode_step ev m) m evs.

(** ** Invariants and relations *)

(** The button shows exactly one state class, the one that matches
    [<html>], and [aria-pressed] says the same. *)
Definition theme_inv (s : theme) : Prop :=
  NoDup (html_cls s) ∧ NoDup (btn_cls s) ∧
  (BTN_ON ∈ btn_cls s ↔ isBW s = true) ∧
  (BTN_OFF ∈ btn_cls s ↔ isBW s = false) ∧
  btn_pressed s = aria_bool (isBW s).

(** Storage accepts every write of the preference. *)
Definition store_ok (s : theme) : Prop :=
  write_fits LS_KEY "1" (store s).

(** The stored preference is ["1"] exactly in BW mode. *)
Definition pref_synced (s : theme) : Prop :=
  items (store s) !! LS_KEY = Some "1" ↔ isBW s = true.

(** The same page up to the order of classes. *)
Definition theme_equiv (s1 s2 : theme) : Prop :=
  html_cls s1 ≡cl html_cls s2 ∧ btn_cls s1 ≡cl btn_cls s2 ∧
  btn_pressed s1 = btn_pressed s2 ∧ store s1 = store s2.

Notation "s1 ≡th s2" := (theme_equiv s1 s2) (at level 70, no associativity) : blog_scope.

#[export] Instance theme_inv_dec s : Decision (theme_inv s).
Proof. unfold theme_inv. apply _. Defined.

#[export] Instance pref_synced_dec s : Decision (pref_synced s).
Proof. unfold pref_synced. apply _. Defined.

#[export] Instance store_ok_dec s : Decision (store_ok s).
Proof. unfold store_ok. apply _. Defined.

(** ** Lemmas on the operations *)

Lemma isBW_applyBW e p s : isBW (applyBW e p s) = e.
Proof.
  unfold isBW, applyBW. destruct e, p; simpl;
    by rewrite ?contains_add, ?contains_remove.
Qed.

Lemma btn_cls_applyBW e p s :
  btn_cls (applyBW e p s) =
    if e then add BTN_ON (remove BTN_OFF (btn_cls s))
    else add BTN_OFF (remove BTN_ON (btn_cls s)).
Proof. by destruct e, p. Qed.

Lemma html_cls_applyBW e p s :
  html_cls (applyBW e p s) = if e then add BW (html_cls s) else remove BW (html_cls s).
Proof. by destruct e, p. Qed.

Lemma btn_pressed_applyBW e p s : btn_pressed (applyBW e p s) = aria_bool e.
Proof. by destruct e, p. Qed.

Lemma store_applyBW e p s :
  store (applyBW e p s) =
    if p then setItem_quiet LS_KEY (pref_value e) (store s) else store s.
Proof. by destruct e, p. Qed.

#[export] Hint Rewrite isBW_applyBW btn_cls_applyBW html_cls_applyBW
  btn_pressed_applyBW store_applyBW : blog.

(** [applyBW] establishes the invariant from any duplicate-free state. *)
Lemma applyBW_inv e p s :
  NoDup (html_cls s) → NoDup (btn_cls s) → theme_inv (applyBW e p s).
Proof.
  intros Hh Hb. unfold theme_inv. autorewrite with blog.
  destruct e; rewrite ?elem_of_add, ?elem_of_remove;
    unfold BTN_ON, BTN_OFF; repeat split; eauto with blog; naive_solver.
Qed.

(** On a state that satisfies the invariant the start-up fix-up of lines
    265-269 adds a class that is already there. *)
Lemma initBtnClass_id s : theme_inv s → initBtnClass s = s.
Proof.
  intros (_ & _ & Hon & Hoff & _). unfold initBtnClass.
  fold (isBW s). destruct (isBW s) eqn:E.
  - rewrite add_present by (by apply Hon). by destruct s.
  - rewrite add_present by (by apply Hoff). by destruct s.
Qed.

Lemma theme_init_eq html_class st :
  theme_init html_class st =
    loadPref {| html_cls := of_className html_class;
                btn_cls := of_className (mkBtn_className EmptyString);
                btn_pressed := "false"; store := st |}.
Proof.
  unfold theme_init, mkBtn. simpl. apply initBtnClass_id.
  unfold loadPref. repeat case_match; apply applyBW_inv; simpl; eauto with blog.
Qed.

Lemma loadPref_spec s :
  loadPref s = applyBW (bool_decide (getItem LS_KEY (store s) = inr (Some "1"))) false s.
Proof. unfold loadPref. repeat case_match; blog_cases; done. Qed.

(** A quiet write of a one-character value keeps the storage able to take
    the next one. *)
Lemma store_ok_write b s :
  store_ok s → write_fits LS_KEY (pref_value b) (store s).
Proof.
  intros [He Hq]. split; [done|].
  by rewrite (usage_insert_same_length _ _ "1") by (by destruct b).
Qed.

Lemma store_ok_applyBW e p s : store_ok s → store_ok (applyBW e p s).
Proof.
  intros Hs. unfold store_ok. rewrite store_applyBW. destruct p; [|done].
  pose proof (store_ok_write e s Hs) as Hw. destruct Hs as [He Hq].
  split; [by rewrite setItem_quiet_enabled|].
  rewrite setItem_quiet_fits, setItem_quiet_quota, insert_insert_eq by done. done.
Qed.

Lemma items_applyBW_persist e s :
  store_ok s → items (store (applyBW e true s)) = <[LS_KEY:=pref_value e]> (items (store s)).
Proof. intros Hs. rewrite store_applyBW. by apply setItem_quiet_fits, store_ok_write. Qed.

Lemma pref_synced_applyBW_persist e s : store_ok s → pref_synced (applyBW e true s).
Proof.
  intros Hs. unfold pref_synced. rewrite items_applyBW_persist, isBW_applyBW by done.
  rewrite lookup_insert_eq. destruct e; naive_solver.
Qed.

(** ** The click handler is [applyBW] *)

Lemma bw_click_eq s : bw_click s = applyBW (negb (isBW s)) true s.
Proof.
  unfold bw_click, applyBW, isBW. rewrite toggle_spec.
  by destruct (contains BW (html_cls s)).
Qed.

(** C1. The click handler of the B/W button (lines 272-283) computes, on
    every state, exactly what [applyBW(!isBW(), true)] computes: the two
    copies of the state-sync logic that spec section 4.1 asks to keep
    behaviourally identical are identical, including the storage write. *)
Theorem bw_click_applyBW s : bw_click s = applyBW (negb (isBW s)) true s.
Proof.
  unfold bw_click, applyBW, isBW. rewrite toggle_spec.
  by destruct (contains BW (html_cls s)).
Qed.

Lemma theme_step_applyBW ev s : ∃ e, theme_step ev s = applyBW e true s.
Proof. destruct ev; simpl; [rewrite bw_click_eq|]; by eexists. Qed.

Lemma theme_step_inv ev s : theme_inv s → theme_inv (theme_step ev s).
Proof.
  intros (Hh & Hb & _). destruct (theme_step_applyBW ev s) as [e ->].
  by apply applyBW_inv.
Qed.

Lemma run_theme_inv evs s : theme_inv s → theme_inv (run_theme evs s).
Proof.
  revert s. induction evs as [|ev evs IH]; intros s Hs; simpl; [done|].
  apply IH, theme_step_inv, Hs.
Qed.

(** C2. From start-up on, whatever the page's [<html>] classes and the
    storage hold, and after any sequence of clicks and [setBW] calls, the
    B/W button carries exactly one of [bw-toggle-btn-on] and
    [bw-toggle-btn-off], the one that matches the [bw] class of [<html>],
    and its [aria-pressed] attribute agrees. *)
Theorem theme_reachable_inv html_class st evs :
  theme_inv (run_theme evs (theme_init html_class st)).
Proof.
  apply run_theme_inv. rewrite theme_init_eq, loadPref_spec.
  apply applyBW_inv; simpl; eauto with blog.
Qed.

Lemma theme_init_store html_class st : store (theme_init html_class st) = st.
Proof. rewrite theme_init_eq, loadPref_spec. by rewrite store_applyBW. Qed.

Lemma theme_init_isBW html_class st :
  isBW (theme_init html_class st) = bool_decide (getItem LS_KEY st = inr (Some "1")).
Proof. rewrite theme_init_eq, loadPref_spec. by rewrite isBW_applyBW. Qed.

Lemma isBW_theme_step ev s : isBW (theme_step ev s) = mode_step ev (isBW s).
Proof. destruct ev; simpl; [rewrite bw_click_eq|]; unfold setBW; by rewrite isBW_applyBW. Qed.

Lemma isBW_run_theme evs s : isBW (run_theme evs s) = run_mode evs (isBW s).
Proof.
  revert s. induction evs as [|ev evs IH]; intros s; [done|]. simpl.
  rewrite IH. f_equal. apply isBW_theme_step.
Qed.

(** C21. Start-up reads the preference and never writes it back: the
    storage after [theme_init] is the storage at page load, and BW mode is
    on exactly when the stored value is the string ["1"]. *)
Theorem theme_init_spec html_class st :
  store (theme_init html_class st) = st ∧
  isBW (theme_init html_class st) = bool_decide (getItem LS_KEY st = inr (Some "1")).
Proof.
  split; [apply theme_init_store | apply theme_init_isBW].
Qed.

Lemma run_theme_store_ok evs s : store_ok s → store_ok (run_theme evs s).
Proof.
  revert s. induction evs as [|ev evs IH]; intros s Hs; simpl; [done|].
  apply IH. destruct (theme_step_applyBW ev s) as [e ->]. by apply store_ok_applyBW.
Qed.

(** C22. If the storage is enabled and has room for the preference, then
    from start-up and after any sequence of clicks and [setBW] calls the
    stored preference is ["1"] exactly when [<html>] has the class [bw]:
    the next page load restores the mode the user left. *)
Theorem theme_pref_synced html_class st evs :
  write_fits LS_KEY "1" st →
  pref_synced (run_theme evs (theme_init html_class st)).
Proof.
  intros Hfit. assert (Hok : store_ok (theme_init html_class st)).
  { unfold store_ok. by rewrite (theme_init_store html_class st). }
  destruct evs as [|ev evs] using rev_ind.
  - unfold pref_synced. simpl. rewrite (theme_init_isBW html_class st).
    destruct Hfit as [He _]. rewrite getItem_enabled by done.
    rewrite (theme_init_store html_class st).
    split; intros H; [rewrite H|]; case_bool_decide; naive_solver.
  - unfold run_theme. rewrite foldl_app. simpl. fold (run_theme evs (theme_init html_class st)).
    destruct (theme_step_applyBW ev (run_theme evs (theme_init html_class st))) as [e ->].
    by apply pref_synced_applyBW_persist, run_theme_store_ok.
Qed.

(** C17. The page's theme refines the spec's boolean toggle: after
    start-up and any sequence of clicks and [setBW] calls, BW mode is
    what the one-boolean machine computes from the same events, started
    in the mode the stored preference selects. *)
Theorem theme_refines_mode html_class st evs :
  isBW (run_theme evs (theme_init html_class st)) =
    run_mode evs (bool_decide (getItem LS_KEY st = inr (Some "1"))).
Proof. by rewrite isBW_run_theme, theme_init_isBW. Qed.

(** ** Comparing states up to class order *)

#[export] Instance theme_equiv_equivalence : Equivalence theme_equiv.
Proof.
  split.
  - intros s. unfold theme_equiv. done.
  - intros s1 s2 (H1 & H2 & H3 & H4). unfold theme_equiv. by rewrite H1, H2, H3, H4.
  - intros s1 s2 s3 (H1 & H2 & H3 & H4) (G1 & G2 & G3 & G4). unfold theme_equiv.
    by rewrite H1, H2, H3, H4.
Qed.

#[export] Instance isBW_proper : Proper (theme_equiv ==> eq) isBW.
Proof. intros s1 s2 (H & _). unfold isBW. by rewrite H. Qed.

#[export] Instance applyBW_proper : Proper (eq ==> eq ==> theme_equiv ==> theme_equiv) applyBW.
Proof.
  intros e ? <- p ? <- s1 s2 (H1 & H2 & H3 & H4).
  split; [|split; [|split]];
    rewrite ?html_cls_applyBW, ?btn_cls_applyBW, ?btn_pressed_applyBW, ?store_applyBW.
  - destruct e; by rewrite H1.
  - destruct e; by rewrite H2.
  - done.
  - by rewrite H4.
Qed.

#[export] Instance bw_click_proper : Proper (theme_equiv ==> theme_equiv) bw_click.
Proof.
  intros s1 s2 H. rewrite !bw_click_eq. rewrite H at 1. by apply applyBW_proper.
Qed.

Ltac cl_solve :=
  simpl; intros ?x; repeat rewrite ?elem_of_add, ?elem_of_remove;
  destruct (decide (x = BW)), (decide (x = BTN_ON)), (decide (x = BTN_OFF));
  subst; unfold BTN_ON, BTN_OFF, BW in *; naive_solver.

(** C31. Two clicks on the B/W button give the page back: [<html>] and the
    button have the same classes as before (possibly in another order),
    [aria-pressed] is the same and the storage is the same, provided the
    storage accepts writes and already held the canonical value of the
    current mode. *)
Theorem theme_double_click s :
  theme_inv s → store_ok s → items (store s) !! LS_KEY = Some (pref_value (isBW s)) →
  bw_click (bw_click s) ≡th s.
Proof.
  intros (Hh & Hb & Hon & Hoff & Hp) Hok Hk.
  rewrite !bw_click_eq, isBW_applyBW, negb_involutive.
  pose proof (contains_true BW (html_cls s)) as Hbw. fold (isBW s) in Hbw.
  split; [|split; [|split]].
  - rewrite !html_cls_applyBW. destruct (isBW s); cl_solve.
  - rewrite !btn_cls_applyBW. destruct (isBW s); cl_solve.
  - by rewrite btn_pressed_applyBW.
  - rewrite !store_applyBW, setItem_quiet_twice by (by apply store_ok_write).
    by apply setItem_quiet_same; [apply store_ok_write|].
Qed.

(** C32. Two clicks always leave the canonical value of the current mode in
    storage when storage accepts writes, whatever it held before; in
    particular a preference that was never stored is stored as ["0"]
    after two clicks, not left absent. *)
Theorem theme_double_click_store s :
  store_ok s →
  items (store (bw_click (bw_click s))) = <[LS_KEY:=pref_value (isBW s)]> (items (store s)).
Proof.
  intros Hok. rewrite !bw_click_eq, isBW_applyBW, negb_involutive.
  rewrite items_applyBW_persist by (by apply store_ok_applyBW).
  rewrite items_applyBW_persist by done. apply insert_insert_eq.
Qed.

(** ** Witnesses *)

Lemma theme_pref_synced_witness :
  let st := {| items := ∅; enabled := true; quota := 5000 |} in
  write_fits LS_KEY "1" st ∧
  pref_synced (run_theme [Click; SetBW false; Click] (theme_init "dark" st)).
Proof.
  intros st. assert (H : write_fits LS_KEY "1" st)
    by (apply (bool_decide_unpack _); vm_compute; reflexivity).
  split; [exact H | apply theme_pref_synced, H].
Defined.

Lemma theme_double_click_witness :
  let s := run_theme [Click]
             (theme_init "dark" {| items := ∅; enabled := true; quota := 5000 |}) in
  (theme_inv s ∧ store_ok s ∧ items (store s) !! LS_KEY = Some (pref_value (isBW s))) ∧
  bw_click (bw_click s) ≡th s.
Proof.
  intros s. assert (H1 : theme_inv s) by (apply (bool_decide_unpack _); vm_compute; reflexivity).
  assert (H2 : store_ok s) by (apply (bool_decide_unpack _); vm_compute; reflexivity).
  assert (H3 : items (store s) !! LS_KEY = Some (pref_value (isBW s))) by (vm_compute; reflexivity).
  split; [exact (conj H1 (conj H2 H3)) | apply theme_double_click; assumption].
Defined.

Lemma theme_double_click_store_witness :
  let s := theme_init EmptyString {| items := ∅; enabled := true; quota := 5000 |} in
  store_ok s ∧ items (store s) !! LS_KEY = None ∧
  items (store (bw_click (bw_click s))) = <[LS_KEY:="0"]> (items (store s)).
Proof.
  intros s. assert (H : store_ok s) by (apply (bool_decide_unpack _); vm_compute; reflexivity).
  split; [exact H | split; [vm_compute; reflexivity |]].
  rewrite (theme_double_click_store s H). vm_compute. reflexivity.
Defined.

End Theme.
