(* ===== verification/JsString.v ===== *)
(** * JavaScript string primitives the script calls

    [String.prototype.trim] (lines 213 and 218 of [src/index.js]) and
    [String.prototype.replace] with a global one-character regular
    expression (lines 155-159, inside [escapeHtml]).

    Strings are Stdlib [string]s: a JavaScript string is a sequence of
    UTF-16 code units, and the model keeps the code units 0-255 (Latin-1),
    which is what an [ascii] holds.  [trim] removes the ECMAScript
    WhiteSpace and LineTerminator code units of that range: TAB, LF, VT,
    FF, CR, SPACE and NO-BREAK SPACE (U+00A0); the others (U+1680,
    U+2000-U+200A, U+2028, U+2029, U+202F, U+205F, U+3000, U+FEFF) lie
    outside the modelled range. *)

From S2P Require Import Prelude.

Module JsString.

(** WhiteSpace or LineTerminator, ECMAScript sections 12.2 and 12.3. *)
Definition is_js_ws (c : ascii) : bool :=
  match nat_of_ascii c with
  | 9 | 10 | 11 | 12 | 13 | 32 | 160 => true
  | _ => false
  end.

Fixpoint trim_start (s : string) : string :=
  match s with
  | EmptyString => EmptyString
  | String c s' => if is_js_ws c then trim_start s' else s
  end.

Fixpoint str_rev (s : string) : string :=
  match s with
  | EmptyString => EmptyString
  | String c s' => str_rev s' +++ String c EmptyString
  end.

Definition trim_end (s : string) : string := str_rev (trim_start (str_rev s)).

(** [s.trim()]. *)
Definition trim (s : string) : string := trim_end (trim_start s).

(** [s.replace(/c/g, r)]: every occurrence of the character [c] is
    replaced by [r], scanning left to right; the replacement text is not
    scanned again. *)
Fixpoint replace_all (c : ascii) (r : string) (s : string) : string :=
  match s with
  | EmptyString => EmptyString
  | String d s' =>
      (if Ascii.eqb d c then r else String d EmptyString) +++ replace_all c r s'
  end.

(** The first character is whitespace. *)
Definition starts_ws (s : string) : bool :=
  match s with
  | String c _ => is_js_ws c
  | EmptyString => false
  end.

(** The last character is whitespace. *)
Definition ends_ws (s : string) : bool := starts_ws (str_rev s).

(** Characters of a string, as a predicate. *)
Fixpoint str_Forall (P : ascii → Prop) (s : string) : Prop :=
  match s with
  | EmptyString => True
  | String c s' => P c ∧ str_Forall P s'
  end.

(** ** Lemmas on strings *)

(** stdpp makes [simpl] leave [String.append] alone; these two equations
    are its computation rules. *)
Lemma append_nil_l s : EmptyString +++ s = s.
Proof. reflexivity. Qed.

Lemma append_cons c s t : String c s +++ t = String c (s +++ t).
Proof. reflexivity. Qed.

#[export] Hint Rewrite append_nil_l append_cons : blog.

Lemma append_nil_r s : s +++ EmptyString = s.
Proof. induction s as [|c s IH]; [done|]. by rewrite append_cons, IH. Qed.

Lemma append_assoc s1 s2 s3 : (s1 +++ s2) +++ s3 = s1 +++ (s2 +++ s3).
Proof. induction s1 as [|c s IH]; [done|]. by rewrite !append_cons, IH. Qed.

Lemma length_append s1 s2 : String.length (s1 +++ s2) = String.length s1 + String.length s2.
Proof. induction s1 as [|c s IH]; [done|]. rewrite append_cons. simpl. by rewrite IH. Qed.

#[export] Hint Rewrite append_nil_r append_assoc length_append : blog.

Lemma str_rev_append s1 s2 : str_rev (s1 +++ s2) = str_rev s2 +++ str_rev s1.
Proof.
  induction s1 as [|c s IH].
  - simpl. by rewrite append_nil_r.
  - rewrite append_cons. simpl. by rewrite IH, append_assoc.
Qed.

Lemma str_rev_involutive s : str_rev (str_rev s) = s.
Proof. induction s as [|c s IH]; simpl; [done|]. by rewrite str_rev_append, IH. Qed.

Lemma length_str_rev s : String.length (str_rev s) = String.length s.
Proof. induction s as [|c s IH]; simpl; [done|]. rewrite length_append. simpl. lia. Qed.

Lemma str_Forall_append P s1 s2 :
  str_Forall P (s1 +++ s2) ↔ str_Forall P s1 ∧ str_Forall P s2.
Proof.
  induction s1 as [|c s IH]; [simpl; naive_solver|].
  rewrite append_cons. simpl. rewrite IH. naive_solver.
Qed.

Lemma str_Forall_rev P s : str_Forall P (str_rev s) ↔ str_Forall P s.
Proof.
  induction s as [|c s IH]; simpl; [done|].
  rewrite str_Forall_append, IH. simpl. naive_solver.
Qed.

Lemma replace_all_append c r s1 s2 :
  replace_all c r (s1 +++ s2) = replace_all c r s1 +++ replace_all c r s2.
Proof.
  induction s1 as [|d s IH]; [done|]. rewrite append_cons. simpl.
  by rewrite IH, append_assoc.
Qed.

(** A string without the character is left as it is. *)
Lemma replace_all_absent c r s :
  str_Forall (λ d, d ≠ c) s → replace_all c r s = s.
Proof.
  induction s as [|d s IH]; simpl; [done|]. intros [Hd Hs].
  rewrite IH by done. destruct (Ascii.eqb_spec d c); [done|]. by rewrite append_cons.
Qed.

(** ** [trim] *)

(** The prefix [trim_start] drops is whitespace. *)
Lemma trim_start_split s :
  ∃ p, s = p +++ trim_start s ∧ str_Forall (λ c, is_js_ws c = true) p.
Proof.
  induction s as [|c s (p & Hp & Hws)]; simpl.
  - by exists EmptyString.
  - destruct (is_js_ws c) eqn:E.
    + exists (String c p). rewrite append_cons, <- Hp. simpl. done.
    + by exists EmptyString.
Qed.

(** [trim_start] stops at a character that is not whitespace. *)
Lemma trim_start_head s :
  match trim_start s with EmptyString => True | String c _ => is_js_ws c = false end.
Proof.
  induction s as [|c s IH]; simpl; [done|].
  destruct (is_js_ws c) eqn:E; [done | exact E].
Qed.

Lemma trim_start_idem s : trim_start (trim_start s) = trim_start s.
Proof.
  pose proof (trim_start_head s) as H. destruct (trim_start s) as [|c s'] eqn:E; [done|].
  simpl. by rewrite H.
Qed.

(** [trim s] is [s] with a whitespace prefix and a whitespace suffix cut
    off. *)
Lemma trim_split s :
  ∃ p q, s = p +++ trim s +++ q ∧
         str_Forall (λ c, is_js_ws c = true) p ∧ str_Forall (λ c, is_js_ws c = true) q.
Proof.
  destruct (trim_start_split s) as (p & Hp & Hwp).
  destruct (trim_start_split (str_rev (trim_start s))) as (q & Hq & Hwq).
  exists p, (str_rev q). split; [|split; [done | by apply str_Forall_rev]].
  unfold trim, trim_end. rewrite <- str_rev_append, <- Hq, str_rev_involutive.
  exact Hp.
Qed.

Lemma length_trim s : String.length (trim s) ≤ String.length s.
Proof.
  destruct (trim_split s) as (p & q & Hs & _). rewrite Hs at 2.
  rewrite !length_append. lia.
Qed.

Lemma trim_start_no_ws s : starts_ws (trim_start s) = false.
Proof. pose proof (trim_start_head s) as H. by destruct (trim_start s). Qed.

Lemma trim_start_id s : starts_ws s = false → trim_start s = s.
Proof. destruct s as [|c s]; simpl; [done|]. intros H. by rewrite H. Qed.

Lemma trim_end_no_ws s : ends_ws (trim_end s) = false.
Proof. unfold ends_ws, trim_end. rewrite str_rev_involutive. apply trim_start_no_ws. Qed.

Lemma trim_end_id s : ends_ws s = false → trim_end s = s.
Proof. unfold ends_ws, trim_end. intros H. by rewrite trim_start_id, str_rev_involutive. Qed.

(** [trim_end] keeps a prefix of the string. *)
Lemma trim_end_prefix s : ∃ q, s = trim_end s +++ q.
Proof.
  destruct (trim_start_split (str_rev s)) as (p & Hp & _).
  exists (str_rev p). unfold trim_end. rewrite <- str_rev_append, <- Hp.
  by rewrite str_rev_involutive.
Qed.

Lemma starts_ws_trim_end s : starts_ws s = false → starts_ws (trim_end s) = false.
Proof.
  destruct (trim_end_prefix s) as [q Hq]. intros H.
  destruct (trim_end s) as [|c r]; [done|]. rewrite Hq in H. exact H.
Qed.

Lemma trim_no_ws s : starts_ws (trim s) = false ∧ ends_ws (trim s) = false.
Proof.
  split; [apply starts_ws_trim_end, trim_start_no_ws | apply trim_end_no_ws].
Qed.

Lemma trim_idem s : trim (trim s) = trim s.
Proof.
  destruct (trim_no_ws s) as [H1 H2].
  unfold trim at 1. rewrite (trim_start_id (trim s) H1). by apply trim_end_id.
Qed.

(** C26. [s.trim()] removes exactly the whitespace at both ends: the
    string is a run of whitespace, the result, and another run of
    whitespace, and the result neither starts nor ends with whitespace;
    trimming twice is trimming once. *)
Theorem trim_spec s :
  (∃ p q, s = p +++ trim s +++ q ∧
          str_Forall (λ c, is_js_ws c = true) p ∧ str_Forall (λ c, is_js_ws c = true) q) ∧
  starts_ws (trim s) = false ∧ ends_ws (trim s) = false ∧ trim (trim s) = trim s.
Proof.
  destruct (trim_no_ws s) as [H1 H2].
  split_and!; [apply trim_split | done | done | apply trim_idem].
Qed.

End JsString.
