(* ===== verification/Escape.v ===== *)
(** * [escapeHtml]: the five chained replacements

    Lines 153-160 of [src/index.js]: [escapeHtml(s)] converts [s] with
    [String(s)] and then replaces, in this order and each time globally,
    the ampersand by [&amp;], [<] by [&lt;], [>] by [&gt;], the double
    quote by [&quot;] and the single quote by [&#39;].
    [escape_chain] is the chain of replacements on the string [String(s)];
    the conversion [String(s)] of an arbitrary value is in [Json]
    ([to_js_string]) and the whole function in [Comments] ([escapeHtml]).

    [escape_ref] is the one-pass escaper a reader would expect (each
    character replaced by its entity).  The chain equals it because [&] is
    replaced first: a later pass inserts [&] but never meets it again.

    [html_text] is how the HTML parser reads a string assigned to
    [innerHTML] when the string is plain text: it decodes the five
    character references the escaper produces.  On a [<] (which may open
    a tag) or on any other [&] (which may start one of the many other
    character references) it answers [None]: [html_text s = Some t] means
    the browser shows [s] as the text node [t], and [None] means "not known
    to be plain text".  The theorems show that escaped text is always read
    back as exactly the original string: a comment body containing
    [<script>] or [&] is shown literally, never interpreted. *)

From S2P Require Import Prelude JsString.
Import JsString.

Module Escape.

Definition DQ : ascii := "034".   (** the double quote *)
Definition SQ : ascii := "039".   (** the single quote *)

Definition escape_chain (s : string) : string :=
  replace_all SQ "&#39;"
    (replace_all DQ "&quot;"
      (replace_all ">" "&gt;"
        (replace_all "<" "&lt;"
          (replace_all "&" "&amp;" s)))).

(** The entity of one character. *)
Definition escape_char (c : ascii) : string :=
  if Ascii.eqb c "&" then "&amp;"
  else if Ascii.eqb c "<" then "&lt;"
  else if Ascii.eqb c ">" then "&gt;"
  else if Ascii.eqb c DQ then "&quot;"
  else if Ascii.eqb c SQ then "&#39;"
  else String c EmptyString.

Fixpoint escape_ref (s : string) : string :=
  match s with
  | EmptyString => EmptyString
  | String c s' => escape_char c +++ escape_ref s'
  end.

(** The characters [escapeHtml] must never leave in its output. *)
Definition markup_char (c : ascii) : bool :=
  Ascii.eqb c "<" || Ascii.eqb c ">" || Ascii.eqb c DQ || Ascii.eqb c SQ.

(** The HTML parser on text content (see the file header). *)
Fixpoint html_text (s : string) : option string :=
  match s with
  | EmptyString => Some EmptyString
  | String c r =>
      if Ascii.eqb c "<" then None
      else if negb (Ascii.eqb c "&") then String c <$> html_text r
      else
        match r with
        | String "a" (String "m" (String "p" (String ";" r'))) => String "&" <$> html_text r'
        | String "l" (String "t" (String ";" r')) => String "<" <$> html_text r'
        | String "g" (String "t" (String ";" r')) => String ">" <$> html_text r'
        | String "q" (String "u" (String "o" (String "t" (String ";" r')))) =>
            String DQ <$> html_text r'
        | String "#" (String "3" (String "9" (String ";" r'))) => String SQ <$> html_text r'
        | _ => None
        end
  end.

(** ** The chain of replacements is the one-pass escaper *)

Lemma replace_all_single c r d :
  replace_all c r (String d EmptyString) = if Ascii.eqb d c then r else String d EmptyString.
Proof. simpl. by rewrite append_nil_r. Qed.

Lemma escape_chain_append s1 s2 :
  escape_chain (s1 +++ s2) = escape_chain s1 +++ escape_chain s2.
Proof. unfold escape_chain. by rewrite !replace_all_append. Qed.

Lemma escape_chain_char c : escape_chain (String c EmptyString) = escape_char c.
Proof.
  unfold escape_chain, escape_char.
  destruct (Ascii.eqb_spec c "&"); [subst; reflexivity|].
  destruct (Ascii.eqb_spec c "<"); [subst; reflexivity|].
  destruct (Ascii.eqb_spec c ">"); [subst; reflexivity|].
  destruct (Ascii.eqb_spec c DQ); [subst; reflexivity|].
  destruct (Ascii.eqb_spec c SQ); [subst; reflexivity|].
  repeat first
    [ rewrite replace_all_single
    | match goal with
      | H : c ≠ ?x |- context [Ascii.eqb c ?x] =>
          rewrite (proj2 (Ascii.eqb_neq c x) H); cbv iota beta
      end ].
  done.
Qed.

Lemma escape_chain_one_pass s : escape_chain s = escape_ref s.
Proof.
  induction s as [|c s IH]; [reflexivity|].
  change (String c s) with (String c EmptyString +++ s).
  by rewrite escape_chain_append, escape_chain_char, IH.
Qed.

(** C23. The five chained [replace] calls of [escapeHtml] compute the
    one-pass escaper: every character is replaced by its own entity, and
    no entity is escaped twice. *)
Theorem escape_chain_ref s : escape_chain s = escape_ref s.
Proof. apply escape_chain_one_pass. Qed.

(** ** The output holds no markup character *)

Lemma escape_char_safe c : str_Forall (λ d, markup_char d = false) (escape_char c).
Proof.
  unfold escape_char.
  destruct (Ascii.eqb_spec c "&"); [done|].
  destruct (Ascii.eqb_spec c "<"); [done|].
  destruct (Ascii.eqb_spec c ">"); [done|].
  destruct (Ascii.eqb_spec c DQ); [done|].
  destruct (Ascii.eqb_spec c SQ); [done|].
  simpl. split; [|done]. unfold markup_char.
  repeat match goal with
  | H : c ≠ ?x |- context [Ascii.eqb c ?x] => rewrite (proj2 (Ascii.eqb_neq c x) H)
  end.
  done.
Qed.

(** C7. Whatever the input, the output of [escapeHtml]'s replacements
    contains none of [<], [>], the double quote and the single quote, so
    it can neither open a tag nor close an attribute value. *)
Theorem escape_chain_no_markup s :
  str_Forall (λ c, markup_char c = false) (escape_chain s).
Proof.
  rewrite escape_chain_one_pass. induction s as [|c s IH]; [done|].
  simpl. apply str_Forall_append. split; [apply escape_char_safe | exact IH].
Qed.

(** ** The browser reads the escaped text back as the original string *)

Lemma html_text_plain c r :
  Ascii.eqb c "<" = false → Ascii.eqb c "&" = false →
  html_text (String c r) = String c <$> html_text r.
Proof. intros H1 H2. simpl. by rewrite H1, H2. Qed.

Lemma html_text_escape_char c r :
  html_text (escape_char c +++ r) = String c <$> html_text r.
Proof.
  unfold escape_char.
  destruct (Ascii.eqb_spec c "&"); [subst; reflexivity|].
  destruct (Ascii.eqb_spec c "<"); [subst; reflexivity|].
  destruct (Ascii.eqb_spec c ">"); [subst; reflexivity|].
  destruct (Ascii.eqb_spec c DQ); [subst; reflexivity|].
  destruct (Ascii.eqb_spec c SQ); [subst; reflexivity|].
  rewrite append_cons, append_nil_l. apply html_text_plain; by apply Ascii.eqb_neq.
Qed.

Lemma html_text_escape_ref s : html_text (escape_ref s) = Some s.
Proof.
  induction s as [|c s IH]; [reflexivity|].
  simpl. by rewrite html_text_escape_char, IH.
Qed.

(** C3. The markup that [escapeHtml]'s replacements produce is read by
    the HTML parser as a single text node equal to the original string:
    a body such as [<script>] or [a & b] is displayed literally and never
    interpreted as markup. *)
Theorem html_text_escape s : html_text (escape_chain s) = Some s.
Proof. rewrite escape_chain_one_pass. apply html_text_escape_ref. Qed.

(** Example: the spec's [<script>] case. *)
Example escape_script :
  escape_chain "<script>alert(1)</script> & co" =
    "&lt;script&gt;alert(1)&lt;/script&gt; &amp; co".
Proof. reflexivity. Qed.

End Escape.
