(* ===== verification/Json.v ===== *)
(** * JSON values, [JSON.stringify], [JSON.parse] and the JavaScript view
      of a parsed value

    The comment board keeps [comments], the result of [JSON.parse] on the
    stored text (line 167 of [src/index.js]), and writes it back with
    [JSON.stringify] (line 173).  The script never checks the shape of the
    parsed elements: [renderComments] reads [c.name], [c.body] and [c.ts]
    of whatever the array holds (lines 196-201) and passes them to
    [escapeHtml], which converts them with [String(s)].  This file models
    the values [JSON.parse] can return ([json]), the two library functions,
    and the three JavaScript operations the script applies to such values:
    property access ([get_prop], a [TypeError] on [null]), truthiness
    ([truthy], for [c.name ? ... : 'Anonymous']) and [String(v)]
    ([to_js_string]; a [TypeError] for an object with an own [toString]
    key, since [JSON.parse] data holds no functions).

    Modelling choices, stated once:
    - numbers are integers ([Z]) printed in plain decimal, which is what
      JavaScript prints for integers below [10^21] (the timestamps the
      board writes are about [1.7 * 10^12]); the model's parser rejects a
      fraction or an exponent (see [Not modelled] in the root file);
    - strings are Latin-1 code units (as in [JsString]); [\uXXXX] escapes
      above [ÿ] are rejected by the model's parser;
    - objects are lists of (key, value) pairs with distinct keys, in
      insertion order; [JSON.parse] keeps the first position and the last
      value of a repeated key, as [parse_members] does.  The reordering of
      integer-like keys that JavaScript applies is not modelled. *)

From Stdlib Require Import ZArith DecimalString DecimalN.
From S2P Require Import Prelude JsString.
Import JsString.

#[local] Set Warnings "-register-all".

Module Json.

Inductive json :=
  | JNull
  | JBool (b : bool)
  | JNum (n : Z)
  | JStr (s : string)
  | JArr (l : list json)
  | JObj (fields : list (string * json)).

(** Induction over values whose arrays and objects hold values. *)
Section json_ind.
Variable P : json → Prop.
Hypothesis HNull : P JNull.
Hypothesis HBool : ∀ b, P (JBool b).
Hypothesis HNum : ∀ n, P (JNum n).
Hypothesis HStr : ∀ s, P (JStr s).
Hypothesis HArr : ∀ l, Forall P l → P (JArr l).
Hypothesis HObj : ∀ fs, Forall (λ kv, P kv.2) fs → P (JObj fs).

Fixpoint json_ind_nested (v : json) : P v :=
  match v with
  | JNull => HNull
  | JBool b => HBool b
  | JNum n => HNum n
  | JStr s => HStr s
  | JArr l =>
      HArr l ((fix go (l : list json) : Forall P l :=
                 match l with
                 | [] => Forall_nil_2 _
                 | x :: l' => Forall_cons_2 _ _ _ (json_ind_nested x) (go l')
                 end) l)
  | JObj fs =>
      HObj fs ((fix go (fs : list (string * json)) : Forall (λ kv, P kv.2) fs :=
                  match fs with
                  | [] => Forall_nil_2 _
                  | kv :: fs' => Forall_cons_2 _ _ _ (json_ind_nested kv.2) (go fs')
                  end) fs)
  end.
End json_ind.

(** ** Printing: [JSON.stringify] *)

Definition DQ : ascii := "034".
Definition BS : ascii := "092".

(** A lower-case hexadecimal digit. *)
Definition hex_digit (n : nat) : ascii :=
  ascii_of_nat (if n <? 10 then 48 + n else 87 + n).

(** One code unit of QuoteJSONString (ECMAScript 25.5.2.3). *)
Definition quote_char (c : ascii) : string :=
  match nat_of_ascii c with
  | 8 => String BS "b"
  | 9 => String BS "t"
  | 10 => String BS "n"
  | 12 => String BS "f"
  | 13 => String BS "r"
  | 34 => String BS (String DQ EmptyString)
  | 92 => String BS (String BS EmptyString)
  | n => if n <? 32
         then String BS ("u00" +++ String (hex_digit (n / 16))
                                   (String (hex_digit (n mod 16)) EmptyString))
         else String c EmptyString
  end.

Fixpoint quote_body (s : string) : string :=
  match s with
  | EmptyString => EmptyString
  | String c s' => quote_char c +++ quote_body s'
  end.

Definition quote (s : string) : string :=
  String DQ (quote_body s +++ String DQ EmptyString).

(** The decimal text of an integer, as [Number.prototype.toString] prints
    an integer below [10^21]. *)
Definition N_to_string (n : N) : string := NilEmpty.string_of_uint (N.to_uint n).

Definition Z_to_string (z : Z) : string :=
  match z with
  | Zneg p => "-" +++ N_to_string (Npos p)
  | _ => N_to_string (Z.to_N z)
  end.

(** [JSON.stringify(v)] on a value with no [undefined], function or
    cycle, which is every value [JSON.parse] returns and every value the
    board builds. *)
Fixpoint stringify (v : json) : string :=
  match v with
  | JNull => "null"
  | JBool true => "true"
  | JBool false => "false"
  | JNum n => Z_to_string n
  | JStr s => quote s
  | JArr [] => "[]"
  | JArr (x :: l) =>
      "[" +++ stringify x +++
        (fix go (l : list json) : string :=
           match l with
           | [] => "]"
           | y :: l' => "," +++ stringify y +++ go l'
           end) l
  | JObj [] => "{}"
  | JObj ((k, x) :: fs) =>
      "{" +++ quote k +++ ":" +++ stringify x +++
        (fix go (fs : list (string * json)) : string :=
           match fs with
           | [] => "}"
           | (k', y) :: fs' => "," +++ quote k' +++ ":" +++ stringify y +++ go fs'
           end) fs
  end.

(** ** The JavaScript view of a value *)

(** [v.k] for the keys the script reads ([name], [body], [ts]): [null]
    throws, an object gives its own property, any other value gives
    [undefined] ([None]). *)
Fixpoint assoc (k : string) (fs : list (string * json)) : option json :=
  match fs with
  | [] => None
  | (k', v) :: fs' => if String.eqb k k' then Some v else assoc k fs'
  end.

Definition get_prop (v : json) (k : string) : js (option json) :=
  match v with
  | JNull => throw TypeError
  | JObj fs => mret (assoc k fs)
  | _ => mret None
  end.

(** ToBoolean of a property value ([None] is [undefined]). *)
Definition truthy (v : option json) : bool :=
  match v with
  | None | Some JNull => false
  | Some (JBool b) => b
  | Some (JNum n) => negb (Z.eqb n 0)
  | Some (JStr s) => negb (String.eqb s EmptyString)
  | Some (JArr _) | Some (JObj _) => true
  end.

(** [String(v)] (ToString after ToPrimitive with hint string).  An array
    is joined with commas, [null] elements giving the empty string; an
    object with an own [toString] key has no callable [toString] and an
    inherited [valueOf] that returns the object itself, so the conversion
    throws. *)
Fixpoint to_js_string (v : json) : js string :=
  match v with
  | JNull => mret "null"
  | JBool b => mret (if b then "true" else "false")
  | JNum n => mret (Z_to_string n)
  | JStr s => mret s
  | JArr [] => mret EmptyString
  | JArr (x :: l) =>
      s ← (match x with JNull => mret EmptyString | _ => to_js_string x end);
      r ← (fix go (l : list json) : js string :=
             match l with
             | [] => mret EmptyString
             | y :: l' =>
                 s ← (match y with JNull => mret EmptyString | _ => to_js_string y end);
                 r ← go l';
                 mret ("," +++ s +++ r)
             end) l;
      mret (s +++ r)
  | JObj fs =>
      if bool_decide ("toString" ∈ fs.*1) then throw TypeError
      else mret "[object Object]"
  end.

(** [String(undefined)]. *)
Definition to_js_string_opt (v : option json) : js string :=
  match v with
  | None => mret "undefined"
  | Some x => to_js_string x
  end.

End Json.
