(* ===== verification/JsonParse.v ===== *)
(** * [JSON.parse]

    [loadComments] (lines 163-171 of [src/index.js]) parses the stored text
    with [JSON.parse], which throws a [SyntaxError] on anything that is not
    exactly one JSON value surrounded by JSON whitespace (ECMAScript 25.5.1
    and the JSON grammar of RFC 8259).

    [parse_value] is a recursive-descent parser over the text.  Its
    recursion is not on a subterm of the input, so it carries a fuel
    argument that bounds the nesting of calls; [JSON_parse] gives it one
    unit more than the length of the text.  Every nested call starts
    strictly later in the text, so this is enough: [JsonFuel] proves that
    any larger fuel gives the same answer.

    A member list [{"a":1,"a":2}] builds an object whose key [a] keeps
    its first position and its last value ([obj_insert]), as
    CreateDataProperty does. *)

From Stdlib Require Import ZArith DecimalString DecimalN.
From S2P Require Import Prelude JsString Json.
Import JsString Json.

Module JsonParse.

(** JSON whitespace: TAB, LF, CR and SPACE. *)
Definition is_json_ws (c : ascii) : bool :=
  match nat_of_ascii c with
  | 9 | 10 | 13 | 32 => true
  | _ => false
  end.

Fixpoint skip_ws (s : string) : string :=
  match s with
  | String c r => if is_json_ws c then skip_ws r else s
  | EmptyString => EmptyString
  end.

(** The decimal digit constructor of a character. *)
Definition digit_cons (c : ascii) : option (Decimal.uint → Decimal.uint) :=
  match c with
  | "0" => Some Decimal.D0 | "1" => Some Decimal.D1 | "2" => Some Decimal.D2
  | "3" => Some Decimal.D3 | "4" => Some Decimal.D4 | "5" => Some Decimal.D5
  | "6" => Some Decimal.D6 | "7" => Some Decimal.D7 | "8" => Some Decimal.D8
  | "9" => Some Decimal.D9
  | _ => None
  end%char.

(** The longest run of digits at the start of a text. *)
Fixpoint read_digits (s : string) : Decimal.uint * string :=
  match s with
  | String c r =>
      match digit_cons c with
      | Some d => let '(u, r') := read_digits r in (d u, r')
      | None => (Decimal.Nil, s)
      end
  | EmptyString => (Decimal.Nil, EmptyString)
  end.

(** The integer part of a number: [0], or a non-zero digit followed by
    digits. *)
Definition parse_nat (s : string) : option (N * string) :=
  match s with
  | String "0" r => Some (0%N, r)
  | String c _ =>
      match digit_cons c with
      | Some _ => let '(u, r) := read_digits s in Some (N.of_uint u, r)
      | None => None
      end
  | EmptyString => None
  end.

(** A fraction or an exponent follows: the model stops there. *)
Definition starts_frac_exp (s : string) : bool :=
  match s with
  | String c _ => Ascii.eqb c "." || Ascii.eqb c "e" || Ascii.eqb c "E"
  | EmptyString => false
  end.

Definition parse_unsigned (neg : bool) (s : string) : option (Z * string) :=
  match parse_nat s with
  | Some (n, r) =>
      if starts_frac_exp r then None
      else Some (if neg then Z.opp (Z.of_N n) else Z.of_N n, r)
  | None => None
  end.

Definition parse_number (s : string) : option (Z * string) :=
  match s with
  | String "-" r => parse_unsigned true r
  | _ => parse_unsigned false s
  end%char.

Definition hex_val (c : ascii) : option nat :=
  let n := nat_of_ascii c in
  if (48 <=? n) && (n <=? 57) then Some (n - 48)
  else if (97 <=? n) && (n <=? 102) then Some (n - 87)
  else if (65 <=? n) && (n <=? 70) then Some (n - 55)
  else None.

(** Prepend a decoded character to the result of the rest of a literal. *)
Definition cons_fst (c : ascii) (o : option (string * string)) : option (string * string) :=
  match o with
  | Some (t, r) => Some (String c t, r)
  | None => None
  end.

(** The code unit of four hexadecimal digits. *)
Definition hex4 (h1 h2 h3 h4 : ascii) : option nat :=
  match hex_val h1, hex_val h2, hex_val h3, hex_val h4 with
  | Some d1, Some d2, Some d3, Some d4 => Some (((d1 * 16 + d2) * 16 + d3) * 16 + d4)
  | _, _, _, _ => None
  end.

(** The characters of a string literal after its opening quote, up to and
    without the closing quote; the rest of the text follows. *)
Fixpoint parse_str_body (s : string) : option (string * string) :=
  match s with
  | EmptyString => None
  | String c r =>
      if Ascii.eqb c DQ then Some (EmptyString, r)
      else if Ascii.eqb c BS then
        match r with
        | String e r' =>
            match e with
            | "034" => cons_fst DQ (parse_str_body r')
            | "092" => cons_fst BS (parse_str_body r')
            | "/" => cons_fst "/" (parse_str_body r')
            | "b" => cons_fst "008" (parse_str_body r')
            | "f" => cons_fst "012" (parse_str_body r')
            | "n" => cons_fst "010" (parse_str_body r')
            | "r" => cons_fst "013" (parse_str_body r')
            | "t" => cons_fst "009" (parse_str_body r')
            | "u" =>
                match r' with
                | String h1 (String h2 (String h3 (String h4 r''))) =>
                    match hex4 h1 h2 h3 h4 with
                    | Some code =>
                        if Nat.ltb code 256 then cons_fst (ascii_of_nat code) (parse_str_body r'')
                        else None
                    | None => None
                    end
                | _ => None
                end
            | _ => None
            end%char
        | EmptyString => None
        end
      else if nat_of_ascii c <? 32 then None
      else cons_fst c (parse_str_body r)
  end.

(** A member [k: v] of an object, from left to right: a repeated key keeps
    its first position and takes the new value. *)
Fixpoint obj_insert (k : string) (v : json) (fs : list (string * json)) :
    list (string * json) :=
  match fs with
  | [] => [(k, v)]
  | (k', v') :: fs' => if String.eqb k k' then (k, v) :: fs' else (k', v') :: obj_insert k v fs'
  end.

Definition obj_of_members (ms : list (string * json)) : list (string * json) :=
  foldl (λ fs kv, obj_insert kv.1 kv.2 fs) [] ms.

Fixpoint parse_value (fuel : nat) (s : string) : option (json * string) :=
  match fuel with
  | O => None
  | S f =>
      match skip_ws s with
      | String "n" (String "u" (String "l" (String "l" r))) => Some (JNull, r)
      | String "t" (String "r" (String "u" (String "e" r))) => Some (JBool true, r)
      | String "f" (String "a" (String "l" (String "s" (String "e" r)))) =>
          Some (JBool false, r)
      | String "[" r =>
          match skip_ws r with
          | String "]" r' => Some (JArr [], r')
          | r1 =>
              match parse_value f r1 with
              | Some (v, r2) =>
                  match parse_elems f r2 with
                  | Some (vs, r3) => Some (JArr (v :: vs), r3)
                  | None => None
                  end
              | None => None
              end
          end
      | String "{" r =>
          match skip_ws r with
          | String "}" r' => Some (JObj [], r')
          | r1 =>
              match parse_member f r1 with
              | Some (kv, r2) =>
                  match parse_members f r2 with
                  | Some (ms, r3) => Some (JObj (obj_of_members (kv :: ms)), r3)
                  | None => None
                  end
              | None => None
              end
          end
      | String c r as s' =>
          if Ascii.eqb c DQ then
            match parse_str_body r with
            | Some (t, r') => Some (JStr t, r')
            | None => None
            end
          else
            match parse_number s' with
            | Some (z, r') => Some (JNum z, r')
            | None => None
            end
      | EmptyString => None
      end%char
  end

(** The elements after the first one, up to the closing bracket. *)
with parse_elems (fuel : nat) (s : string) : option (list json * string) :=
  match fuel with
  | O => None
  | S f =>
      match skip_ws s with
      | String "," r =>
          match parse_value f r with
          | Some (v, r1) =>
              match parse_elems f r1 with
              | Some (vs, r2) => Some (v :: vs, r2)
              | None => None
              end
          | None => None
          end
      | String "]" r => Some ([], r)
      | _ => None
      end%char
  end

(** One member [key : value]. *)
with parse_member (fuel : nat) (s : string) : option ((string * json) * string) :=
  match fuel with
  | O => None
  | S f =>
      match skip_ws s with
      | String c r =>
          if Ascii.eqb c DQ then
            match parse_str_body r with
            | Some (k, r1) =>
                match skip_ws r1 with
                | String ":" r2 =>
                    match parse_value f r2 with
                    | Some (v, r3) => Some ((k, v), r3)
                    | None => None
                    end
                | _ => None
                end%char
            | None => None
            end
          else None
      | EmptyString => None
      end
  end

(** The members after the first one, up to the closing brace. *)
with parse_members (fuel : nat) (s : string) : option (list (string * json) * string) :=
  match fuel with
  | O => None
  | S f =>
      match skip_ws s with
      | String "," r =>
          match parse_member f r with
          | Some (kv, r1) =>
              match parse_members f r1 with
              | Some (ms, r2) => Some (kv :: ms, r2)
              | None => None
              end
          | None => None
          end
      | String "}" r => Some ([], r)
      | _ => None
      end%char
  end.

(** [JSON.parse(s)]. *)
Definition JSON_parse (s : string) : js json :=
  match parse_value (S (String.length s)) s with
  | Some (v, r) => if String.eqb (skip_ws r) EmptyString then mret v else throw SyntaxError
  | None => throw SyntaxError
  end.

End JsonParse.
