(* ===== verification/JsonRoundtrip.v ===== *)
(** * [JSON.parse] reads back what [JSON.stringify] writes

    The comment board persists its array with [JSON.stringify] and reloads
    it with [JSON.parse] (lines 165-173 of [src/index.js]).  This file
    proves that on every well-formed value (objects without a repeated key,
    [json_wf]) [JSON_parse (stringify v) = inr v]: the literal, number,
    string, array and object cases, each as a lemma on [parse_value]
    applied to the printed text followed by any text that can follow a
    value.  The fuel the parser needs is bounded by the length of the
    printed text, so the fuel [JSON_parse] gives is enough. *)

From Stdlib Require Import ZArith DecimalString DecimalN.
From S2P Require Import Prelude JsString Json JsonParse.
Import JsString Json JsonParse.

Module JsonRoundtrip.

(** Objects have distinct keys, at every depth. *)
Fixpoint json_wfb (v : json) : bool :=
  match v with
  | JArr l => (fix go (l : list json) : bool :=
                 match l with [] => true | x :: l' => json_wfb x && go l' end) l
  | JObj fs =>
      bool_decide (NoDup fs.*1) &&
      (fix go (fs : list (string * json)) : bool :=
         match fs with [] => true | kv :: fs' => json_wfb kv.2 && go fs' end) fs
  | _ => true
  end.

Definition json_wf (v : json) : Prop := json_wfb v = true.

(** The text that may follow a value: nothing, or a character that cannot
    continue it. *)
Definition value_stop (rest : string) : Prop :=
  match rest with
  | EmptyString => True
  | String c _ => digit_cons c = None ∧ starts_frac_exp rest = false
  end.

(** The tails of the array and object texts, as [stringify] writes them. *)
Fixpoint elems_tail (l : list json) : string :=
  match l with
  | [] => "]"
  | y :: l' => "," +++ stringify y +++ elems_tail l'
  end.

Fixpoint members_tail (fs : list (string * json)) : string :=
  match fs with
  | [] => "}"
  | (k, y) :: fs' => "," +++ quote k +++ ":" +++ stringify y +++ members_tail fs'
  end.

(** ** Strings *)

Lemma parse_str_body_quote_char c t :
  parse_str_body (quote_char c +++ t) = cons_fst c (parse_str_body t).
Proof. destruct c as [[] [] [] [] [] [] [] []]; reflexivity. Qed.

Lemma parse_str_body_quote s rest :
  parse_str_body (quote_body s +++ String DQ rest) = Some (s, rest).
Proof.
  induction s as [|c s IH]; [reflexivity|]. simpl.
  by rewrite append_assoc, parse_str_body_quote_char, IH.
Qed.

(** ** Numbers *)

Lemma read_digits_uint u rest :
  match rest with String c _ => digit_cons c = None | EmptyString => True end →
  read_digits (NilEmpty.string_of_uint u +++ rest) = (u, rest).
Proof.
  intros Hr. induction u; simpl; rewrite ?IHu; try reflexivity.
  destruct rest as [|c r]; simpl; [done|]. by rewrite Hr.
Qed.

Lemma nzhead_not_D0 u w : Decimal.nzhead u ≠ Decimal.D0 w.
Proof. induction u; simpl; congruence. Qed.

(** [N.to_uint] writes no leading zero. *)
Lemma to_uint_shape n :
  N.to_uint n = Decimal.D0 Decimal.Nil ∨
  (N.to_uint n ≠ Decimal.Nil ∧ ∀ w, N.to_uint n ≠ Decimal.D0 w).
Proof.
  assert (Hu : N.to_uint n = Decimal.unorm (N.to_uint n)).
  { by rewrite <- DecimalN.Unsigned.to_of, DecimalN.Unsigned.of_to. }
  rewrite Hu. unfold Decimal.unorm.
  pose proof (nzhead_not_D0 (N.to_uint n)) as Hnz.
  destruct (Decimal.nzhead (N.to_uint n)) eqn:E; [by left| ..];
    right; split; try congruence; intros w [= ->]; by apply (Hnz w).
Qed.

Lemma parse_nat_digit c r :
  c ≠ "0"%char → digit_cons c ≠ None →
  parse_nat (String c r) = let '(u, r') := read_digits (String c r) in Some (N.of_uint u, r').
Proof. intros H0 Hd. destruct c as [[] [] [] [] [] [] [] []]; done. Qed.

Lemma parse_nat_N n rest :
  value_stop rest → parse_nat (N_to_string n +++ rest) = Some (n, rest).
Proof.
  intros Hr. unfold N_to_string.
  assert (Hrd : match rest with String c _ => digit_cons c = None | EmptyString => True end)
    by (destruct rest; [done | apply Hr]).
  pose proof (DecimalN.Unsigned.of_to n) as Hn.
  destruct (to_uint_shape n) as [H0 | [Hnil Hd0]].
  - rewrite H0 in *. simpl in Hn. subst n. reflexivity.
  - assert (∃ c r, NilEmpty.string_of_uint (N.to_uint n) +++ rest = String c r ∧
                   c ≠ "0"%char ∧ digit_cons c ≠ None) as (c & r & Hcr & Hc0 & Hcd).
    { destruct (N.to_uint n); try done; [by destruct (Hd0 u)|..]; by do 2 eexists. }
    rewrite Hcr, parse_nat_digit by done. rewrite <- Hcr, read_digits_uint by done.
    by rewrite Hn.
Qed.

(** The start of a printed number. *)
Lemma N_to_string_head n rest :
  ∃ c r, N_to_string n +++ rest = String c r ∧ digit_cons c ≠ None.
Proof.
  unfold N_to_string. destruct (to_uint_shape n) as [H0 | [Hnil _]].
  - rewrite H0. by do 2 eexists.
  - destruct (N.to_uint n); try done; by do 2 eexists.
Qed.

Lemma parse_unsigned_N b n rest :
  value_stop rest →
  parse_unsigned b (N_to_string n +++ rest) =
    Some (if b then Z.opp (Z.of_N n) else Z.of_N n, rest).
Proof.
  intros Hr. unfold parse_unsigned. rewrite parse_nat_N by done.
  destruct rest as [|c r]; [done|]. by destruct Hr as [_ ->].
Qed.

Lemma parse_number_digit c r :
  digit_cons c ≠ None → parse_number (String c r) = parse_unsigned false (String c r).
Proof. intros Hd. destruct c as [[] [] [] [] [] [] [] []]; done. Qed.

Lemma parse_number_Z z rest :
  value_stop rest → parse_number (Z_to_string z +++ rest) = Some (z, rest).
Proof.
  intros Hr. destruct z as [|p|p].
  - change (Z_to_string 0) with (N_to_string 0).
    destruct (N_to_string_head 0 rest) as (c & r & Hcr & Hd).
    rewrite Hcr, parse_number_digit, <- Hcr by done.
    by rewrite parse_unsigned_N.
  - change (Z_to_string (Z.pos p)) with (N_to_string (N.pos p)).
    destruct (N_to_string_head (N.pos p) rest) as (c & r & Hcr & Hd).
    rewrite Hcr, parse_number_digit, <- Hcr by done.
    by rewrite parse_unsigned_N.
  - change (Z_to_string (Z.neg p) +++ rest)
      with (String "-" (N_to_string (N.pos p) +++ rest)).
    change (parse_number (String "-" (N_to_string (N.pos p) +++ rest)))
      with (parse_unsigned true (N_to_string (N.pos p) +++ rest)).
    by rewrite parse_unsigned_N.
Qed.

(** ** Values *)

Lemma stringify_arr x l : stringify (JArr (x :: l)) = "[" +++ stringify x +++ elems_tail l.
Proof. reflexivity. Qed.

Lemma stringify_obj k x fs :
  stringify (JObj ((k, x) :: fs)) = "{" +++ quote k +++ ":" +++ stringify x +++ members_tail fs.
Proof. reflexivity. Qed.

Lemma json_wfb_arr l : json_wfb (JArr l) = forallb json_wfb l.
Proof. reflexivity. Qed.

Lemma json_wfb_obj fs :
  json_wfb (JObj fs) = bool_decide (NoDup fs.*1) && forallb (λ kv, json_wfb kv.2) fs.
Proof. reflexivity. Qed.

(** A printed value starts with a character that is neither JSON
    whitespace nor a closing bracket. *)
Lemma stringify_head v rest :
  ∃ c r, stringify v +++ rest = String c r ∧ is_json_ws c = false ∧ c ≠ "]"%char.
Proof.
  destruct v as [|[]|z|s|[|x l]|[|[k x] fs]]; try by do 2 eexists.
  change (stringify (JNum z)) with (Z_to_string z).
  destruct z as [|p|p]; [change (Z_to_string 0) with (N_to_string 0)
                        |change (Z_to_string (Z.pos p)) with (N_to_string (N.pos p))
                        |by do 2 eexists].
  - destruct (N_to_string_head 0 rest) as (c & r & -> & Hd).
    exists c, r. destruct c as [[] [] [] [] [] [] [] []]; done.
  - destruct (N_to_string_head (N.pos p) rest) as (c & r & -> & Hd).
    exists c, r. destruct c as [[] [] [] [] [] [] [] []]; done.
Qed.

Lemma skip_ws_cons c r : is_json_ws c = false → skip_ws (String c r) = String c r.
Proof. intros H. simpl. by rewrite H. Qed.

(** One step of [parse_value] on a text that starts like a number. *)
Lemma parse_value_numstart f c r :
  (c = "-"%char ∨ digit_cons c ≠ None) →
  parse_value (S f) (String c r) =
    match parse_number (String c r) with Some (z, r') => Some (JNum z, r') | None => None end.
Proof. intros Hc. destruct c as [[] [] [] [] [] [] [] []]; naive_solver. Qed.

Lemma parse_value_num f z rest :
  value_stop rest → parse_value (S f) (stringify (JNum z) +++ rest) = Some (JNum z, rest).
Proof.
  intros Hr. change (stringify (JNum z)) with (Z_to_string z).
  assert (∃ c r, Z_to_string z +++ rest = String c r ∧ (c = "-"%char ∨ digit_cons c ≠ None))
    as (c & r & Hcr & Hc).
  { destruct z as [|p|p]; [change (Z_to_string 0) with (N_to_string 0)
                          |change (Z_to_string (Z.pos p)) with (N_to_string (N.pos p))
                          |by do 2 eexists; split; [|left]].
    - destruct (N_to_string_head 0 rest) as (c & r & -> & Hd). eauto.
    - destruct (N_to_string_head (N.pos p) rest) as (c & r & -> & Hd). eauto. }
  rewrite Hcr, parse_value_numstart, <- Hcr by done. by rewrite parse_number_Z.
Qed.

(** A [[] that is followed by a value, not by [[]]. *)
Lemma parse_value_arr_open f v t :
  parse_value (S f) ("[" +++ stringify v +++ t) =
    match parse_value f (stringify v +++ t) with
    | Some (x, r2) =>
        match parse_elems f r2 with
        | Some (vs, r3) => Some (JArr (x :: vs), r3)
        | None => None
        end
    | None => None
    end.
Proof.
  destruct (stringify_head v t) as (c & r & Hcr & Hws & Hc).
  rewrite append_cons, append_nil_l, Hcr.
  destruct c as [[] [] [] [] [] [] [] []]; first [reflexivity | naive_solver].
Qed.

Lemma parse_value_obj_open f k t :
  parse_value (S f) ("{" +++ quote k +++ t) =
    match parse_member f (quote k +++ t) with
    | Some (kv, r2) =>
        match parse_members f r2 with
        | Some (ms, r3) => Some (JObj (obj_of_members (kv :: ms)), r3)
        | None => None
        end
    | None => None
    end.
Proof. reflexivity. Qed.

Lemma parse_value_str f s rest : parse_value (S f) (quote s +++ rest) = Some (JStr s, rest).
Proof.
  change (quote s +++ rest) with (String DQ ((quote_body s +++ String DQ EmptyString) +++ rest)).
  simpl. rewrite append_assoc, append_cons, append_nil_l, parse_str_body_quote. done.
Qed.

Lemma parse_member_step f k t :
  parse_member (S f) (quote k +++ ":" +++ t) =
    match parse_value f t with Some (v, r3) => Some ((k, v), r3) | None => None end.
Proof.
  change (quote k +++ ":" +++ t)
    with (String DQ ((quote_body k +++ String DQ EmptyString) +++ ":" +++ t)).
  simpl. rewrite append_assoc, append_cons, append_nil_l, parse_str_body_quote. done.
Qed.

Lemma value_stop_elems l rest : value_stop (elems_tail l +++ rest).
Proof. destruct l; split; reflexivity. Qed.

Lemma value_stop_members fs rest : value_stop (members_tail fs +++ rest).
Proof. destruct fs as [|[]]; split; reflexivity. Qed.

(** Inserting a fresh key appends it. *)
Lemma obj_insert_fresh k v fs : k ∉ fs.*1 → obj_insert k v fs = fs ++ [(k, v)].
Proof.
  induction fs as [|[k' v'] fs IH]; intros Hk; simpl; [done|].
  destruct (String.eqb_spec k k') as [->|]; [set_solver|]. rewrite IH; [done | set_solver].
Qed.

Lemma obj_of_members_nodup fs : NoDup fs.*1 → obj_of_members fs = fs.
Proof.
  unfold obj_of_members. intros Hnd.
  enough (∀ acc, NoDup (acc.*1 ++ fs.*1) →
            foldl (λ fs kv, obj_insert kv.1 kv.2 fs) acc fs = acc ++ fs) as H.
  { by apply (H []). }
  clear Hnd. induction fs as [|[k v] fs IH]; intros acc Hacc; simpl; [by rewrite app_nil_r|].
  rewrite obj_insert_fresh.
  - rewrite IH; [by rewrite <- app_assoc|]. rewrite fmap_app, <- app_assoc. exact Hacc.
  - simpl in Hacc. apply NoDup_app in Hacc as (_ & Hdis & _). intros Hk.
    apply (Hdis k); [done | by left].
Qed.

Lemma length_stringify_pos v : 1 ≤ String.length (stringify v).
Proof.
  destruct (stringify_head v EmptyString) as (c & r & Hcr & _).
  rewrite append_nil_r in Hcr. rewrite Hcr. simpl. lia.
Qed.

(** Normalise the length of a printed text in a hypothesis. *)
Ltac len_norm H := repeat progress (rewrite ?length_append in H; simpl String.length in H).

(** The round-trip property of one value, for the induction. *)
Definition rt_prop (v : json) : Prop :=
  json_wf v → ∀ n rest, String.length (stringify v) ≤ n → value_stop rest →
  parse_value n (stringify v +++ rest) = Some (v, rest).

Lemma parse_elems_tail l :
  Forall rt_prop l → forallb json_wfb l = true →
  ∀ n rest, String.length (elems_tail l) ≤ n → value_stop rest →
  parse_elems n (elems_tail l +++ rest) = Some (l, rest).
Proof.
  induction 1 as [|y l Hy Hl IH]; intros Hwf [|f] rest Hn Hr; simpl in Hn; try lia;
    [reflexivity|].
  apply andb_prop in Hwf as [Hwy Hwl].
  len_norm Hn. simpl elems_tail. rewrite !append_assoc, append_cons, append_nil_l. simpl.
  rewrite Hy by (done || lia || apply value_stop_elems).
  by rewrite IH by (done || lia).
Qed.

Lemma parse_members_tail fs :
  Forall (λ kv, rt_prop kv.2) fs → forallb (λ kv, json_wfb kv.2) fs = true →
  ∀ n rest, String.length (members_tail fs) ≤ n → value_stop rest →
  parse_members n (members_tail fs +++ rest) = Some (fs, rest).
Proof.
  induction 1 as [|[k y] fs Hy Hfs IH]; intros Hwf [|f] rest Hn Hr; simpl in Hn; try lia;
    [reflexivity|].
  apply andb_prop in Hwf as [Hwy Hwfs]. simpl in Hy.
  len_norm Hn. simpl members_tail. rewrite !append_assoc, append_cons, append_nil_l. simpl.
  destruct f as [|f]; [lia|].
  rewrite parse_member_step, Hy by (done || lia || apply value_stop_members).
  by rewrite IH by (done || lia).
Qed.

Lemma parse_value_stringify v : rt_prop v.
Proof.
  induction v as [| b | z | s | l Hl | fs Hfs] using json_ind_nested;
    intros Hwf [|f] rest Hn Hr;
    try (match goal with
         | Hn : String.length (stringify ?v) ≤ 0 |- _ => pose proof (length_stringify_pos v); lia
         end).
  - reflexivity.
  - by destruct b.
  - by apply parse_value_num.
  - apply parse_value_str.
  - destruct l as [|x l]; [reflexivity|].
    unfold json_wf in Hwf. rewrite json_wfb_arr in Hwf. simpl in Hwf. apply andb_prop in Hwf as [Hwx Hwl].
    inversion Hl as [|? ? Hx Hl']; subst.
    rewrite stringify_arr in *. len_norm Hn.
    rewrite !append_assoc, parse_value_arr_open.
    rewrite Hx by (done || lia || apply value_stop_elems).
    by rewrite parse_elems_tail by (done || lia).
  - destruct fs as [|[k x] fs]; [reflexivity|].
    unfold json_wf in Hwf. rewrite json_wfb_obj in Hwf. apply andb_prop in Hwf as [Hnd Hwfs].
    apply bool_decide_eq_true in Hnd. simpl in Hwfs. apply andb_prop in Hwfs as [Hwx Hwfs].
    inversion Hfs as [|? ? Hx Hfs']; subst. simpl in Hx.
    rewrite stringify_obj in *. len_norm Hn.
    rewrite !append_assoc, parse_value_obj_open.
    destruct f as [|f]; [lia|].
    rewrite parse_member_step.
    rewrite Hx by (done || lia || apply value_stop_members).
    rewrite parse_members_tail by (done || lia).
    by rewrite obj_of_members_nodup.
Qed.

(** The round trip on the whole text, for the clients of this file. *)
Lemma stringify_parses v : json_wf v → JSON_parse (stringify v) = inr v.
Proof.
  intros Hwf. unfold JSON_parse.
  pose proof (parse_value_stringify v Hwf (S (String.length (stringify v))) EmptyString
                ltac:(lia) I) as H.
  rewrite append_nil_r in H. by rewrite H.
Qed.

(** C8. [JSON.parse] reads back what [JSON.stringify] writes: on every
    value whose objects have distinct keys, parsing the printed text gives
    the value again, with the fuel [JSON_parse] supplies. *)
Theorem JSON_parse_stringify v : json_wf v → JSON_parse (stringify v) = inr v.
Proof.
  intros Hwf. unfold JSON_parse.
  pose proof (parse_value_stringify v Hwf (S (String.length (stringify v))) EmptyString
                ltac:(lia) I) as H.
  rewrite append_nil_r in H. by rewrite H.
Qed.

(** A stored board of one comment reads back as itself. *)
Lemma JSON_parse_stringify_witness :
  let v := JArr [JObj [("name", JStr "Ann"); ("body", JStr "a <b> \ c"); ("ts", JNum (-17))]] in
  json_wf v ∧ JSON_parse (stringify v) = inr v.
Proof.
  intros v. assert (H : json_wf v) by reflexivity.
  exact (conj H (JSON_parse_stringify v H)).
Defined.

End JsonRoundtrip.
