(* ===== verification/JsonFuel.v ===== *)
(** * The fuel of [JSON.parse] and the values it returns

    [JsonParse.parse_value] carries fuel, and [JSON_parse] gives it one
    unit more than the length of the text.  This file shows that the
    fuel is never what decides the answer: every call returns a rest
    strictly shorter than its input ([parse_length]), so a call on a text
    of length [l] recurses on shorter texts with one unit less, and any
    fuel above [l] gives the same result ([parse_fuel]): the fuel that
    [JSON_parse] gives is enough on every text.

    It also shows that every value the parser returns has objects with
    distinct keys ([parse_wf]): a repeated key in the text keeps one
    entry, as [JSON.parse] does.  So everything [loadComments] reads is a
    value the round trip of [JsonRoundtrip] applies to
    ([JSON_parse_wf_helper]). *)

From Stdlib Require Import ZArith.
From S2P Require Import Prelude JsString Json JsonParse JsonRoundtrip.
Import JsString Json JsonParse JsonRoundtrip.

Module JsonFuel.

(** [JSON.parse] with a given fuel: [JSON_parse s] is
    [parse_text (S (String.length s)) s]. *)
Definition parse_text (fuel : nat) (s : string) : js json :=
  match parse_value fuel s with
  | Some (v, r) => if String.eqb (skip_ws r) EmptyString then mret v else throw SyntaxError
  | None => throw SyntaxError
  end.

Lemma length_skip_ws s : String.length (skip_ws s) ≤ String.length s.
Proof. induction s as [|c s IH]; simpl; [lia|]. case_match; simpl; lia. Qed.

Lemma length_read_digits s : String.length (read_digits s).2 ≤ String.length s.
Proof.
  induction s as [|c s IH]; simpl; [lia|]. case_match; [|simpl; lia].
  destruct (read_digits s) as [u0 r0] eqn:E. simpl in *. lia.
Qed.

Lemma length_cons_fst c o t r :
  cons_fst c o = Some (t, r) → ∃ t', o = Some (t', r).
Proof. destruct o as [[]|]; simpl; [intros [= _ ->]|done]. by eexists. Qed.

Lemma length_parse_str_body_le n s t r :
  String.length s ≤ n → parse_str_body s = Some (t, r) → String.length r < String.length s.
Proof.
  revert s t r. induction n as [|n IH]; intros s t r Hn H.
  - destruct s; [done|]. simpl in Hn. lia.
  - destruct s as [|c s]; [done|]. simpl in Hn, H.
    repeat (case_match; simplify_eq/=; try lia);
      repeat match goal with
      | H : cons_fst _ _ = Some _ |- _ => apply length_cons_fst in H as [? H]
      | H : parse_str_body ?a = Some _ |- _ => apply (IH a) in H; [|simpl in *; lia]
      end; simpl in *; lia.
Qed.

Lemma length_parse_str_body s t r :
  parse_str_body s = Some (t, r) → String.length r < String.length s.
Proof. by apply (length_parse_str_body_le (String.length s)). Qed.

Lemma length_parse_nat s n r :
  parse_nat s = Some (n, r) → String.length r < String.length s.
Proof.
  unfold parse_nat. intros H. destruct s as [|c s]; [done|].
  repeat (case_match; simplify_eq/=; try lia);
    match goal with E : read_digits s = _ |- _ =>
      pose proof (length_read_digits s) as Hl; rewrite E in Hl end; simpl in *; lia.
Qed.

Lemma length_parse_unsigned b s z r :
  parse_unsigned b s = Some (z, r) → String.length r < String.length s.
Proof.
  unfold parse_unsigned. destruct (parse_nat s) as [[n r0]|] eqn:E; [|done].
  apply length_parse_nat in E. destruct (starts_frac_exp r0); [done|]. intros [= _ <-]. lia.
Qed.

Lemma length_parse_number s z r :
  parse_number s = Some (z, r) → String.length r < String.length s.
Proof.
  destruct s as [|c s]; [apply length_parse_unsigned|].
  intros H. destruct c as [[] [] [] [] [] [] [] []];
    apply length_parse_unsigned in H; simpl in *; lia.
Qed.

(** Turn the equations a case analysis of the parser leaves into facts
    about lengths. *)
Ltac len_facts IHv IHe IHm IHms :=
  repeat match goal with
  | E : skip_ws ?a = ?b |- _ =>
      let H := fresh in pose proof (length_skip_ws a) as H; rewrite E in H; clear E
  | E : parse_str_body _ = Some _ |- _ => apply length_parse_str_body in E
  | E : parse_number _ = Some _ |- _ => apply length_parse_number in E
  | E : parse_unsigned _ _ = Some _ |- _ => apply length_parse_unsigned in E
  | E : parse_value _ _ = Some _ |- _ => apply IHv in E
  | E : parse_elems _ _ = Some _ |- _ => apply IHe in E
  | E : parse_member _ _ = Some _ |- _ => apply IHm in E
  | E : parse_members _ _ = Some _ |- _ => apply IHms in E
  end; simpl in *; lia.

(** What is left after a value is strictly shorter than the text. *)
Lemma parse_length f :
  (∀ s x r, parse_value f s = Some (x, r) → String.length r < String.length s) ∧
  (∀ s x r, parse_elems f s = Some (x, r) → String.length r < String.length s) ∧
  (∀ s x r, parse_member f s = Some (x, r) → String.length r < String.length s) ∧
  (∀ s x r, parse_members f s = Some (x, r) → String.length r < String.length s).
Proof.
  induction f as [|f (IHv & IHe & IHm & IHms)]; [done|].
  split_and!; intros s x r H; simpl in H;
    repeat (case_match; simplify_eq/=); len_facts IHv IHe IHm IHms.
Qed.

Definition fuel_eq (n m : nat) (s : string) : Prop :=
  parse_value n s = parse_value m s ∧ parse_elems n s = parse_elems m s ∧
  parse_member n s = parse_member m s ∧ parse_members n s = parse_members m s.

Ltac fuel_facts :=
  repeat match goal with
  | E : skip_ws ?a = ?b |- _ =>
      let H := fresh in pose proof (length_skip_ws a) as H; rewrite E in H; clear E
  | E : parse_str_body _ = Some _ |- _ => apply length_parse_str_body in E
  | E : parse_value _ _ = Some _ |- _ => apply (proj1 (parse_length _)) in E
  | E : parse_elems _ _ = Some _ |- _ => apply (proj1 (proj2 (parse_length _))) in E
  | E : parse_member _ _ = Some _ |- _ => apply (proj1 (proj2 (proj2 (parse_length _)))) in E
  | E : parse_members _ _ = Some _ |- _ => apply (proj2 (proj2 (proj2 (parse_length _)))) in E
  end; simpl in *.

Ltac fuel_rw IH n m :=
  match goal with
  | |- context [parse_value n ?t] => rewrite (proj1 (IH t m ltac:(simpl; lia) ltac:(lia)))
  | |- context [parse_elems n ?t] => rewrite (proj1 (proj2 (IH t m ltac:(simpl; lia) ltac:(lia))))
  | |- context [parse_member n ?t] => rewrite (proj1 (proj2 (proj2 (IH t m ltac:(simpl; lia) ltac:(lia)))))
  | |- context [parse_members n ?t] => rewrite (proj2 (proj2 (proj2 (IH t m ltac:(simpl; lia) ltac:(lia)))))
  end.

(** Fuel beyond the length of the text changes nothing. *)
Lemma parse_fuel n : ∀ s m, String.length s < n → n ≤ m → fuel_eq n m s.
Proof.
  induction n as [|n IH]; intros s m Hs Hm; [lia|]. destruct m as [|m]; [lia|].
  unfold fuel_eq. split_and!; simpl;
    repeat (fuel_facts; first [fuel_rw IH n m | case_match]); done.
Qed.

(** ** Parsed objects have distinct keys *)

Lemma obj_insert_keys k v fs : (obj_insert k v fs).*1 = if bool_decide (k ∈ fs.*1) then fs.*1 else fs.*1 ++ [k].
Proof.
  induction fs as [|[k' v'] fs IH]; csimpl; [done|].
  destruct (String.eqb_spec k k') as [->|Hne]; csimpl.
  - rewrite bool_decide_true by set_solver. done.
  - rewrite IH. case_bool_decide; case_bool_decide; set_solver.
Qed.

Lemma NoDup_obj_insert k v fs : NoDup fs.*1 → NoDup (obj_insert k v fs).*1.
Proof.
  intros H. rewrite obj_insert_keys. case_bool_decide; [done|].
  apply NoDup_app. split_and!; [done | set_solver | by constructor; [set_solver | constructor]].
Qed.

Lemma Forall_obj_insert (P : json → Prop) k v fs :
  P v → Forall (λ kv, P kv.2) fs → Forall (λ kv, P kv.2) (obj_insert k v fs).
Proof.
  intros Hv H. induction H as [|[k' v'] fs Hkv Hfs IH]; simpl; [by constructor|].
  destruct (String.eqb k k'); by constructor.
Qed.

Lemma obj_of_members_wf (P : json → Prop) ms :
  Forall (λ kv, P kv.2) ms →
  NoDup (obj_of_members ms).*1 ∧ Forall (λ kv, P kv.2) (obj_of_members ms).
Proof.
  unfold obj_of_members. intros H.
  enough (∀ acc, NoDup acc.*1 → Forall (λ kv, P kv.2) acc →
            NoDup (foldl (λ fs kv, obj_insert kv.1 kv.2 fs) acc ms).*1 ∧
            Forall (λ kv, P kv.2) (foldl (λ fs kv, obj_insert kv.1 kv.2 fs) acc ms)) as Hg.
  { apply Hg; constructor. }
  induction H as [|kv ms Hkv _ IH]; intros acc Hnd Hacc; simpl; [done|].
  apply IH; [by apply NoDup_obj_insert | by apply Forall_obj_insert].
Qed.

Lemma json_wf_arr l : Forall json_wf l → json_wf (JArr l).
Proof.
  intros H. unfold json_wf. rewrite json_wfb_arr. apply forallb_forall.
  intros x Hx. rewrite Forall_forall in H. apply H. by apply list_elem_of_In.
Qed.

Lemma json_wf_obj fs :
  NoDup fs.*1 ∧ Forall (λ kv, json_wf kv.2) fs → json_wf (JObj fs).
Proof.
  intros [Hnd H]. unfold json_wf. rewrite json_wfb_obj, bool_decide_true by done. simpl.
  apply forallb_forall. intros x Hx. rewrite Forall_forall in H. apply H.
  by apply list_elem_of_In.
Qed.

(** Every value the parser returns has objects with distinct keys. *)
Lemma parse_wf f :
  (∀ s v r, parse_value f s = Some (v, r) → json_wf v) ∧
  (∀ s vs r, parse_elems f s = Some (vs, r) → Forall json_wf vs) ∧
  (∀ s kv r, parse_member f s = Some (kv, r) → json_wf kv.2) ∧
  (∀ s ms r, parse_members f s = Some (ms, r) → Forall (λ kv, json_wf kv.2) ms).
Proof.
  induction f as [|f (IHv & IHe & IHm & IHms)]; [done|].
  split_and!; intros s x r H; simpl in H; repeat (case_match; simplify_eq/=);
    repeat match goal with
    | E : parse_value f _ = Some _ |- _ => apply IHv in E
    | E : parse_elems f _ = Some _ |- _ => apply IHe in E
    | E : parse_member f _ = Some _ |- _ => apply IHm in E
    | E : parse_members f _ = Some _ |- _ => apply IHms in E
    end;
    first [ reflexivity | by constructor | apply json_wf_arr; by constructor
          | apply json_wf_obj, obj_of_members_wf; by constructor | done ].
Qed.

(** ** [JSON_parse] *)

Lemma parse_text_wf_helper n s v : parse_text n s = inr v → json_wf v.
Proof.
  unfold parse_text. destruct (parse_value n s) as [[v' r]|] eqn:E; [|done].
  destruct (String.eqb _ _); [|done]. intros [= <-]. by apply (proj1 (parse_wf _)) in E.
Qed.

(** Any value [JSON.parse] returns has objects with distinct keys. *)
Lemma JSON_parse_wf_helper s v : JSON_parse s = inr v → json_wf v.
Proof. apply parse_text_wf_helper. Qed.

End JsonFuel.
