(* ===== verification/Comments.v ===== *)
(** * The comment board

    Lines 162-234 of [src/index.js].  The board keeps the array
    [comments] (line 183), persists it under [blog_comments_v1] and shows
    it in the list element [#comments-list].

    - [loadComments] (163-171): the stored text, parsed; [null], the empty
      string, a [SyntaxError], a storage [SecurityError] or a parsed value
      that is not an array all give [[]].  The elements are not checked.
    - [saveComments] (172-174): [JSON.stringify] and a quiet [setItem].
    - [renderComments] (185-207): the placeholder when the array is empty,
      otherwise one item per element, in order.  [c.name], [c.ts] and
      [c.body] are read from whatever the element is: [null] throws a
      [TypeError], which stops the loop with the items already appended.
      The date text [new Date(c.ts).toLocaleString()] depends on the
      browser's locale and time zone and is a parameter,
      [toLocaleString].
    - [submit] (211-226): trim, reject a body shorter than two characters,
      append, cap at 200 with [slice(-200)], save, render, reset the form.
    - [clear] (228-234): nothing on an empty board, nothing when the user
      declines the [confirm] dialog, otherwise empty, save and render.

    [board] is the state these handlers change: the array, the storage,
    the rendered list, the two form fields and whether the body field has
    the focus.  A handler returns the new board and the exception it threw
    ([None] when it returned normally); the effects done before the
    exception stay, as in the browser.

    The spec's view of the board is a list of records with the two fields
    of the form ([spec_board], [spec_step]).  [refines] relates a board
    to such a list: the array is the list's stored form and the list
    element shows it.  One step of the board preserves the relation and
    throws nothing ([refines_step]), so every run of the board implements
    the spec's run ([board_refines_spec]). *)

From Stdlib Require Import ZArith.
From S2P Require Import Prelude JsString Storage Escape Json JsonParse JsonRoundtrip JsonFuel.
Import JsString Storage Escape Json JsonParse JsonRoundtrip JsonFuel.

Module Comments.

Definition COMMENTS_KEY : string := "blog_comments_v1".
Definition MAX_COMMENTS : nat := 200.

(** [loadComments()], lines 163-171. *)
Definition loadComments (st : storage) : list json :=
  catch_js
    (raw ← getItem COMMENTS_KEY st;
     match raw with
     | None => mret []
     | Some r =>
         if String.eqb r EmptyString then mret []
         else
           parsed ← JSON_parse r;
           mret (match parsed with JArr l => l | _ => [] end)
     end)
    (λ _, []).

(** [saveComments(arr)], lines 172-174. *)
Definition saveComments (arr : list json) (st : storage) : storage :=
  setItem_quiet COMMENTS_KEY (stringify (JArr arr)) st.

(** [escapeHtml(s)], lines 153-160: [String(s)], then the replacements. *)
Definition escapeHtml (v : option json) : js string :=
  s ← to_js_string_opt v;
  mret (escape_chain s).

(** A value in double quotes, for the attributes of the item markup. *)
Definition dq (s : string) : string := String DQ (s +++ String DQ EmptyString).

(** The inner HTML of an item's [meta] line (line 198); [183] is the
    middle dot. *)
Definition meta_markup (who time : string) : string :=
  "<strong class=" +++ dq "font-medium text-gray-900" +++ ">" +++ who +++ "</strong> "
  +++ String "183" EmptyString +++ " <span class=" +++ dq "opacity-75" +++ ">"
  +++ time +++ "</span>".

(** One rendered comment: the inner HTML of its meta line and of its
    body. *)
Record item := mkItem { meta_html : string; body_html : string }.

(** The children of [#comments-list]. *)
Inductive view :=
  | Placeholder
  | Items (l : list item).

Record board := mkBoard {
  comments : list json;     (** the array [comments] *)
  bstore : storage;         (** [localStorage] *)
  list_view : view;         (** the children of [#comments-list] *)
  name_value : string;      (** [inputName.value] *)
  body_value : string;      (** [inputBody.value] *)
  body_focused : bool       (** [inputBody] has the focus *)
}.

Section Render.
(** [new Date(ts).toLocaleString()] for the value of [c.ts]. *)
Context (toLocaleString : option json → js string).

(** The body of the [forEach] callback, lines 192-204, up to the append. *)
Definition render_item (c : json) : js item :=
  name ← get_prop c "name";
  who ← (if truthy name then escapeHtml name else mret "Anonymous");
  ts ← get_prop c "ts";
  time ← toLocaleString ts;
  time_html ← escapeHtml (Some (JStr time));
  body ← get_prop c "body";
  body_html ← escapeHtml body;
  mret {| meta_html := meta_markup who time_html; body_html := body_html |}.

(** The [forEach] loop: the items appended before an exception stay. *)
Fixpoint render_all (cs : list json) : list item * option js_exn :=
  match cs with
  | [] => ([], None)
  | c :: cs' =>
      match render_item c with
      | inl e => ([], Some e)
      | inr it => let '(its, err) := render_all cs' in (it :: its, err)
      end
  end.

(** [renderComments()], lines 185-207. *)
Definition renderComments (cs : list json) : view * option js_exn :=
  match cs with
  | [] => (Placeholder, None)
  | _ => let '(its, err) := render_all cs in (Items its, err)
  end.

(** The record a submission appends, line 219. *)
Definition mk_entry (name body : string) (now : Z) : json :=
  JObj [("name", JStr name); ("body", JStr body); ("ts", JNum now)].

(** The submit handler, lines 211-226; [now] is [Date.now()]. *)
Definition submit (now : Z) (b : board) : board * option js_exn :=
  let body := trim (body_value b) in
  if String.length body <? 2 then
    ({| comments := comments b; bstore := bstore b; list_view := list_view b;
        name_value := name_value b; body_value := body_value b; body_focused := true |},
     None)
  else
    let name := trim (name_value b) in
    let cs1 := comments b ++ [mk_entry name body now] in
    let cs2 := if MAX_COMMENTS <? length cs1 then slice_neg MAX_COMMENTS cs1 else cs1 in
    let st := saveComments cs2 (bstore b) in
    let '(v, err) := renderComments cs2 in
    match err with
    | Some e =>
        ({| comments := cs2; bstore := st; list_view := v;
            name_value := name_value b; body_value := body_value b;
            body_focused := body_focused b |}, Some e)
    | None =>
        ({| comments := cs2; bstore := st; list_view := v;
            name_value := EmptyString; body_value := EmptyString; body_focused := true |},
         None)
    end.

(** Whether the clear handler opens the [confirm] dialog (line 230). *)
Definition clear_asks (b : board) : bool :=
  match comments b with [] => false | _ => true end.

(** The click handler of the clear button, lines 228-234; [confirmed] is
    the answer to the dialog. *)
Definition clear (confirmed : bool) (b : board) : board :=
  if negb (clear_asks b) then b
  else if negb confirmed then b
  else
    let st := saveComments [] (bstore b) in
    {| comments := []; bstore := st; list_view := fst (renderComments []);
       name_value := name_value b; body_value := body_value b;
       body_focused := body_focused b |}.

(** Start-up of the board, lines 183 and 209: load, then render.  The
    form starts empty and without the focus. *)
Definition board_init (st : storage) : board * option js_exn :=
  let cs := loadComments st in
  let '(v, err) := renderComments cs in
  ({| comments := cs; bstore := st; list_view := v; name_value := EmptyString;
      body_value := EmptyString; body_focused := false |}, err).

(** An element the loop renders without throwing. *)
Definition renders (c : json) : bool :=
  match render_item c with inr _ => true | inl _ => false end.

(** The list shows the array, and every element of the array renders. *)
Definition board_inv (b : board) : Prop :=
  list_view b = fst (renderComments (comments b)) ∧
  Forall (λ c, renders c = true) (comments b).

(** A record as the submit handler writes it (line 219): a trimmed
    name, a trimmed body of at least two characters (so never empty nor
    whitespace only) and a timestamp. *)
Definition board_entry (c : json) : bool :=
  match c with
  | JObj [(k1, JStr name); (k2, JStr body); (k3, JNum _)] =>
      String.eqb k1 "name" && String.eqb k2 "body" && String.eqb k3 "ts" &&
      (2 <=? String.length body) && String.eqb (trim name) name &&
      String.eqb (trim body) body
  | _ => false
  end.

(** The events the board handles after start-up. *)
Inductive board_event :=
  | Edit (name body : string) (** the visitor types into the two fields *)
  | Submit (now : Z)          (** the form is submitted at time [now] *)
  | Clear (confirmed : bool). (** the clear button; the answer to [confirm] *)

(** The visitor edits the form; no listener runs. *)
Definition edit (name body : string) (b : board) : board :=
  {| comments := comments b; bstore := bstore b; list_view := list_view b;
     name_value := name; body_value := body; body_focused := body_focused b |}.

(** One event.  An exception thrown by a handler ends that handler only;
    the next event is handled from the state it left. *)
Definition board_step (ev : board_event) (b : board) : board * option js_exn :=
  match ev with
  | Edit name body => (edit name body b, None)
  | Submit now => submit now b
  | Clear confirmed => (clear confirmed b, None)
  end.

(** The boards the page can show: start-up must return normally, since an
    exception there aborts the whole script before line 211 installs the
    handlers; then any sequence of events. *)
Inductive board_reachable (st0 : storage) : board → Prop :=
  | board_reachable_init :
      snd (board_init st0) = None → board_reachable st0 (fst (board_init st0))
  | board_reachable_step b ev :
      board_reachable st0 b → board_reachable st0 (fst (board_step ev b)).

(** ** The comment list of the spec

    Section 3 of the spec describes the board as a sequence of records
    [{name, body, ts}]: a submission whose trimmed body has at least two
    characters appends the record with the trimmed name and body and
    keeps the most recent 200 once the list exceeds that count; a
    confirmed clear empties it.  [spec_board] is that machine, with the
    two fields of the form it reads. *)
Record comment := mkComment { c_name : string; c_body : string; c_ts : Z }.

(** A record as it is stored. *)
Definition comment_json (c : comment) : json := mk_entry (c_name c) (c_body c) (c_ts c).

(** The most recent [n] entries, once the list exceeds [n]. *)
Definition keep_recent {A} (n : nat) (l : list A) : list A :=
  if n <? length l then drop (length l - n) l else l.

Record spec_board := mkSpecBoard { s_list : list comment; s_name : string; s_body : string }.

Definition spec_step (ev : board_event) (a : spec_board) : spec_board :=
  match ev with
  | Edit name body => {| s_list := s_list a; s_name := name; s_body := body |}
  | Submit now =>
      let body := trim (s_body a) in
      if String.length body <? 2 then a
      else {| s_list := keep_recent 200 (s_list a ++ [mkComment (trim (s_name a)) body now]);
              s_name := EmptyString; s_body := EmptyString |}
  | Clear confirmed =>
      if confirmed then {| s_list := []; s_name := s_name a; s_body := s_body a |} else a
  end.

Definition spec_run (evs : list board_event) (a : spec_board) : spec_board :=
  foldl (λ a ev, spec_step ev a) a evs.

(** Events on the board, each from the board its predecessor left. *)
Definition run_board (evs : list board_event) (b : board) : board :=
  foldl (λ b ev, fst (board_step ev b)) b evs.

(** The board implements the spec's list: the array holds the spec's
    records, the form holds the spec's fields, and the list shows the
    array. *)
Definition refines (b : board) (a : spec_board) : Prop :=
  comments b = map comment_json (s_list a) ∧ name_value b = s_name a ∧
  body_value b = s_body a ∧ list_view b = fst (renderComments (comments b)).

(** ** Rendering *)

Lemma escapeHtml_str s : escapeHtml (Some (JStr s)) = inr (escape_chain s).
Proof. reflexivity. Qed.

(** The item of a record the board wrote itself. *)
Lemma render_item_entry name body now t :
  toLocaleString (Some (JNum now)) = inr t →
  render_item (mk_entry name body now) =
    inr {| meta_html := meta_markup (if String.eqb name EmptyString then "Anonymous"
                                     else escape_chain name) (escape_chain t);
           body_html := escape_chain body |}.
Proof. intros Ht. unfold render_item. simpl. rewrite Ht. by destruct name. Qed.

Lemma render_all_ok cs its :
  render_all cs = (its, None) ↔ Forall2 (λ c it, render_item c = inr it) cs its.
Proof.
  revert its. induction cs as [|c cs IH]; intros its; simpl.
  - split; [intros [= <-]; constructor | by inversion 1].
  - destruct (render_item c) as [e|it] eqn:E.
    + split; [done|]. inversion 1; congruence.
    + destruct (render_all cs) as [its' err] eqn:E'. split.
      * intros [= <- ->]. constructor; [done|]. by apply IH.
      * inversion 1 as [|? it2 ? its2 Hc Hcs]; subst. rewrite E in Hc. simplify_eq.
        apply IH in Hcs. by simplify_eq.
Qed.

Lemma render_all_error cs its e :
  render_all cs = (its, Some e) ↔
  ∃ pre c post, cs = pre ++ c :: post ∧
    Forall2 (λ c it, render_item c = inr it) pre its ∧ render_item c = inl e.
Proof.
  revert its. induction cs as [|c cs IH]; intros its; simpl.
  - split; [done|]. intros (pre & c & post & Hcs & _). by destruct pre.
  - destruct (render_item c) as [e'|it] eqn:E.
    + split.
      * intros [= <- <-]. by exists [], c, cs.
      * intros ([|c' pre] & c'' & post & Hcs & Hpre & Hc); simplify_eq/=;
          inversion Hpre; subst; congruence.
    + destruct (render_all cs) as [its' err] eqn:E'. split.
      * intros [= <- ->]. destruct (proj1 (IH its') eq_refl) as (pre & c' & post & -> & Hp & Hc).
        exists (c :: pre), c', post. split_and!; [done | by constructor | done].
      * intros ([|c' pre] & c'' & post & Hcs & Hpre & Hc); simpl in *.
        -- simplify_eq. congruence.
        -- simplify_eq. inversion Hpre as [|? it2 ? its2 Hc' Hp]; subst.
           rewrite E in Hc'. simplify_eq.
           assert ((its', err) = (its2, Some e)) as H2 by (apply IH; eauto 10).
           by simplify_eq.
Qed.

(** Every element renders, so the loop completes. *)
Lemma renderComments_no_error cs :
  Forall (λ c, renders c = true) cs → snd (renderComments cs) = None.
Proof.
  intros H. assert (snd (render_all cs) = None) as Hr.
  { induction H as [|c cs Hc _ IH]; [done|]. simpl. unfold renders in Hc.
    destruct (render_item c); [done|]. by destruct (render_all cs). }
  unfold renderComments. destruct cs; [done|]. by destruct (render_all _).
Qed.

(** ** Submitting *)

Lemma cap_slice_neg (cs : list json) :
  (if MAX_COMMENTS <? length cs then slice_neg MAX_COMMENTS cs else cs) =
  slice_neg MAX_COMMENTS cs.
Proof. case_match; [done|]. by rewrite slice_neg_short by (apply Nat.ltb_ge; done). Qed.

Lemma length_cap (cs : list json) : length (slice_neg MAX_COMMENTS cs) ≤ MAX_COMMENTS.
Proof. rewrite length_slice_neg. lia. Qed.

Lemma mk_entry_board_entry name body now :
  2 ≤ String.length body → trim name = name → trim body = body →
  board_entry (mk_entry name body now) = true.
Proof.
  intros H Hn Hb. unfold board_entry, mk_entry. rewrite Hn, Hb, !String.eqb_refl.
  rewrite !andb_true_r. simpl.
  destruct (String.length body) as [|[|n]]; [lia | lia | done].
Qed.

(** A rejected submission only moves the focus to the body field. *)
Lemma submit_reject now b :
  String.length (trim (body_value b)) < 2 →
  submit now b = ({| comments := comments b; bstore := bstore b; list_view := list_view b;
                     name_value := name_value b; body_value := body_value b;
                     body_focused := true |}, None).
Proof. intros H. unfold submit. by rewrite (proj2 (Nat.ltb_lt _ _) H). Qed.

(** [new Date(ts).toLocaleString()] returns a string for every number
    (an invalid date gives the text [Invalid Date]). *)
Hypothesis toLocaleString_num : ∀ z, ∃ t, toLocaleString (Some (JNum z)) = inr t.

Lemma entry_renders name body now : renders (mk_entry name body now) = true.
Proof.
  destruct (toLocaleString_num now) as [t Ht]. unfold renders.
  by rewrite (render_item_entry name body now t Ht).
Qed.

Lemma board_entry_renders c : board_entry c = true → renders c = true.
Proof.
  intros H. unfold board_entry in H. repeat case_match; simplify_eq; try done.
  rewrite !andb_true_iff, !String.eqb_eq in H. destruct_and!; subst.
  apply entry_renders.
Qed.

(** An accepted submission when every element renders. *)
Lemma submit_accept now b :
  2 ≤ String.length (trim (body_value b)) →
  Forall (λ c, renders c = true) (comments b) →
  let cs := slice_neg MAX_COMMENTS
              (comments b ++ [mk_entry (trim (name_value b)) (trim (body_value b)) now]) in
  submit now b = ({| comments := cs; bstore := saveComments cs (bstore b);
                     list_view := fst (renderComments cs); name_value := EmptyString;
                     body_value := EmptyString; body_focused := true |}, None).
Proof.
  intros Hlen Hr cs. unfold submit.
  rewrite (proj2 (Nat.ltb_ge _ _) Hlen), cap_slice_neg. fold cs.
  assert (snd (renderComments cs) = None) as Herr.
  { apply renderComments_no_error, slice_neg_Forall, Forall_app.
    split; [done | constructor; [apply entry_renders | done]]. }
  destruct (renderComments cs) as [v err]. simpl in Herr. by subst.
Qed.

Lemma submit_comments now b :
  comments (fst (submit now b)) =
    if String.length (trim (body_value b)) <? 2 then comments b
    else slice_neg MAX_COMMENTS
           (comments b ++ [mk_entry (trim (name_value b)) (trim (body_value b)) now]).
Proof.
  unfold submit. case_match; [done|]. rewrite cap_slice_neg.
  destruct (renderComments _) as [v []]; done.
Qed.

(** ** Clearing and loading *)

Lemma clear_comments confirmed b :
  comments (clear confirmed b) = if clear_asks b && confirmed then [] else comments b.
Proof. unfold clear. by destruct (clear_asks b), confirmed. Qed.

(** The stored text is read back when the write fitted. *)
Lemma loadComments_saveComments l st :
  write_fits COMMENTS_KEY (stringify (JArr l)) st → json_wf (JArr l) →
  loadComments (saveComments l st) = l.
Proof.
  intros Hw Hwf. unfold loadComments, saveComments.
  rewrite getItem_enabled by (rewrite setItem_quiet_enabled; apply Hw).
  rewrite setItem_quiet_fits, lookup_insert_eq by done. cbv [mbind js_mbind].
  destruct (String.eqb_spec (stringify (JArr l)) EmptyString) as [He|_].
  { pose proof (length_stringify_pos (JArr l)) as Hp. rewrite He in Hp. simpl in Hp. lia. }
  by rewrite stringify_parses.
Qed.

(** The stored array is the parsed value; the [!raw] test of line 166
    only catches what [JSON.parse] would reject anyway. *)
Lemma loadComments_stored st raw l :
  getItem COMMENTS_KEY st = inr (Some raw) → JSON_parse raw = inr (JArr l) →
  loadComments st = l.
Proof.
  intros Hg Hp. unfold loadComments. rewrite Hg. simpl.
  destruct (String.eqb_spec raw EmptyString) as [->|_]; [done|]. by rewrite Hp.
Qed.

(** What [loadComments] returns has objects with distinct keys. *)
Lemma loadComments_wf st : json_wf (JArr (loadComments st)).
Proof.
  unfold loadComments, catch_js. destruct (getItem COMMENTS_KEY st) as [e|[raw|]]; try done.
  simpl. destruct (String.eqb raw EmptyString); [done|].
  destruct (JSON_parse raw) as [e|v] eqn:E; [done|]. simpl.
  apply JSON_parse_wf_helper in E. by destruct v.
Qed.

Lemma renders_null : renders JNull = false.
Proof. reflexivity. Qed.

(** The loop completes only if every element renders. *)
Lemma renderComments_error_free cs :
  snd (renderComments cs) = None → Forall (λ c, renders c = true) cs.
Proof.
  destruct cs as [|c cs]; [done|]. unfold renderComments.
  destruct (render_all (c :: cs)) as [its []] eqn:E; [done|]. intros _.
  apply render_all_ok in E. clear - E. induction E as [|c' it ? ? Hc _ IH]; constructor; [|done].
  unfold renders. by rewrite Hc.
Qed.

(** ** The board invariant *)

Lemma board_inv_submit now b :
  board_inv b → board_inv (fst (submit now b)) ∧ snd (submit now b) = None.
Proof.
  intros [Hv Hr]. destruct (decide (String.length (trim (body_value b)) < 2)) as [Hl|Hl].
  - rewrite submit_reject by done. split; [split|]; done.
  - rewrite submit_accept by (lia || done). simpl. split; [split|]; [done | | done].
    apply slice_neg_Forall, Forall_app. split; [done | constructor; [apply entry_renders | done]].
Qed.

Lemma board_inv_clear confirmed b : board_inv b → board_inv (clear confirmed b).
Proof.
  intros Hb. unfold clear. by destruct (clear_asks b), confirmed.
Qed.

Lemma board_inv_step ev b :
  board_inv b → board_inv (fst (board_step ev b)) ∧ snd (board_step ev b) = None.
Proof.
  destruct ev; simpl; [done | apply board_inv_submit |].
  intros H. split; [by apply board_inv_clear|done].
Qed.

Lemma board_entries_step ev b :
  Forall (λ c, board_entry c = true) (comments b) →
  Forall (λ c, board_entry c = true) (comments (fst (board_step ev b))).
Proof.
  intros H. destruct ev as [name body|now|confirmed]; simpl; [done| |].
  - rewrite submit_comments. case_match; [done|]. apply slice_neg_Forall, Forall_app.
    split; [done|]. constructor; [|done].
    apply mk_entry_board_entry; [by apply Nat.ltb_ge | apply trim_idem | apply trim_idem].
  - rewrite clear_comments. by case_match.
Qed.

Lemma length_step ev b :
  length (comments (fst (board_step ev b))) ≤ max MAX_COMMENTS (length (comments b)).
Proof.
  destruct ev as [name body|now|confirmed]; simpl; [lia| |].
  - rewrite submit_comments. case_match; [lia|]. pose proof (length_cap (comments b ++
      [mk_entry (trim (name_value b)) (trim (body_value b)) now])). lia.
  - rewrite clear_comments. case_match; simpl; lia.
Qed.

Lemma board_init_inv st :
  Forall (λ c, renders c = true) (loadComments st) →
  snd (board_init st) = None ∧ board_inv (fst (board_init st)).
Proof.
  intros H. unfold board_init. pose proof (renderComments_no_error _ H) as He.
  destruct (renderComments (loadComments st)) as [v err] eqn:E. simpl in *. subst.
  split; [done|]. split; simpl; [by rewrite E | done].
Qed.

Lemma board_init_comments st : comments (fst (board_init st)) = loadComments st.
Proof. unfold board_init. by destruct (renderComments _). Qed.

Lemma escapeHtml_inr v t : escapeHtml v = inr t → ∃ s, to_js_string_opt v = inr s ∧ t = escape_chain s.
Proof. unfold escapeHtml. destruct (to_js_string_opt v) as [e|s]; simpl; [done|]. intros [= <-]. by exists s. Qed.

Lemma escape_chain_anonymous : escape_chain "Anonymous" = "Anonymous".
Proof. reflexivity. Qed.

(** ** The board refines the spec's list *)

Lemma keep_recent_slice_neg {A} n (l : list A) : keep_recent n l = slice_neg n l.
Proof.
  unfold keep_recent. case_match; [done|]. symmetry. apply slice_neg_short.
  by apply Nat.ltb_ge.
Qed.

Lemma map_slice_neg {A B} (f : A → B) n l : map f (slice_neg n l) = slice_neg n (map f l).
Proof. unfold slice_neg. by rewrite length_map, skipn_map. Qed.

Lemma comment_json_renders c : renders (comment_json c) = true.
Proof. apply entry_renders. Qed.

Lemma Forall_renders_map l : Forall (λ c, renders c = true) (map comment_json l).
Proof. apply Forall_forall. intros x Hx. apply list_elem_of_In, in_map_iff in Hx as (c & <- & _).
  apply comment_json_renders. Qed.

Lemma refines_step ev b a :
  refines b a → refines (fst (board_step ev b)) (spec_step ev a) ∧ snd (board_step ev b) = None.
Proof.
  intros Hr. pose proof Hr as (Hc & Hn & Hb & Hv). destruct ev as [name body|now|confirmed]; simpl.
  - done.
  - rewrite <- Hb. destruct (decide (String.length (trim (body_value b)) < 2)) as [Hl|Hl].
    + rewrite submit_reject, (proj2 (Nat.ltb_lt _ _) Hl) by done. done.
    + rewrite (proj2 (Nat.ltb_ge _ _)) by lia.
      rewrite submit_accept by (lia || (rewrite Hc; apply Forall_renders_map)).
      split; [|done]. split_and!; try done. simpl.
      by rewrite keep_recent_slice_neg, map_slice_neg, map_app, <- Hc, <- Hn.
  - unfold clear, clear_asks. rewrite Hc.
    destruct (s_list a) eqn:E, confirmed; simpl; split; try done.
Qed.

Lemma refines_run evs b a :
  refines b a → refines (run_board evs b) (spec_run evs a).
Proof.
  revert b a. induction evs as [|ev evs IH]; intros b a H; [done|]. simpl.
  apply IH, refines_step, H.
Qed.

Lemma comment_json_wf c : json_wf (comment_json c).
Proof. reflexivity. Qed.

(** Start-up on a storage holding the stored form of a spec list. *)
Lemma refines_init st l :
  getItem COMMENTS_KEY st = inr (Some (stringify (JArr (map comment_json l)))) →
  loadComments st = map comment_json l ∧
  refines (fst (board_init st)) (mkSpecBoard l EmptyString EmptyString) ∧
  snd (board_init st) = None.
Proof.
  intros Hg. assert (Hl : loadComments st = map comment_json l).
  { apply (loadComments_stored st _ _ Hg), stringify_parses, json_wf_arr.
    apply Forall_forall. intros x Hx. apply list_elem_of_In, in_map_iff in Hx as (c & <- & _).
    apply comment_json_wf. }
  split; [done|]. unfold board_init. rewrite Hl.
  pose proof (renderComments_no_error _ (Forall_renders_map l)) as He.
  destruct (renderComments _) as [v err] eqn:E. simpl in *. subst.
  split; [|done]. split_and!; simpl; by rewrite ?E.
Qed.

(** ** Properties of the board *)

(** C4. An accepted submission (a trimmed body of at least two
    characters) on a board whose list shows its array appends the new
    record, keeps the last 200 records, writes the array to storage,
    throws nothing and resets the form: the array is the last
    [MAX_COMMENTS] elements of the old array followed by the new record,
    which is its last element, and it has at most 200 elements. *)
Theorem submit_accepted now b :
  board_inv b → 2 ≤ String.length (trim (body_value b)) →
  let entry := mk_entry (trim (name_value b)) (trim (body_value b)) now in
  let '(b', err) := submit now b in
  err = None ∧
  comments b' = slice_neg MAX_COMMENTS (comments b ++ [entry]) ∧
  last (comments b') = Some entry ∧
  length (comments b') ≤ MAX_COMMENTS ∧
  bstore b' = saveComments (comments b') (bstore b) ∧
  name_value b' = EmptyString ∧ body_value b' = EmptyString ∧ body_focused b' = true.
Proof.
  intros [_ Hr] Hlen entry. rewrite submit_accept by done. fold entry.
  destruct (slice_neg_snoc MAX_COMMENTS (comments b) entry) as [p Hp]; [unfold MAX_COMMENTS; lia|].
  cbn [comments bstore name_value body_value body_focused].
  split_and!; try done; [by rewrite Hp, last_snoc | apply length_cap].
Qed.

(** C25. A submission whose trimmed body is shorter than two characters
    (empty, only whitespace, or one character) is rejected: the array,
    the storage, the list and both fields are unchanged, nothing is
    thrown, and the body field gets the focus. *)
Theorem submit_rejected now b :
  String.length (trim (body_value b)) < 2 →
  let '(b', err) := submit now b in
  err = None ∧ comments b' = comments b ∧ bstore b' = bstore b ∧
  list_view b' = list_view b ∧ name_value b' = name_value b ∧
  body_value b' = body_value b ∧ body_focused b' = true.
Proof. intros H. by rewrite submit_reject. Qed.

(** C24. The clear button does nothing on an empty board (it does not
    even ask) and nothing when the user declines; when the user confirms
    on a non-empty board, the array becomes empty, the list shows the
    placeholder, and the empty array is written to storage. *)
Theorem clear_spec confirmed b :
  (comments b = [] → clear_asks b = false ∧ clear confirmed b = b) ∧
  (confirmed = false → clear confirmed b = b) ∧
  (comments b ≠ [] → confirmed = true →
     comments (clear confirmed b) = [] ∧ list_view (clear confirmed b) = Placeholder ∧
     bstore (clear confirmed b) = saveComments [] (bstore b) ∧
     name_value (clear confirmed b) = name_value b ∧
     body_value (clear confirmed b) = body_value b).
Proof.
  unfold clear, clear_asks. split_and!.
  - intros ->. done.
  - intros ->. by destruct (comments b).
  - intros Hne ->. by destruct (comments b).
Qed.

(** C12. Saving and loading: when storage accepts the write,
    [loadComments] after [saveComments l] returns [l] again, for every
    array whose objects have distinct keys (all arrays the board writes). *)
Theorem load_save l st :
  write_fits COMMENTS_KEY (stringify (JArr l)) st → json_wf (JArr l) →
  loadComments (saveComments l st) = l.
Proof. apply loadComments_saveComments. Qed.

(** C16. Whatever the stored array holds (records written directly into
    storage included), every item that renders shows its body, the name
    and the date as escaped text: the body markup is read by the HTML
    parser as exactly [String(c.body)], and the meta line is the template
    filled with the escaped name and date: the name is [String(c.name)]
    when [c.name] is truthy and [Anonymous] otherwise, the date is
    [toLocaleString] of [c.ts], and the parser reads both back as
    they are. *)
Theorem render_item_text c it :
  render_item c = inr it →
  (∃ b s, get_prop c "body" = inr b ∧ to_js_string_opt b = inr s ∧
          html_text (body_html it) = Some s) ∧
  (∃ n who ts time, get_prop c "name" = inr n ∧
          (if truthy n then to_js_string_opt n = inr who else who = "Anonymous") ∧
          get_prop c "ts" = inr ts ∧ toLocaleString ts = inr time ∧
          meta_html it = meta_markup (escape_chain who) (escape_chain time) ∧
          html_text (escape_chain who) = Some who ∧ html_text (escape_chain time) = Some time).
Proof.
  unfold render_item.
  destruct (get_prop c "name") as [e|name] eqn:Hn; simpl; [done|].
  destruct (if truthy name then escapeHtml name else mret "Anonymous") as [e|who] eqn:Hwho;
    simpl; [done|].
  destruct (get_prop c "ts") as [e|ts] eqn:Hts; simpl; [done|].
  destruct (toLocaleString ts) as [e|time] eqn:Ht; simpl; [done|].
  destruct (get_prop c "body") as [e|b] eqn:Hb; simpl; [done|].
  destruct (escapeHtml b) as [e|bh] eqn:Hbh; simpl; [done|]. intros [= <-]. simpl.
  apply escapeHtml_inr in Hbh as (s & Hs & ->).
  split; [exists b, s; by rewrite escape_chain_one_pass, html_text_escape_ref|].
  assert (∃ w, who = escape_chain w ∧
            if truthy name then to_js_string_opt name = inr w else w = "Anonymous") as (w & -> & Hw).
  { destruct (truthy name).
    - apply escapeHtml_inr in Hwho as (w & ? & ->). by exists w.
    - injection Hwho as <-. exists "Anonymous". by rewrite escape_chain_anonymous. }
  exists name, w, ts, time. by rewrite !escape_chain_one_pass, !html_text_escape_ref.
Qed.

(** C13. [loadComments] never throws and reads every failure as the
    empty array: a storage that throws, a missing key, a text
    [JSON.parse] rejects (the empty text included) and a parsed value
    that is not an array all give [[]]; an array is returned as parsed,
    elements unchecked. *)
Theorem loadComments_spec st :
  (∀ e, getItem COMMENTS_KEY st = inl e → loadComments st = []) ∧
  (getItem COMMENTS_KEY st = inr None → loadComments st = []) ∧
  (∀ raw e, getItem COMMENTS_KEY st = inr (Some raw) → JSON_parse raw = inl e →
     loadComments st = []) ∧
  (∀ raw v, getItem COMMENTS_KEY st = inr (Some raw) → JSON_parse raw = inr v →
     loadComments st = match v with JArr l => l | _ => [] end).
Proof.
  unfold loadComments, catch_js. split_and!.
  - intros e ->. done.
  - intros ->. done.
  - intros raw e -> Hp. simpl. destruct (String.eqb raw EmptyString); [done|]. by rewrite Hp.
  - intros raw v -> Hp. simpl. destruct (String.eqb_spec raw EmptyString) as [->|_]; [done|].
    by rewrite Hp.
Qed.

(** C5. The board is safe after start-up: if every stored element is a
    record the board itself writes, then on every reachable board the
    list shows the array, every element is such a record (trimmed name,
    trimmed body of at least two characters), no submit or
    clear handler throws, and the array never holds more than
    [max 200 n] elements, [n] the number loaded at start-up. *)
Theorem board_reachable_safe st0 b :
  Forall (λ c, board_entry c = true) (loadComments st0) →
  board_reachable st0 b →
  board_inv b ∧ Forall (λ c, board_entry c = true) (comments b) ∧
  length (comments b) ≤ max MAX_COMMENTS (length (loadComments st0)) ∧
  ∀ ev, snd (board_step ev b) = None.
Proof.
  intros Hent Hreach.
  assert (board_inv b ∧ Forall (λ c, board_entry c = true) (comments b) ∧
          length (comments b) ≤ max MAX_COMMENTS (length (loadComments st0))) as (Hi & He & Hl).
  { induction Hreach as [Hinit|b ev _ (Hi & He & Hl)].
    - rewrite board_init_comments. split_and!; [apply board_init_inv | done | lia].
      eapply Forall_impl; [exact Hent | apply board_entry_renders].
    - split_and!; [by apply board_inv_step | by apply board_entries_step |].
      pose proof (length_step ev b). lia. }
  split_and!; [done | done | done |]. intros ev. by apply board_inv_step.
Qed.

(** C27. A record written by the board renders as an item whose body
    markup the HTML parser reads back as exactly the body text, and
    whose meta line names the trimmed name, escaped, or [Anonymous] when
    the name is empty. *)
Theorem render_entry_text name body now t :
  toLocaleString (Some (JNum now)) = inr t →
  ∃ it, render_item (mk_entry name body now) = inr it ∧
    html_text (body_html it) = Some body ∧
    meta_html it = meta_markup (if String.eqb name EmptyString then "Anonymous"
                                else escape_chain name) (escape_chain t).
Proof.
  intros Ht. eexists. split; [by apply render_item_entry|]. simpl.
  by rewrite escape_chain_one_pass, html_text_escape_ref.
Qed.

(** C9. The board refines the abstract comment list of the spec: from a
    storage that holds the stored form of a list [l] of records, start-up
    throws nothing, and after any sequence of edits, submissions and
    clears the board's array is the stored form of the spec's list, its
    form holds the spec's fields, its list shows the array, and the next
    event throws nothing either. *)
Theorem board_refines_spec st l evs :
  getItem COMMENTS_KEY st = inr (Some (stringify (JArr (map comment_json l)))) →
  snd (board_init st) = None ∧
  refines (run_board evs (fst (board_init st))) (spec_run evs (mkSpecBoard l EmptyString EmptyString)) ∧
  (∀ ev, snd (board_step ev (run_board evs (fst (board_init st)))) = None).
Proof.
  intros Hg. destruct (refines_init st l Hg) as (_ & Hr & He).
  pose proof (refines_run evs _ _ Hr) as Hrun.
  split_and!; [done | done |]. intros ev. apply (refines_step ev _ _ Hrun).
Qed.

End Render.

(** Start-up fails on a stored array holding [null]. *)
Lemma board_init_null_error toLocaleString st raw l :
  getItem COMMENTS_KEY st = inr (Some raw) → JSON_parse raw = inr (JArr l) → JNull ∈ l →
  ∃ e, snd (board_init toLocaleString st) = Some e.
Proof.
  intros Hg Hp Hn. unfold board_init. rewrite (loadComments_stored st raw l Hg Hp).
  destruct (renderComments toLocaleString l) as [v err] eqn:E. simpl.
  destruct err as [e|]; [by exists e|].
  assert (snd (renderComments toLocaleString l) = None) as H by by rewrite E.
  apply renderComments_error_free in H. rewrite Forall_forall in H. by specialize (H _ Hn).
Qed.

(** C14. A stored array that holds [null] makes start-up throw, whatever
    the date formatter: [renderComments] reads [c.name] of [null] (line
    196), so the exception escapes line 209 and the rest of the script,
    including every handler, never runs. *)
Theorem board_init_crash toLocaleString st raw l :
  getItem COMMENTS_KEY st = inr (Some raw) → JSON_parse raw = inr (JArr l) → JNull ∈ l →
  ∃ e, snd (board_init toLocaleString st) = Some e.
Proof.
  apply board_init_null_error.
Qed.

(** ** Witnesses, with a date formatter that always gives the same text *)

Lemma board_refines_spec_witness :
  let f : option json → js string := λ _, inr "1/2/2025" in
  let l := [mkComment "Ann" "hi there" 7] in
  let st := mkStorage {[COMMENTS_KEY := stringify (JArr (map comment_json l))]} true 1000 in
  let evs := [Edit " Bo " " nice post "; Submit 9; Clear false] in
  getItem COMMENTS_KEY st = inr (Some (stringify (JArr (map comment_json l)))) ∧
  (snd (board_init f st) = None ∧
   refines f (run_board f evs (fst (board_init f st)))
     (spec_run evs (mkSpecBoard l EmptyString EmptyString)) ∧
   (∀ ev, snd (board_step f ev (run_board f evs (fst (board_init f st)))) = None)).
Proof.
  intros f l st evs.
  assert (Hf : ∀ z, ∃ t, f (Some (JNum z)) = inr t) by (intros z; by eexists).
  assert (Hg : getItem COMMENTS_KEY st = inr (Some (stringify (JArr (map comment_json l)))))
    by reflexivity.
  exact (conj Hg (board_refines_spec f Hf st l evs Hg)).
Defined.

Lemma submit_accepted_witness :
  let f : option json → js string := λ _, inr "1/2/2025" in
  let b := {| comments := []; bstore := mkStorage ∅ true 1000; list_view := Placeholder;
              name_value := " Ann "; body_value := "  hi there  "; body_focused := false |} in
  board_inv f b ∧ 2 ≤ String.length (trim (body_value b)) ∧
  (let entry := mk_entry (trim (name_value b)) (trim (body_value b)) 7 in
   let '(b', err) := submit f 7 b in
   err = None ∧
   comments b' = slice_neg MAX_COMMENTS (comments b ++ [entry]) ∧
   last (comments b') = Some entry ∧
   length (comments b') ≤ MAX_COMMENTS ∧
   bstore b' = saveComments (comments b') (bstore b) ∧
   name_value b' = EmptyString ∧ body_value b' = EmptyString ∧ body_focused b' = true).
Proof.
  intros f b.
  assert (Hf : ∀ z, ∃ t, f (Some (JNum z)) = inr t) by (intros z; by eexists).
  assert (H1 : board_inv f b) by (split; [reflexivity | constructor]).
  assert (H2 : 2 ≤ String.length (trim (body_value b))) by (vm_compute; lia).
  exact (conj H1 (conj H2 (submit_accepted f Hf 7 b H1 H2))).
Defined.

Lemma submit_rejected_witness :
  let b := {| comments := []; bstore := mkStorage ∅ true 1000; list_view := Placeholder;
              name_value := "Ann"; body_value := "  x  "; body_focused := false |} in
  String.length (trim (body_value b)) < 2 ∧
  (let '(b', err) := submit (λ _, inr "1/2/2025") 7 b in
   err = None ∧ comments b' = comments b ∧ bstore b' = bstore b ∧
   list_view b' = list_view b ∧ name_value b' = name_value b ∧
   body_value b' = body_value b ∧ body_focused b' = true).
Proof.
  intros b. assert (H : String.length (trim (body_value b)) < 2) by (vm_compute; lia).
  exact (conj H (submit_rejected (λ _, inr "1/2/2025") 7 b H)).
Defined.

Lemma load_save_witness :
  let l := [mk_entry "Ann" "hi there" 7] in
  let st := mkStorage ∅ true 1000 in
  write_fits COMMENTS_KEY (stringify (JArr l)) st ∧ json_wf (JArr l) ∧
  loadComments (saveComments l st) = l.
Proof.
  intros l st.
  assert (H1 : write_fits COMMENTS_KEY (stringify (JArr l)) st)
    by (apply (bool_decide_unpack _); vm_compute; exact I).
  assert (H2 : json_wf (JArr l)) by reflexivity.
  exact (conj H1 (conj H2 (load_save l st H1 H2))).
Defined.

Lemma board_reachable_safe_witness :
  let f : option json → js string := λ _, inr "1/2/2025" in
  let st0 := mkStorage {[COMMENTS_KEY := stringify (JArr [mk_entry "Ann" "hi there" 7])]}
               true 1000 in
  let b := fst (board_step f (Submit 9) (fst (board_step f (Edit " Bo " " nice post ")
             (fst (board_init f st0))))) in
  Forall (λ c, board_entry c = true) (loadComments st0) ∧ board_reachable f st0 b ∧
  (board_inv f b ∧ Forall (λ c, board_entry c = true) (comments b) ∧
   length (comments b) ≤ max MAX_COMMENTS (length (loadComments st0)) ∧
   ∀ ev, snd (board_step f ev b) = None).
Proof.
  intros f st0 b.
  assert (Hf : ∀ z, ∃ t, f (Some (JNum z)) = inr t) by (intros z; by eexists).
  assert (H1 : Forall (λ c, board_entry c = true) (loadComments st0))
    by (apply (bool_decide_unpack _); vm_compute; exact I).
  assert (H2 : board_reachable f st0 b).
  { do 2 apply board_reachable_step. apply board_reachable_init. vm_compute. reflexivity. }
  exact (conj H1 (conj H2 (board_reachable_safe f Hf st0 b H1 H2))).
Defined.

Lemma render_entry_text_witness :
  let f : option json → js string := λ _, inr "1/2/2025" in
  f (Some (JNum 7)) = inr "1/2/2025" ∧
  ∃ it, render_item f (mk_entry EmptyString "<b>bold</b> & co" 7) = inr it ∧
    html_text (body_html it) = Some "<b>bold</b> & co" ∧
    meta_html it = meta_markup (if String.eqb EmptyString EmptyString then "Anonymous"
                                else escape_chain EmptyString) (escape_chain "1/2/2025").
Proof.
  intros f. assert (H : f (Some (JNum 7)) = inr "1/2/2025") by reflexivity.
  exact (conj H (render_entry_text f EmptyString "<b>bold</b> & co" 7 "1/2/2025" H)).
Defined.

Lemma render_item_text_witness :
  let f : option json → js string := λ _, inr "1/2/2025" in
  let c := JObj [("name", JStr "<b>x</b>"); ("body", JArr [JNum 1; JStr "<i>"]); ("ts", JNull)] in
  let it := match render_item f c with
            | inr it => it
            | inl _ => {| meta_html := EmptyString; body_html := EmptyString |}
            end in
  render_item f c = inr it ∧
  ((∃ b s, get_prop c "body" = inr b ∧ to_js_string_opt b = inr s ∧
           html_text (body_html it) = Some s) ∧
   (∃ n who ts time, get_prop c "name" = inr n ∧
           (if truthy n then to_js_string_opt n = inr who else who = "Anonymous") ∧
           get_prop c "ts" = inr ts ∧ f ts = inr time ∧
           meta_html it = meta_markup (escape_chain who) (escape_chain time) ∧
           html_text (escape_chain who) = Some who ∧ html_text (escape_chain time) = Some time)).
Proof.
  intros f c it. assert (H : render_item f c = inr it) by (vm_compute; reflexivity).
  exact (conj H (render_item_text f c it H)).
Defined.

Lemma board_init_crash_witness :
  let st := mkStorage {[COMMENTS_KEY := "[null]"]} true 1000 in
  getItem COMMENTS_KEY st = inr (Some "[null]") ∧ JSON_parse "[null]" = inr (JArr [JNull]) ∧
  JNull ∈ [JNull] ∧ ∃ e, snd (board_init (λ _, inr "1/2/2025") st) = Some e.
Proof.
  intros st.
  assert (H1 : getItem COMMENTS_KEY st = inr (Some "[null]")) by reflexivity.
  assert (H2 : JSON_parse "[null]" = inr (JArr [JNull])) by reflexivity.
  assert (H3 : JNull ∈ [JNull]) by left.
  exact (conj H1 (conj H2 (conj H3 (board_init_crash (λ _, inr "1/2/2025") st "[null]" [JNull] H1 H2 H3)))).
Defined.

End Comments.
