(* ===== verification/Scroll.v ===== *)
(** * The back-to-top control

    Lines 10, 108-113 and 285-300 of [src/index.js].  The top button is
    built by [mkBtn] with the extra class [hidden]; [onScroll] (291-298)
    reads the scroll offset [window.scrollY || window.pageYOffset] and
    removes [hidden] when the offset exceeds [SCROLL_SHOW_PX = 300], adds
    it otherwise.  It runs once at start-up (line 300) and on every
    [scroll] event (line 299).  The click handler (286-288) asks the
    window to scroll smoothly to the top; that request is modelled in
    [Page] as an entry of the log of scroll requests.

    Scroll offsets are rationals ([Q]): browsers report fractional offsets
    on zoomed pages, and the comparison with 300 is exact on them. *)

From Stdlib Require Import QArith.
From S2P Require Import Prelude ClassList Theme.
Import ClassList Theme.

Module Scroll.

Definition SCROLL_SHOW_PX : Q := 300.
Definition HIDDEN : string := "hidden".

(** [window.scrollY || window.pageYOffset] (line 292): an offset of [0]
    is falsy, and the alias [pageYOffset] is read instead. *)
Definition lastKnownScroll (scrollY pageYOffset : Q) : Q :=
  if Qeq_bool scrollY 0 then pageYOffset else scrollY.

(** [onScroll()] on the class list of the top button, lines 291-298:
    [lastKnownScroll > SCROLL_SHOW_PX] shows the button. *)
Definition onScroll (scrollY pageYOffset : Q) (cls : list string) : list string :=
  if negb (Qle_bool (lastKnownScroll scrollY pageYOffset) SCROLL_SHOW_PX)
  then remove HIDDEN cls
  else add HIDDEN cls.

(** The top button as [mkBtn] builds it (lines 108-112): its classes and
    [aria-pressed]. *)
Definition topBtn : list string * string := mkBtn false HIDDEN.

(** The button is shown. *)
Definition shown (cls : list string) : bool := negb (contains HIDDEN cls).

(** ** Lemmas *)

(** In the browser both properties hold the same offset. *)
Lemma lastKnownScroll_same y : lastKnownScroll y y = y.
Proof. unfold lastKnownScroll. by case_match. Qed.

Lemma onScroll_hidden y py cls :
  HIDDEN ∈ onScroll y py cls ↔ (lastKnownScroll y py <= SCROLL_SHOW_PX)%Q.
Proof.
  unfold onScroll. destruct (Qle_bool _ _) eqn:E; simpl.
  - apply Qle_bool_iff in E. rewrite elem_of_add. tauto.
  - rewrite elem_of_remove. split; [tauto|].
    intros H. apply Qle_bool_iff in H. congruence.
Qed.

(** [onScroll] touches no class but [hidden]. *)
Lemma onScroll_other y py cls x : x ≠ HIDDEN → x ∈ onScroll y py cls ↔ x ∈ cls.
Proof.
  intros Hx. unfold onScroll. case_match; rewrite ?elem_of_add, ?elem_of_remove; naive_solver.
Qed.

Lemma NoDup_onScroll y py cls : NoDup cls → NoDup (onScroll y py cls).
Proof. intros H. unfold onScroll. case_match; eauto using NoDup_add, NoDup_remove. Qed.

Lemma onScroll_shown y py cls :
  shown (onScroll y py cls) = negb (Qle_bool (lastKnownScroll y py) SCROLL_SHOW_PX).
Proof.
  unfold shown, onScroll. destruct (Qle_bool _ _); simpl;
    by rewrite ?contains_add, ?contains_remove.
Qed.

(** [onScroll] depends on the offset only, not on the state it finds. *)
Lemma onScroll_onScroll y py y' py' cls :
  onScroll y' py' (onScroll y py cls) ≡cl onScroll y' py' cls.
Proof.
  intros x. destruct (decide (x = HIDDEN)) as [->|Hx].
  - by rewrite !onScroll_hidden.
  - by rewrite !onScroll_other.
Qed.

Lemma topBtn_hidden : HIDDEN ∈ topBtn.1.
Proof. apply elem_of_of_className. vm_compute. set_solver. Qed.

Lemma NoDup_topBtn : NoDup topBtn.1.
Proof. apply NoDup_of_className. Qed.

(** ** The threshold *)

(** C18.  With the offset the browser reports in both properties,
    the top button is hidden exactly when the offset is at most 300
    pixels, whatever classes it had before. *)
Theorem onScroll_threshold y cls : HIDDEN ∈ onScroll y y cls ↔ (y <= 300)%Q.
Proof.
  by rewrite onScroll_hidden, lastKnownScroll_same.
Qed.

(** The boundary, as the spec asks: hidden at 300, shown at 301 and at
    300.5. *)
Example onScroll_boundary :
  shown (onScroll 300 300 topBtn.1) = false ∧ shown (onScroll 301 301 topBtn.1) = true ∧
  shown (onScroll (601 # 2) (601 # 2) topBtn.1) = true.
Proof. vm_compute. auto. Qed.

End Scroll.
