(* ===== verification/Keyboard.v ===== *)
(** * Keyboard shortcuts

    Lines 302-319 of [src/index.js]: a [keydown] listener on the window.
    The event's target is the focused element (or the body), described by
    its [tagName], its [type] attribute (for an [INPUT]) and whether it is
    content-editable.  The listener ignores the event when the target is an
    [INPUT], a [TEXTAREA] or content-editable ([isTyping]); otherwise
    [b]/[B] clicks the B/W button, [t]/[T] clicks the top button and
    [c]/[C] focuses the comment body, each after [preventDefault()].
    Modifier keys are not read: [Ctrl+B] with [ev.key = "b"] toggles the
    theme too.  [keydown] returns the shortcut the listener runs, [None]
    when it returns without acting (and without [preventDefault]); [Page]
    performs the shortcut on the page. *)

From S2P Require Import Prelude.

Module Keyboard.

(** The element an event is dispatched to. *)
Record target := mkTarget {
  tagName : string;
  inputType : string;          (** the [type] attribute; not read by the code *)
  isContentEditable : bool
}.

Record key_event := mkKeyEvent {
  key : string;                (** [ev.key] *)
  ev_target : option target;   (** [ev.target]; [None] is [null] *)
  ctrlKey : bool               (** a modifier; not read by the code *)
}.

(** [target && (tag === 'INPUT' || tag === 'TEXTAREA' ||
    target.isContentEditable)], line 306; [null] is falsy. *)
Definition isTyping (t : option target) : bool :=
  match t with
  | None => false
  | Some t =>
      String.eqb (tagName t) "INPUT" || String.eqb (tagName t) "TEXTAREA" ||
      isContentEditable t
  end.

(** What the listener does. *)
Inductive shortcut :=
  | ToggleTheme     (** [bwBtn.click()], line 311 *)
  | ScrollTop       (** [topBtn.click()], line 314 *)
  | FocusComment.   (** [inputBody.focus()], line 317 *)

#[export] Instance shortcut_eq_dec : EqDecision shortcut.
Proof. solve_decision. Defined.

(** The listener, lines 303-319. *)
Definition keydown (ev : key_event) : option shortcut :=
  if isTyping (ev_target ev) then None
  else if String.eqb (key ev) "b" || String.eqb (key ev) "B" then Some ToggleTheme
  else if String.eqb (key ev) "t" || String.eqb (key ev) "T" then Some ScrollTop
  else if String.eqb (key ev) "c" || String.eqb (key ev) "C" then Some FocusComment
  else None.

(** The shortcut a key names, whatever the target. *)
Definition key_shortcut (k : string) : option shortcut :=
  if decide (k = "b" ∨ k = "B") then Some ToggleTheme
  else if decide (k = "t" ∨ k = "T") then Some ScrollTop
  else if decide (k = "c" ∨ k = "C") then Some FocusComment
  else None.

(** ** Lemmas *)

Lemma keydown_typing ev : isTyping (ev_target ev) = true → keydown ev = None.
Proof. intros H. unfold keydown. by rewrite H. Qed.

(** Outside a text field the listener runs the shortcut of the key. *)
Lemma keydown_not_typing ev :
  isTyping (ev_target ev) = false → keydown ev = key_shortcut (key ev).
Proof.
  intros H. unfold keydown, key_shortcut. rewrite H. simpl.
  destruct (String.eqb_spec (key ev) "b"), (String.eqb_spec (key ev) "B"),
    (String.eqb_spec (key ev) "t"), (String.eqb_spec (key ev) "T"),
    (String.eqb_spec (key ev) "c"), (String.eqb_spec (key ev) "C");
    simpl; repeat case_decide; naive_solver.
Qed.

(** The answer of the listener is a function of the key and of
    [isTyping]: the modifiers and an [INPUT]'s type play no part. *)
Lemma keydown_ext ev1 ev2 :
  key ev1 = key ev2 → isTyping (ev_target ev1) = isTyping (ev_target ev2) →
  keydown ev1 = keydown ev2.
Proof. intros Hk Ht. unfold keydown. by rewrite Hk, Ht. Qed.

(** A focused checkbox is an [INPUT]: [b] is ignored there although a
    checkbox takes no text. *)
Example keydown_checkbox :
  keydown (mkKeyEvent "b" (Some (mkTarget "INPUT" "checkbox" false)) false) = None.
Proof. reflexivity. Qed.

(** [Ctrl+B] toggles the theme and its default action is prevented. *)
Example keydown_ctrl_b :
  keydown (mkKeyEvent "b" (Some (mkTarget "BODY" EmptyString false)) true) = Some ToggleTheme.
Proof. reflexivity. Qed.

End Keyboard.
