(* ===== verification/Form.v ===== *)
(** * The comment form's constraints

    The static markup of lines 132-147 of [src/index.js] gives the two
    fields of the comment form HTML constraints the browser enforces
    before any script runs:
    - [maxlength="60"] on the name input (line 135) and
      [maxlength="2000"] on the body textarea (line 138): the visitor
      cannot enter more code units than that (a paste is cut), so a field
      the visitor filled holds at most that many;
    - [required] on the textarea (line 138): when the form is submitted
      with an empty body, interactive validation reports the field,
      focuses it, and fires no [submit] event, so the listener of lines
      211-226 does not run.

    [enter] is what a field holds after the visitor enters a text,
    [form_submit] is a submission as the browser performs it: validation,
    then the listener.  The lemmas show that [required] never changes
    the outcome (the listener rejects an empty body in the same way,
    [form_submit_submit]) and that the limits carry over to every record
    the form adds ([submit_within]); [Page] and [Quota] use them on
    every reachable page. *)

From Stdlib Require Import ZArith.
From S2P Require Import Prelude JsString Storage Json Comments.
Import JsString Storage Json Comments.

Module Form.

Definition NAME_MAXLENGTH : nat := 60.
Definition BODY_MAXLENGTH : nat := 2000.

(** The value of a field with [maxlength = n] after the visitor enters
    [s]: its first [n] characters. *)
Definition enter (n : nat) (s : string) : string := String.substring 0 n s.

(** The visitor types into the two fields of the form. *)
Definition type_fields (name body : string) (b : board) : board :=
  {| comments := comments b; bstore := bstore b; list_view := list_view b;
     name_value := enter NAME_MAXLENGTH name; body_value := enter BODY_MAXLENGTH body;
     body_focused := body_focused b |}.

(** Interactive validation of the [required] textarea: the browser
    focuses it and reports it. *)
Definition report_body (b : board) : board :=
  {| comments := comments b; bstore := bstore b; list_view := list_view b;
     name_value := name_value b; body_value := body_value b; body_focused := true |}.

Section Validation.
Context (toLocaleString : option json → js string).

(** A submission of the form: validation, then the [submit] listener. *)
Definition form_submit (now : Z) (b : board) : board * option js_exn :=
  if String.eqb (body_value b) EmptyString then (report_body b, None)
  else submit toLocaleString now b.

End Validation.

(** A record whose name and body fit the fields' [maxlength]. *)
Definition within_maxlength (c : json) : bool :=
  match c with
  | JObj [(_, JStr name); (_, JStr body); (_, JNum _)] =>
      (String.length name <=? NAME_MAXLENGTH) && (String.length body <=? BODY_MAXLENGTH)
  | _ => false
  end.

(** Both fields hold what the visitor could enter. *)
Definition fields_fit (b : board) : Prop :=
  String.length (name_value b) ≤ NAME_MAXLENGTH ∧ String.length (body_value b) ≤ BODY_MAXLENGTH.

(** ** Lemmas *)

Lemma length_substring0 n s : String.length (String.substring 0 n s) = min n (String.length s).
Proof.
  revert n. induction s as [|c s IH]; intros [|n]; simpl; try done. by rewrite IH.
Qed.

Lemma length_enter n s : String.length (enter n s) ≤ n.
Proof. unfold enter. rewrite length_substring0. lia. Qed.

(** A text that fits is entered whole. *)
Lemma enter_fits n s : String.length s ≤ n → enter n s = s.
Proof.
  unfold enter. revert n. induction s as [|c s IH]; intros [|n] H; simpl in *; try done; [lia|].
  f_equal. apply IH. lia.
Qed.

Lemma fields_fit_type name body b : fields_fit (type_fields name body b).
Proof. split; apply length_enter. Qed.

Lemma within_maxlength_entry name body now :
  String.length name ≤ NAME_MAXLENGTH → String.length body ≤ BODY_MAXLENGTH →
  within_maxlength (mk_entry name body now) = true.
Proof. intros Hn Hb. simpl. apply andb_true_iff. split; by apply Nat.leb_le. Qed.

Section Limits.
Context (toLocaleString : option json → js string).

(** [required] adds nothing to the listener's own test of the body. *)
Lemma form_submit_submit now b : form_submit toLocaleString now b = submit toLocaleString now b.
Proof.
  unfold form_submit. destruct (String.eqb_spec (body_value b) EmptyString) as [H|_]; [|done].
  unfold report_body, submit. rewrite H. reflexivity.
Qed.

Lemma submit_fields now b :
  fields_fit b → fields_fit (fst (submit toLocaleString now b)).
Proof.
  intros [Hn Hb]. unfold submit. case_match; [done|].
  destruct (renderComments _ _) as [v []]; [done|]. split; simpl; lia.
Qed.

(** The form adds records within the limits. *)
Lemma submit_within now b :
  fields_fit b → Forall (λ c, within_maxlength c = true) (comments b) →
  Forall (λ c, within_maxlength c = true) (comments (fst (submit toLocaleString now b))).
Proof.
  intros [Hn Hb] Hc. rewrite submit_comments. case_match; [done|].
  apply slice_neg_Forall, Forall_app. split; [done|]. constructor; [|done].
  apply within_maxlength_entry; (etrans; [apply length_trim | done]).
Qed.

Lemma clear_within confirmed b :
  Forall (λ c, within_maxlength c = true) (comments b) →
  Forall (λ c, within_maxlength c = true) (comments (clear toLocaleString confirmed b)).
Proof. intros H. rewrite clear_comments. by case_match. Qed.

Lemma clear_fields confirmed b : fields_fit b → fields_fit (clear toLocaleString confirmed b).
Proof. unfold clear. by repeat case_match. Qed.

End Limits.

End Form.
