(* ===== verification/Page.v ===== *)
(** * The whole page

    [src/index.js] is one immediately invoked function.  Its parts share
    the page's DOM and one [localStorage]: the theme writes the key
    [blog_bw_mode_v1], the comment board the key [blog_comments_v1], and
    both count against the same origin quota.  [page] is the state of
    everything the script changes, with a single storage; [theme_of] and
    [board_of] view it as the state of [Theme] and [Comments], and
    [with_theme]/[with_board] write such a state back, so the storage
    written by one part is the storage the other reads.

    Start-up ([page_init]) follows the order of the source: the two
    toolbar buttons (lines 100-113), the comment board (183, 209), the
    theme preference and button fix-up (256-269), the first [onScroll]
    (300).  An exception thrown by [renderComments] at line 209 leaves the
    function: nothing after it runs, so the theme is never applied and no
    listener is installed ([Crashed]).

    After start-up the page reacts to [page_event]s: clicks on the two
    buttons, scrolling, key presses, the comment form and clear button,
    and calls of [window.__blogUI] (lines 322-328).  [page_step] runs the
    listener of one event (a submission passes the form's validation
    first, [Form.form_submit]); [page_reachable] is the set of pages
    start-up and any sequence of events a browser can deliver
    ([event_ok]) can produce. *)

From Stdlib Require Import QArith ZArith.
From S2P Require Import Prelude ClassList Storage Theme JsString Escape Json JsonParse JsonRoundtrip JsonFuel Comments Scroll Keyboard Form.
Import ClassList Storage Theme JsString Json JsonParse JsonRoundtrip JsonFuel Comments Scroll Keyboard Form.

Module Page.

Record page := mkPage {
  pg_html : list string;       (** [document.documentElement.classList] *)
  pg_bw_btn : list string;     (** [bwBtn.classList] *)
  pg_bw_pressed : string;      (** [bwBtn]'s [aria-pressed] *)
  pg_top_btn : list string;    (** [topBtn.classList] *)
  pg_scroll : Q;               (** [window.scrollY], also [pageYOffset] *)
  pg_scroll_reqs : list Q;     (** [window.scrollTo] requests, oldest first *)
  pg_comments : list json;     (** the array [comments] *)
  pg_view : view;              (** the children of [#comments-list] *)
  pg_name : string;            (** [inputName.value] *)
  pg_body : string;            (** [inputBody.value] *)
  pg_body_focused : bool;      (** [inputBody] has the focus *)
  pg_ls : storage              (** [localStorage] *)
}.

Definition theme_of (p : page) : theme :=
  {| html_cls := pg_html p; btn_cls := pg_bw_btn p; btn_pressed := pg_bw_pressed p;
     store := pg_ls p |}.

Definition with_theme (t : theme) (p : page) : page :=
  {| pg_html := html_cls t; pg_bw_btn := btn_cls t; pg_bw_pressed := btn_pressed t;
     pg_top_btn := pg_top_btn p; pg_scroll := pg_scroll p; pg_scroll_reqs := pg_scroll_reqs p;
     pg_comments := pg_comments p; pg_view := pg_view p; pg_name := pg_name p;
     pg_body := pg_body p; pg_body_focused := pg_body_focused p; pg_ls := store t |}.

Definition board_of (p : page) : board :=
  {| comments := pg_comments p; bstore := pg_ls p; list_view := pg_view p;
     name_value := pg_name p; body_value := pg_body p; body_focused := pg_body_focused p |}.

Definition with_board (b : board) (p : page) : page :=
  {| pg_html := pg_html p; pg_bw_btn := pg_bw_btn p; pg_bw_pressed := pg_bw_pressed p;
     pg_top_btn := pg_top_btn p; pg_scroll := pg_scroll p; pg_scroll_reqs := pg_scroll_reqs p;
     pg_comments := comments b; pg_view := list_view b; pg_name := name_value b;
     pg_body := body_value b; pg_body_focused := body_focused b; pg_ls := bstore b |}.

(** The theme's and the board's parts of the page; they share the storage. *)
Definition theme_lens : lens page theme := Lens theme_of with_theme.
Definition board_lens : lens page board := Lens board_of with_board.

(** [window.scrollTo({ top: 0, behavior: 'smooth' })] (lines 287, 325):
    the request is logged; the viewport then moves by [Scrolled] events. *)
Definition scrollToTop (p : page) : page :=
  {| pg_html := pg_html p; pg_bw_btn := pg_bw_btn p; pg_bw_pressed := pg_bw_pressed p;
     pg_top_btn := pg_top_btn p; pg_scroll := pg_scroll p;
     pg_scroll_reqs := pg_scroll_reqs p ++ [0%Q];
     pg_comments := pg_comments p; pg_view := pg_view p; pg_name := pg_name p;
     pg_body := pg_body p; pg_body_focused := pg_body_focused p; pg_ls := pg_ls p |}.

(** The viewport is at offset [y] and the [scroll] listener runs
    [onScroll] (line 299). *)
Definition scrolled (y : Q) (p : page) : page :=
  {| pg_html := pg_html p; pg_bw_btn := pg_bw_btn p; pg_bw_pressed := pg_bw_pressed p;
     pg_top_btn := onScroll y y (pg_top_btn p); pg_scroll := y;
     pg_scroll_reqs := pg_scroll_reqs p;
     pg_comments := pg_comments p; pg_view := pg_view p; pg_name := pg_name p;
     pg_body := pg_body p; pg_body_focused := pg_body_focused p; pg_ls := pg_ls p |}.

(** The visitor edits the fields of the form, within their [maxlength]
    (lines 135, 138); no listener runs. *)
Definition edit_form (name body : string) (p : page) : page :=
  with_board (type_fields name body (board_of p)) p.

(** [inputBody.focus()] (lines 317, 326). *)
Definition focusComment (p : page) : page :=
  {| pg_html := pg_html p; pg_bw_btn := pg_bw_btn p; pg_bw_pressed := pg_bw_pressed p;
     pg_top_btn := pg_top_btn p; pg_scroll := pg_scroll p; pg_scroll_reqs := pg_scroll_reqs p;
     pg_comments := pg_comments p; pg_view := pg_view p; pg_name := pg_name p;
     pg_body := pg_body p; pg_body_focused := true; pg_ls := pg_ls p |}.

(** ** [window.__blogUI], lines 322-328 *)

(** [setBW: (v) => applyBW(Boolean(v))]: [Boolean(v)] is the truthiness
    of any value ([None] is [undefined]). *)
Definition api_setBW (v : option json) (p : page) : page :=
  with_theme (setBW (truthy v) (theme_of p)) p.

Definition api_isBW (p : page) : bool := isBW (theme_of p).

(** [getComments: () => loadComments()] reads the storage again. *)
Definition api_getComments (p : page) : list json := loadComments (pg_ls p).

(** ** Events *)

Inductive page_event :=
  | ClickBW                       (** a click on the B/W button *)
  | ClickTop                      (** a click on the top button *)
  | Scrolled (y : Q)              (** the viewport is now at offset [y] *)
  | KeyDown (ev : key_event)      (** a key press anywhere in the window *)
  | SubmitForm (now : Z)          (** the comment form, at time [now] *)
  | ClickClear (confirmed : bool) (** the clear button; the answer to [confirm] *)
  | ApiSetBW (v : option json)    (** [__blogUI.setBW(v)] *)
  | ApiScrollToTop                (** [__blogUI.scrollToTop()] *)
  | ApiFocusComment               (** [__blogUI.focusComment()] *)
  | EditForm (name body : string). (** the visitor types into the two fields *)

(** The largest time value, in milliseconds. *)
Definition MAX_TIME_VALUE : Z := 8640000000000000.

Section Events.
(** [new Date(ts).toLocaleString()], as in [Comments]. *)
Context (toLocaleString : option json → js string).

(** The listener of a click on the B/W button (lines 272-283). *)
Definition click_bw (p : page) : page := with_theme (bw_click (theme_of p)) p.

(** The [keydown] listener, lines 303-319: [bwBtn.click()] and
    [topBtn.click()] run the buttons' click listeners. *)
Definition on_keydown (ev : key_event) (p : page) : page :=
  match keydown ev with
  | Some ToggleTheme => click_bw p
  | Some ScrollTop => scrollToTop p
  | Some FocusComment => focusComment p
  | None => p
  end.

(** One event on a page whose script ran to the end: the new page and the
    exception its listener threw, if any. *)
Definition page_step (ev : page_event) (p : page) : page * option js_exn :=
  match ev with
  | ClickBW => (click_bw p, None)
  | ClickTop => (scrollToTop p, None)
  | Scrolled y => (scrolled y p, None)
  | KeyDown k => (on_keydown k p, None)
  | SubmitForm now =>
      let '(b, err) := form_submit toLocaleString now (board_of p) in (with_board b p, err)
  | ClickClear c => (with_board (clear toLocaleString c (board_of p)) p, None)
  | ApiSetBW v => (api_setBW v p, None)
  | ApiScrollToTop => (scrollToTop p, None)
  | ApiFocusComment => (focusComment p, None)
  | EditForm name body => (edit_form name body p, None)
  end.

(** The events a browser can deliver: [Date.now()] is a time value, at
    most [8.64e15] milliseconds from the epoch either way (ECMAScript,
    section 21.4.1.1). *)
Definition event_ok (ev : page_event) : bool :=
  match ev with SubmitForm now => (Z.abs now <=? MAX_TIME_VALUE)%Z | _ => true end.

(** The result of start-up. *)
Inductive startup :=
  | Started (p : page)             (** the script ran to the end *)
  | Crashed (e : js_exn) (p : page). (** line 209 threw [e]; the page as it was left *)

(** Start-up on a page whose [<html>] has the class attribute
    [html_class], with storage [st], scrolled to [y]. *)
Definition page_init (html_class : string) (st : storage) (y : Q) : startup :=
  let '(bw_cls, bw_pressed) := mkBtn false EmptyString in
  let '(top_cls, _) := topBtn in
  let '(b, err) := board_init toLocaleString st in
  let p0 := {| pg_html := of_className html_class; pg_bw_btn := bw_cls;
               pg_bw_pressed := bw_pressed; pg_top_btn := top_cls; pg_scroll := y;
               pg_scroll_reqs := []; pg_comments := comments b; pg_view := list_view b;
               pg_name := name_value b; pg_body := body_value b;
               pg_body_focused := body_focused b; pg_ls := bstore b |} in
  match err with
  | Some e => Crashed e p0
  | None => Started (scrolled y (with_theme (initBtnClass (loadPref (theme_of p0))) p0))
  end.

(** The pages a visitor can see once start-up has run to the end. *)
Inductive page_reachable (html_class : string) (st : storage) (y : Q) : page → Prop :=
  | page_reachable_init p :
      page_init html_class st y = Started p → page_reachable html_class st y p
  | page_reachable_step p ev :
      page_reachable html_class st y p → event_ok ev = true →
      page_reachable html_class st y (fst (page_step ev p)).

(** [P] holds now or after some prefix of the events [evs], each run by
    its listener. *)
Inductive eventually (P : page → Prop) : page → list page_event → Prop :=
  | eventually_now p evs : P p → eventually P p evs
  | eventually_later p ev evs :
      eventually P (fst (page_step ev p)) evs → eventually P p (ev :: evs).

End Events.

(** ** Invariants *)

(** The top button is hidden exactly when the offset is at most 300. *)
Definition top_ok (p : page) : Prop :=
  NoDup (pg_top_btn p) ∧ (HIDDEN ∈ pg_top_btn p ↔ (pg_scroll p <= 300)%Q).

(** Everything the parts promise on a page: the theme invariant, the top
    button, the comment list, and only board-written records in the
    array. *)
Definition page_inv (toLocaleString : option json → js string) (p : page) : Prop :=
  theme_inv (theme_of p) ∧ top_ok p ∧ board_inv toLocaleString (board_of p) ∧
  Forall (λ c, board_entry c = true) (pg_comments p).

(** The form's fields hold what the visitor could enter, and every record
    of the array fits the fields' [maxlength]. *)
Definition form_ok (p : page) : Prop :=
  fields_fit (board_of p) ∧ Forall (λ c, within_maxlength c = true) (pg_comments p).

(** What the theme shows and stores is the same on two pages. *)
Definition theme_part_same (p p' : page) : Prop :=
  pg_html p' = pg_html p ∧ pg_bw_btn p' = pg_bw_btn p ∧ pg_bw_pressed p' = pg_bw_pressed p ∧
  items (pg_ls p') !! LS_KEY = items (pg_ls p) !! LS_KEY.

(** What the board shows and stores is the same on two pages. *)
Definition board_part_same (p p' : page) : Prop :=
  pg_comments p' = pg_comments p ∧ pg_view p' = pg_view p ∧
  items (pg_ls p') !! COMMENTS_KEY = items (pg_ls p) !! COMMENTS_KEY.

(** ** Views and updates *)

#[export] Instance theme_lens_laws : LensLaws theme_lens.
Proof. split; [by intros [] | by intros [] | done]. Qed.

#[export] Instance board_lens_laws : LensLaws board_lens.
Proof. split; [by intros [] | by intros [] | done]. Qed.

Lemma theme_of_with_theme t p : theme_of (with_theme t p) = t.
Proof. apply (lget_lput (l := theme_lens)). Qed.

(** Writing the board's part changes the theme's part in the storage
    only, and the other way round. *)
Lemma theme_of_with_board b p :
  theme_of (with_board b p) =
    {| html_cls := pg_html p; btn_cls := pg_bw_btn p; btn_pressed := pg_bw_pressed p;
       store := bstore b |}.
Proof. reflexivity. Qed.

Lemma board_of_with_theme t p :
  board_of (with_theme t p) =
    {| comments := pg_comments p; bstore := store t; list_view := pg_view p;
       name_value := pg_name p; body_value := pg_body p; body_focused := pg_body_focused p |}.
Proof. reflexivity. Qed.

Lemma theme_of_scrolled y p : theme_of (scrolled y p) = theme_of p.
Proof. reflexivity. Qed.

Lemma board_of_with_board b p : board_of (with_board b p) = b.
Proof. apply (lget_lput (l := board_lens)). Qed.

(** The theme invariant does not read the storage. *)
Lemma theme_inv_store h b pr st st' :
  theme_inv (mkTheme h b pr st) → theme_inv (mkTheme h b pr st').
Proof. done. Qed.

Lemma board_inv_store f cs st st' v n bd fo :
  board_inv f (mkBoard cs st v n bd fo) → board_inv f (mkBoard cs st' v n bd fo).
Proof. done. Qed.

Lemma top_ok_scrolled y p : NoDup (pg_top_btn p) → top_ok (scrolled y p).
Proof.
  intros H. split; simpl; [by apply NoDup_onScroll|].
  by rewrite onScroll_hidden, lastKnownScroll_same.
Qed.

(** The record the board writes has distinct keys. *)
Lemma board_entry_wf c : board_entry c = true → json_wf c.
Proof.
  intros H. unfold board_entry in H. repeat case_match; simplify_eq; try done.
  rewrite !andb_true_iff, !String.eqb_eq in H. destruct_and!; subst. reflexivity.
Qed.

Lemma LS_KEY_COMMENTS_KEY : LS_KEY ≠ COMMENTS_KEY.
Proof. done. Qed.

(** The theme's writes leave the comments' key alone, and the board's
    writes the theme's key. *)
Lemma bw_click_comments_key s :
  items (store (bw_click s)) !! COMMENTS_KEY = items (store s) !! COMMENTS_KEY.
Proof. unfold bw_click. destruct (toggle BW (html_cls s)). by apply setItem_quiet_other. Qed.

Lemma applyBW_comments_key e p s :
  items (store (applyBW e p s)) !! COMMENTS_KEY = items (store s) !! COMMENTS_KEY.
Proof. rewrite store_applyBW. destruct p; [|done]. apply setItem_quiet_other. done. Qed.

Lemma saveComments_ls_key l st :
  items (saveComments l st) !! LS_KEY = items st !! LS_KEY.
Proof. apply setItem_quiet_other. done. Qed.

Lemma submit_ls_key f now b :
  items (bstore (fst (submit f now b))) !! LS_KEY = items (bstore b) !! LS_KEY.
Proof.
  unfold submit. case_match; [done|]. destruct (renderComments _ _) as [v []];
    apply saveComments_ls_key.
Qed.

Lemma clear_ls_key f c b : items (bstore (clear f c b)) !! LS_KEY = items (bstore b) !! LS_KEY.
Proof. unfold clear. repeat case_match; try done. apply saveComments_ls_key. Qed.

Lemma board_init_bstore f st : bstore (fst (board_init f st)) = st.
Proof. unfold board_init. by destruct (renderComments _ _). Qed.

(** An accepted submission stores the new array, whether or not
    rendering it threw. *)
Lemma submit_bstore f now b :
  2 ≤ String.length (trim (body_value b)) →
  bstore (fst (submit f now b)) = saveComments (comments (fst (submit f now b))) (bstore b).
Proof.
  intros H. unfold submit. rewrite (proj2 (Nat.ltb_ge _ _) H).
  by destruct (renderComments _ _) as [v []].
Qed.

(** ** The page invariant *)

Section Safety.
Context (f : option json → js string).
(** The date formatter returns a text for every number. *)
Hypothesis f_num : ∀ z, ∃ t, f (Some (JNum z)) = inr t.

Lemma page_inv_theme t p : page_inv f p → theme_inv t → page_inv f (with_theme t p).
Proof. intros (_ & Htop & Hb & He) Ht. split_and!; [by rewrite theme_of_with_theme|done..]. Qed.

Lemma page_inv_board b p :
  page_inv f p → board_inv f b → Forall (λ c, board_entry c = true) (comments b) →
  page_inv f (with_board b p).
Proof.
  intros (Ht & Htop & _ & _) Hb He. split_and!; [done | done | by rewrite board_of_with_board | done].
Qed.

Lemma page_inv_scrollToTop p : page_inv f p → page_inv f (scrollToTop p).
Proof. done. Qed.

Lemma page_inv_focusComment p : page_inv f p → page_inv f (focusComment p).
Proof. done. Qed.

Lemma page_inv_edit_form name body p : page_inv f p → page_inv f (edit_form name body p).
Proof. done. Qed.

Lemma page_inv_scrolled y p : page_inv f p → page_inv f (scrolled y p).
Proof. intros (Ht & [Hnd _] & Hb & He). split_and!; [done | by apply top_ok_scrolled | done..]. Qed.

Lemma page_inv_click_bw p : page_inv f p → page_inv f (click_bw p).
Proof. intros Hp. apply page_inv_theme; [done|]. apply (theme_step_inv Click), Hp. Qed.

Lemma page_inv_keydown k p : page_inv f p → page_inv f (on_keydown k p).
Proof.
  intros Hp. unfold on_keydown. destruct (keydown k) as [[]|];
    auto using page_inv_click_bw, page_inv_scrollToTop, page_inv_focusComment.
Qed.

Lemma page_step_inv ev p :
  page_inv f p → page_inv f (fst (page_step f ev p)) ∧ snd (page_step f ev p) = None.
Proof.
  intros Hp. pose proof Hp as (Ht & Htop & Hb & He).
  destruct ev as [| |y|k|now|c|v| | |name body]; simpl;
    try (split; [|done]; by auto using page_inv_click_bw, page_inv_scrollToTop,
                         page_inv_focusComment, page_inv_scrolled, page_inv_keydown,
                         page_inv_edit_form).
  - rewrite form_submit_submit.
    destruct (board_inv_submit f f_num now (board_of p) Hb) as [Hb' Herr].
    pose proof (board_entries_step f (Submit now) (board_of p) He) as He'. simpl in He'.
    destruct (submit f now (board_of p)) as [b err]. simpl in *.
    split; [by apply page_inv_board | done].
  - split; [|done]. apply page_inv_board; [done | by apply board_inv_clear |].
    exact (board_entries_step f (Clear c) (board_of p) He).
  - split; [|done]. apply page_inv_theme; [done|]. apply (theme_step_inv (SetBW (truthy v))), Ht.
Qed.

(** Start-up that runs to the end establishes the invariant when the
    stored array holds only board-written records. *)
Lemma page_init_inv html_class st y p :
  Forall (λ c, board_entry c = true) (loadComments st) →
  page_init f html_class st y = Started p → page_inv f p.
Proof.
  intros Hent. unfold page_init.
  destruct (mkBtn false EmptyString) as [bw_cls bw_pressed] eqn:Hbtn.
  destruct topBtn as [top_cls top_pressed] eqn:Htop.
  pose proof (board_init_comments f st) as Hc.
  destruct (board_init_inv f st) as [_ Hbi];
    [eapply Forall_impl; [exact Hent | apply board_entry_renders, f_num]|].
  destruct (board_init f st) as [b err]. destruct err; [done|]. intros [= <-].
  simpl in Hc, Hbi. cbv zeta. split_and!.
  - rewrite theme_of_scrolled, theme_of_with_theme.
    rewrite initBtnClass_id; rewrite loadPref_spec;
      apply applyBW_inv; simpl; [apply NoDup_of_className | | apply NoDup_of_className |];
      unfold mkBtn in Hbtn; injection Hbtn as <- _; apply NoDup_of_className.
  - apply top_ok_scrolled. simpl. pose proof NoDup_topBtn as Hn. rewrite Htop in Hn. exact Hn.
  - destruct b. exact Hbi.
  - simpl. by rewrite Hc.
Qed.

(** C6. Every page a visitor can reach is consistent, provided the
    stored comments are records the board wrote: the B/W button shows
    exactly the state class matching [<html>] and [aria-pressed] agrees,
    the top button is hidden exactly when the offset is at most 300, the
    comment list shows the array and the array holds only board-written
    records; and no listener throws on the next event. *)
Theorem page_reachable_safe html_class st y p :
  Forall (λ c, board_entry c = true) (loadComments st) →
  page_reachable f html_class st y p →
  page_inv f p ∧ ∀ ev, snd (page_step f ev p) = None.
Proof.
  intros Hent Hr. assert (page_inv f p) as Hp.
  { induction Hr as [p Hi|p ev _ IH _]; [by eapply page_init_inv | by apply page_step_inv]. }
  split; [done|]. intros ev. by apply page_step_inv.
Qed.

End Safety.

(** ** The limits of the form *)

Section Limits.
Context (f : option json → js string).

Lemma form_ok_board b p :
  fields_fit b → Forall (λ c, within_maxlength c = true) (comments b) → form_ok (with_board b p).
Proof. intros Hf Hc. split; [by rewrite board_of_with_board | done]. Qed.

Lemma form_ok_keydown k p : form_ok p → form_ok (on_keydown k p).
Proof. unfold on_keydown. by destruct (keydown k) as [[]|]. Qed.

Lemma page_step_form_ok ev p : form_ok p → form_ok (fst (page_step f ev p)).
Proof.
  intros [Hf Hc]. destruct ev as [| |y|k|now|c|v| | |name body]; simpl;
    try (by apply form_ok_keydown); try done.
  - rewrite form_submit_submit.
    pose proof (submit_fields f now (board_of p) Hf) as Hf'.
    pose proof (submit_within f now (board_of p) Hf Hc) as Hc'.
    destruct (submit f now (board_of p)) as [b err]. by apply form_ok_board.
  - apply form_ok_board; [by apply clear_fields | by apply clear_within].
  - apply form_ok_board; [apply fields_fit_type | done].
Qed.

Lemma page_init_form_ok html_class st y p :
  Forall (λ c, within_maxlength c = true) (loadComments st) →
  page_init f html_class st y = Started p → form_ok p.
Proof.
  intros Hc. unfold page_init.
  destruct (mkBtn false EmptyString) as [bw_cls bw_pressed].
  destruct topBtn as [top_cls top_pressed].
  pose proof (board_init_comments f st) as Hb.
  assert (fields_fit (fst (board_init f st))) as Hf.
  { unfold board_init. destruct (renderComments _ _). split; simpl; lia. }
  destruct (board_init f st) as [b err]. destruct err; [done|]. intros [= <-].
  simpl in *. split; [done | by rewrite Hb].
Qed.

End Limits.

(** C19. The keyboard shortcuts are the buttons: outside a text field,
    [b]/[B] does exactly what a click on the B/W button does, [t]/[T] what
    a click on the top button does, [c]/[C] focuses the comment body, and
    any other key does nothing; inside an [INPUT], a [TEXTAREA] or a
    content-editable element no key changes anything. *)
Theorem keydown_dispatch f k p :
  (isTyping (ev_target k) = true → page_step f (KeyDown k) p = (p, None)) ∧
  (isTyping (ev_target k) = false → key k = "b" ∨ key k = "B" →
     page_step f (KeyDown k) p = page_step f ClickBW p) ∧
  (isTyping (ev_target k) = false → key k = "t" ∨ key k = "T" →
     page_step f (KeyDown k) p = page_step f ClickTop p) ∧
  (isTyping (ev_target k) = false → key k = "c" ∨ key k = "C" →
     page_step f (KeyDown k) p = page_step f ApiFocusComment p) ∧
  (isTyping (ev_target k) = false → key_shortcut (key k) = None →
     page_step f (KeyDown k) p = (p, None)).
Proof.
  simpl. unfold on_keydown. split_and!.
  - intros H. by rewrite keydown_typing.
  - intros H Hk. rewrite keydown_not_typing by done. unfold key_shortcut. by case_decide.
  - intros H Hk. rewrite keydown_not_typing by done. unfold key_shortcut.
    case_decide as Hb; [destruct Hb, Hk; congruence | by case_decide].
  - intros H Hk. rewrite keydown_not_typing by done. unfold key_shortcut.
    case_decide as Hb; [destruct Hb, Hk; congruence|].
    case_decide as Ht; [destruct Ht, Hk; congruence | by case_decide].
  - intros H Hk. by rewrite keydown_not_typing, Hk by done.
Qed.

(** C15. A stored comment array holding [null] stops the script at
    start-up: the exception of [renderComments] leaves the function
    before the theme is applied, so [<html>] keeps the classes of the
    markup whatever preference is stored, the B/W button carries neither
    state class, the top button stays hidden whatever the offset, and the
    storage is untouched. *)
Theorem page_init_crash f html_class st y raw l :
  getItem COMMENTS_KEY st = inr (Some raw) → JSON_parse raw = inr (JArr l) → JNull ∈ l →
  ∃ e p, page_init f html_class st y = Crashed e p ∧
    pg_html p = of_className html_class ∧ (BTN_ON ∉ pg_bw_btn p) ∧ (BTN_OFF ∉ pg_bw_btn p) ∧
    HIDDEN ∈ pg_top_btn p ∧ pg_ls p = st.
Proof.
  intros Hg Hp Hn. destruct (board_init_null_error f st raw l Hg Hp Hn) as [e He].
  pose proof (board_init_bstore f st) as Hst. unfold page_init.
  destruct (board_init f st) as [b err]. simpl in He, Hst. subst err.
  eexists _, _. split; [reflexivity|]. simpl. split_and!; [done | | | apply topBtn_hidden | done];
    rewrite elem_of_of_className; vm_compute; set_solver.
Qed.

(** C20. The theme and the comment board do not interfere: submitting or
    clearing changes neither the classes of [<html>] and the B/W button
    nor [aria-pressed] nor the stored preference, and a click on the B/W
    button or [setBW] changes neither the array, nor the list, nor the
    stored comments. *)
Theorem theme_board_frame f p :
  (∀ now, theme_part_same p (fst (page_step f (SubmitForm now) p))) ∧
  (∀ c, theme_part_same p (fst (page_step f (ClickClear c) p))) ∧
  board_part_same p (fst (page_step f ClickBW p)) ∧
  (∀ v, board_part_same p (fst (page_step f (ApiSetBW v) p))).
Proof.
  split_and!.
  - intros now. cbn [page_step]. rewrite form_submit_submit.
    pose proof (submit_ls_key f now (board_of p)) as H.
    destruct (submit f now (board_of p)) as [b err]. by split_and!.
  - intros c. split_and!; [done..|]. apply clear_ls_key.
  - split_and!; [done | done | apply (bw_click_comments_key (theme_of p))].
  - intros v. split_and!; [done | done | apply (applyBW_comments_key (truthy v) true (theme_of p))].
Qed.

(** C29. [__blogUI.setBW(v)] sets BW mode to the truthiness of [v]:
    [setBW('false')] and [setBW('0')] turn it on, [setBW('')] and
    [setBW(0)] off.  When the storage accepts the write, the preference
    [1] or [0] is stored under [blog_bw_mode_v1] and nothing else of the
    storage changes; when the write throws, the storage is left exactly
    as it was. *)
Theorem api_setBW_truthy v p :
  api_isBW (api_setBW v p) = truthy v ∧
  (write_fits LS_KEY (pref_value (truthy v)) (pg_ls p) →
   items (pg_ls (api_setBW v p)) = <[LS_KEY := pref_value (truthy v)]> (items (pg_ls p))) ∧
  (¬ write_fits LS_KEY (pref_value (truthy v)) (pg_ls p) →
   pg_ls (api_setBW v p) = pg_ls p).
Proof.
  unfold api_isBW, api_setBW, setBW. rewrite theme_of_with_theme, isBW_applyBW.
  cbn [pg_ls with_theme]. rewrite store_applyBW. cbn [store theme_of].
  split_and!; [done | intros Hw | intros Hw].
  - by rewrite setItem_quiet_fits.
  - by apply setItem_quiet_no_fit.
Qed.

(** C28. After an accepted submission whose write fits in the storage,
    [__blogUI.getComments()] returns exactly the array the page shows. *)
Theorem api_getComments_submit f now p :
  2 ≤ String.length (trim (pg_body p)) →
  Forall (λ c, board_entry c = true) (pg_comments p) →
  write_fits COMMENTS_KEY
    (stringify (JArr (pg_comments (fst (page_step f (SubmitForm now) p))))) (pg_ls p) →
  api_getComments (fst (page_step f (SubmitForm now) p)) =
    pg_comments (fst (page_step f (SubmitForm now) p)).
Proof.
  intros Hlen Hent. simpl. rewrite form_submit_submit.
  pose proof (submit_bstore f now (board_of p) Hlen) as Hst.
  pose proof (board_entries_step f (Submit now) (board_of p) Hent) as He. simpl in He.
  destruct (submit f now (board_of p)) as [b err]. simpl in *. intros Hw.
  unfold api_getComments. simpl. rewrite Hst. apply loadComments_saveComments; [done|].
  apply json_wf_arr. eapply Forall_impl; [exact He | apply board_entry_wf].
Qed.

(** C11. The [maxlength] of the two fields bounds what the page ever
    stores: on every page reachable from a start-up whose stored records
    fit the limits, the name field holds at most 60 characters, the body
    field at most 2000, and every record of the array has a name of at
    most 60 and a body of at most 2000 characters. *)
Theorem page_reachable_maxlength f html_class st y p :
  Forall (λ c, within_maxlength c = true) (loadComments st) →
  page_reachable f html_class st y p →
  String.length (pg_name p) ≤ NAME_MAXLENGTH ∧ String.length (pg_body p) ≤ BODY_MAXLENGTH ∧
  Forall (λ c, within_maxlength c = true) (pg_comments p).
Proof.
  intros Hc Hr. cut (form_ok p); [by intros [[Hn Hb] Hp]|].
  induction Hr as [p Hi|p ev _ IH _]; [by eapply page_init_form_ok | by apply page_step_form_ok].
Qed.

Lemma api_isBW_with_board b p : api_isBW (with_board b p) = api_isBW p.
Proof. reflexivity. Qed.

Lemma api_isBW_click_bw f p : api_isBW (fst (page_step f ClickBW p)) = negb (api_isBW p).
Proof.
  cbn [page_step fst]. unfold api_isBW, click_bw. rewrite theme_of_with_theme, bw_click_eq.
  apply isBW_applyBW.
Qed.

Lemma clear_confirmed_empty f p : pg_comments (fst (page_step f (ClickClear true) p)) = [].
Proof.
  cbn [page_step fst with_board pg_comments]. rewrite clear_comments.
  unfold clear_asks. cbn [board_of comments]. by destruct (pg_comments p).
Qed.

(** C30. The visitor is never stuck: from any page, whatever mode they
    want, a click on the B/W button when the mode differs followed by a
    confirmed clear reaches a page in that mode with no comments, and
    the target stays reached once the run is over. *)
Theorem page_can_reset f p m :
  let evs := (if bool_decide (api_isBW p = m) then [] else [ClickBW]) ++ [ClickClear true] in
  eventually f (λ q, api_isBW q = m ∧ pg_comments q = []) p evs.
Proof.
  intros evs. subst evs. case_bool_decide as Hm; simpl.
  - apply eventually_later, eventually_now. split; [|apply clear_confirmed_empty].
    cbn [page_step fst]. by rewrite api_isBW_with_board.
  - apply eventually_later, eventually_later, eventually_now.
    split; [|apply clear_confirmed_empty].
    cbn [page_step fst]. rewrite api_isBW_with_board.
    change (click_bw p) with (fst (page_step f ClickBW p)). rewrite api_isBW_click_bw.
    destruct (api_isBW p), m; naive_solver.
Qed.

(** ** Witnesses and examples

    The date formatter of the witnesses gives the same text for every
    value. *)

Lemma page_reachable_safe_witness :
  let f : option json → js string := λ _, inr "1/2/2025" in
  let st := mkStorage {[COMMENTS_KEY := stringify (JArr [mk_entry "Ann" "hi there" 7])]}
              true 5000 in
  let p0 := match page_init f "dark" st 0 with Started p => p | Crashed _ p => p end in
  let p := fst (page_step f (SubmitForm 9)
             (fst (page_step f (EditForm "Bo" " nice post ")
               (fst (page_step f (Scrolled 420) p0))))) in
  Forall (λ c, board_entry c = true) (loadComments st) ∧ page_reachable f "dark" st 0 p ∧
  (page_inv f p ∧ ∀ ev, snd (page_step f ev p) = None).
Proof.
  intros f st p0 p.
  assert (Hf : ∀ z, ∃ t, f (Some (JNum z)) = inr t) by (intros z; by eexists).
  assert (H1 : Forall (λ c, board_entry c = true) (loadComments st))
    by (apply (bool_decide_unpack _); vm_compute; exact I).
  assert (H2 : page_reachable f "dark" st 0 p).
  { do 3 (apply page_reachable_step; [|reflexivity]). apply page_reachable_init.
    vm_compute. reflexivity. }
  exact (conj H1 (conj H2 (page_reachable_safe f Hf "dark" st 0 p H1 H2))).
Defined.

Lemma page_reachable_maxlength_witness :
  let f : option json → js string := λ _, inr "1/2/2025" in
  let st := mkStorage {[COMMENTS_KEY := stringify (JArr [mk_entry "Ann" "hi there" 7])]}
              true 5000 in
  let p0 := match page_init f "dark" st 0 with Started p => p | Crashed _ p => p end in
  let p := fst (page_step f (SubmitForm 9) (fst (page_step f (EditForm "Bo" " nice post ") p0))) in
  Forall (λ c, within_maxlength c = true) (loadComments st) ∧ page_reachable f "dark" st 0 p ∧
  (String.length (pg_name p) ≤ NAME_MAXLENGTH ∧ String.length (pg_body p) ≤ BODY_MAXLENGTH ∧
   Forall (λ c, within_maxlength c = true) (pg_comments p)).
Proof.
  intros f st p0 p.
  assert (H1 : Forall (λ c, within_maxlength c = true) (loadComments st))
    by (apply (bool_decide_unpack _); vm_compute; exact I).
  assert (H2 : page_reachable f "dark" st 0 p).
  { do 2 (apply page_reachable_step; [|reflexivity]). apply page_reachable_init.
    vm_compute. reflexivity. }
  exact (conj H1 (conj H2 (page_reachable_maxlength f "dark" st 0 p H1 H2))).
Defined.

Lemma api_setBW_truthy_witness :
  let f : option json → js string := λ _, inr "1/2/2025" in
  let p0 := match page_init f "dark" (mkStorage ∅ true 100) 0 with
            | Started p => p | Crashed _ p => p end in
  let v := Some (JStr "false") in
  write_fits LS_KEY (pref_value (truthy v)) (pg_ls p0) ∧
  (api_isBW (api_setBW v p0) = truthy v ∧
   (write_fits LS_KEY (pref_value (truthy v)) (pg_ls p0) →
    items (pg_ls (api_setBW v p0)) = <[LS_KEY := pref_value (truthy v)]> (items (pg_ls p0))) ∧
   (¬ write_fits LS_KEY (pref_value (truthy v)) (pg_ls p0) →
    pg_ls (api_setBW v p0) = pg_ls p0)).
Proof.
  intros f p0 v.
  assert (H : write_fits LS_KEY (pref_value (truthy v)) (pg_ls p0))
    by (apply (bool_decide_unpack _); vm_compute; exact I).
  exact (conj H (api_setBW_truthy v p0)).
Defined.

Lemma page_init_crash_witness :
  let st := mkStorage (<[LS_KEY := "1"]> {[COMMENTS_KEY := "[null]"]}) true 5000 in
  getItem COMMENTS_KEY st = inr (Some "[null]") ∧ JSON_parse "[null]" = inr (JArr [JNull]) ∧
  JNull ∈ [JNull] ∧
  ∃ e p, page_init (λ _, inr "1/2/2025") "dark" st 420 = Crashed e p ∧
    pg_html p = of_className "dark" ∧ (BTN_ON ∉ pg_bw_btn p) ∧ (BTN_OFF ∉ pg_bw_btn p) ∧
    HIDDEN ∈ pg_top_btn p ∧ pg_ls p = st.
Proof.
  intros st.
  assert (H1 : getItem COMMENTS_KEY st = inr (Some "[null]")) by (vm_compute; reflexivity).
  assert (H2 : JSON_parse "[null]" = inr (JArr [JNull])) by reflexivity.
  assert (H3 : JNull ∈ [JNull]) by left.
  exact (conj H1 (conj H2 (conj H3
    (page_init_crash (λ _, inr "1/2/2025") "dark" st 420 "[null]" [JNull] H1 H2 H3)))).
Defined.

Lemma api_getComments_submit_witness :
  let f : option json → js string := λ _, inr "1/2/2025" in
  let p0 := match page_init f EmptyString (mkStorage ∅ true 5000) 0 with
            | Started p => p | Crashed _ p => p end in
  let p := edit_form "Ann" " hello there " p0 in
  2 ≤ String.length (trim (pg_body p)) ∧
  Forall (λ c, board_entry c = true) (pg_comments p) ∧
  write_fits COMMENTS_KEY
    (stringify (JArr (pg_comments (fst (page_step f (SubmitForm 9) p))))) (pg_ls p) ∧
  api_getComments (fst (page_step f (SubmitForm 9) p)) =
    pg_comments (fst (page_step f (SubmitForm 9) p)).
Proof.
  intros f p0 p.
  assert (H1 : 2 ≤ String.length (trim (pg_body p))) by (vm_compute; lia).
  assert (H2 : Forall (λ c, board_entry c = true) (pg_comments p))
    by (apply (bool_decide_unpack _); vm_compute; exact I).
  assert (H3 : write_fits COMMENTS_KEY
    (stringify (JArr (pg_comments (fst (page_step f (SubmitForm 9) p))))) (pg_ls p))
    by (apply (bool_decide_unpack _); vm_compute; exact I).
  exact (conj H1 (conj H2 (conj H3 (api_getComments_submit f 9 p H1 H2 H3)))).
Defined.

(** When the storage is full, the page shows the new comment but
    [__blogUI.getComments()] does not return it: the write was dropped
    silently. *)
Example getComments_quota_divergence :
  let f : option json → js string := λ _, inr "1/2/2025" in
  let p0 := match page_init f EmptyString (mkStorage ∅ true 20) 0 with
            | Started p => p | Crashed _ p => p end in
  let p := fst (page_step f (SubmitForm 9) (edit_form "Ann" "hello there" p0)) in
  length (pg_comments p) = 1 ∧ api_getComments p = [].
Proof. split; vm_compute; reflexivity. Qed.

(** The two parts share the quota: once the comments fill it, a click on
    the B/W button turns BW mode on but the preference is not stored, so
    the next page load starts in light mode. *)
Example pref_lost_to_comments :
  let f : option json → js string := λ _, inr "1/2/2025" in
  let p0 := match page_init f EmptyString (mkStorage ∅ true 70) 0 with
            | Started p => p | Crashed _ p => p end in
  let p := click_bw (fst (page_step f (SubmitForm 9) (edit_form "Ann" "hello there" p0))) in
  length (pg_comments p) = 1 ∧ api_isBW p = true ∧ items (pg_ls p) !! LS_KEY = None.
Proof. split_and!; vm_compute; reflexivity. Qed.

End Page.
