(* ===== verification/Quota.v ===== *)
(** * The size of the stored comments

    The board writes its whole array under [blog_comments_v1] on every
    accepted submission (line 222), and theme and board share the origin's
    quota ([Page]).  This file bounds the text [saveComments] writes on
    every page the visitor can reach, from three limits of the code:
    the fields' [maxlength] (lines 135, 138, [Form]), the cap of 200
    records (line 221) and the range of [Date.now()], a time value of at
    most [8.64e15] milliseconds either way ([Page.event_ok]).

    [JSON.stringify] writes a character of a string as at most six
    characters ([\u001f]), and an integer as at most as many decimal
    digits as it has binary digits (53 for a time value), so a record takes
    at most [RECORD_MAX = 12441] characters and the array at most
    [STORED_MAX = 2488401]: the comments alone never fill a quota of
    five million characters. *)

From Stdlib Require Import QArith ZArith Decimal DecimalString DecimalFacts.
From S2P Require Import Prelude Storage Theme JsString Json JsonRoundtrip Comments Scroll Keyboard Form Page.
Import Storage Theme JsString Json JsonRoundtrip Comments Scroll Keyboard Form Page.

Module Quota.

(** The longest text of a record the form writes: the fixed text of the
    keys and punctuation (23), the two quoted fields and the timestamp. *)
Definition RECORD_MAX : nat := 23 + (2 + 6 * NAME_MAXLENGTH) + (2 + 6 * BODY_MAXLENGTH) + 54.

(** The longest text of an array of at most 200 such records. *)
Definition STORED_MAX : nat := 1 + MAX_COMMENTS * (RECORD_MAX + 1).

(** A stored record that fits the form's limits. *)
Definition record_fits (c : json) : bool :=
  within_maxlength c && (String.length (stringify c) <=? RECORD_MAX).

(** The page's array is one the form could have written. *)
Definition stored_ok (p : page) : Prop :=
  form_ok p ∧ Forall (λ c, String.length (stringify c) ≤ RECORD_MAX) (pg_comments p) ∧
  length (pg_comments p) ≤ MAX_COMMENTS.

(** ** Lengths of printed values *)

Lemma length_string_of_uint d : String.length (NilEmpty.string_of_uint d) = Decimal.nb_digits d.
Proof. induction d; simpl; congruence. Qed.

(** Doubling a number adds at most one decimal digit. *)
Lemma nb_digits_double d :
  Decimal.nb_digits (Decimal.Little.double d) ≤ S (Decimal.nb_digits d) ∧
  Decimal.nb_digits (Decimal.Little.succ_double d) ≤ S (Decimal.nb_digits d).
Proof. induction d; simpl; lia. Qed.

Lemma nb_digits_pos p : Decimal.nb_digits (Pos.to_uint p) ≤ Pos.size_nat p.
Proof.
  unfold Pos.to_uint. rewrite nb_digits_rev.
  induction p; simpl; try lia; pose proof (nb_digits_double (Pos.to_little_uint p)); lia.
Qed.

Lemma size_nat_le p q : (Z.pos p <= Z.pos q)%Z → Pos.size_nat p ≤ Pos.size_nat q.
Proof.
  intros H. destruct (Pos.lt_total p q) as [Hlt|[->|Hgt]]; [by apply Pos.size_nat_monotone | done |].
  apply Pos2Z.pos_lt_pos in Hgt. lia.
Qed.

Lemma size_nat_time : Pos.size_nat 8640000000000000 ≤ 53.
Proof. vm_compute. lia. Qed.

Lemma length_N_to_string_pos p : String.length (N_to_string (N.pos p)) ≤ Pos.size_nat p.
Proof. unfold N_to_string. cbn [N.to_uint]. rewrite length_string_of_uint. apply nb_digits_pos. Qed.

(** A time value prints in at most 54 characters. *)
Lemma length_Z_to_string z : (Z.abs z <= MAX_TIME_VALUE)%Z → String.length (Z_to_string z) ≤ 54.
Proof.
  intros Hz. assert (∀ p, (Z.pos p <= MAX_TIME_VALUE)%Z → Pos.size_nat p ≤ 53) as Hp.
  { intros p Hle. etrans; [apply (size_nat_le p 8640000000000000), Hle | apply size_nat_time]. }
  destruct z as [|p|p]; [vm_compute; lia | |].
  - change (Z_to_string (Z.pos p)) with (N_to_string (N.pos p)).
    pose proof (length_N_to_string_pos p). pose proof (Hp p Hz). lia.
  - change (Z_to_string (Z.neg p)) with ("-" +++ N_to_string (N.pos p)).
    rewrite length_append. change (String.length "-") with 1.
    pose proof (length_N_to_string_pos p). pose proof (Hp p Hz). lia.
Qed.

Lemma length_quote_char c : String.length (quote_char c) ≤ 6.
Proof. destruct c as [[] [] [] [] [] [] [] []]; vm_compute; lia. Qed.

Lemma length_quote s : String.length (quote s) ≤ 2 + 6 * String.length s.
Proof.
  unfold quote. simpl. rewrite length_append. simpl.
  enough (String.length (quote_body s) ≤ 6 * String.length s) by lia.
  induction s as [|c s IH]; simpl; [lia|]. rewrite length_append.
  pose proof (length_quote_char c). lia.
Qed.

Lemma length_stringify_entry name body now :
  String.length (stringify (mk_entry name body now)) =
    23 + String.length (quote name) + String.length (quote body) +
    String.length (Z_to_string now).
Proof.
  unfold mk_entry. rewrite stringify_obj. cbn [members_tail stringify]. rewrite !length_append.
  change (String.length (quote "name")) with 6. change (String.length (quote "body")) with 6.
  change (String.length (quote "ts")) with 4. cbn [String.length]. lia.
Qed.

(** A record the form writes at a time value fits [RECORD_MAX]. *)
Lemma entry_fits name body now :
  String.length name ≤ NAME_MAXLENGTH → String.length body ≤ BODY_MAXLENGTH →
  (Z.abs now <= MAX_TIME_VALUE)%Z →
  String.length (stringify (mk_entry name body now)) ≤ RECORD_MAX.
Proof.
  intros Hn Hb Hz. rewrite length_stringify_entry.
  pose proof (length_quote name). pose proof (length_quote body).
  pose proof (length_Z_to_string now Hz). unfold RECORD_MAX. lia.
Qed.

Lemma length_elems_tail n l :
  Forall (λ c, String.length (stringify c) ≤ n) l →
  String.length (elems_tail l) ≤ 1 + length l * (n + 1).
Proof.
  induction 1 as [|x l Hx _ IH]; simpl; [lia|]. rewrite !length_append. simpl. lia.
Qed.

(** An array of at most [k] elements of at most [n] characters each. *)
Lemma length_stringify_arr n l :
  Forall (λ c, String.length (stringify c) ≤ n) l →
  String.length (stringify (JArr l)) ≤ 1 + length l * (n + 1) ∨ l = [].
Proof.
  destruct l as [|x l]; [by right|]. intros Hl. left. inversion Hl as [|? ? Hx Hl']. subst.
  rewrite stringify_arr, !length_append. pose proof (length_elems_tail n l Hl'). simpl. lia.
Qed.

Lemma stored_text_bound l :
  Forall (λ c, String.length (stringify c) ≤ RECORD_MAX) l → length l ≤ MAX_COMMENTS →
  String.length (stringify (JArr l)) ≤ STORED_MAX.
Proof.
  intros Hl Hn. destruct (length_stringify_arr RECORD_MAX l Hl) as [H| ->].
  2: { cbn [stringify String.length]. unfold STORED_MAX.
       assert (1 ≤ MAX_COMMENTS) by (vm_compute; lia). nia. }
  unfold STORED_MAX. etrans; [exact H|]. apply Nat.add_le_mono_l, Nat.mul_le_mono_r, Hn.
Qed.

Lemma record_fits_Forall l :
  Forall (λ c, record_fits c = true) l →
  Forall (λ c, within_maxlength c = true) l ∧
  Forall (λ c, String.length (stringify c) ≤ RECORD_MAX) l.
Proof.
  intros H. rewrite <- Forall_and. eapply Forall_impl; [exact H|].
  intros c Hc. apply andb_true_iff in Hc as [? ?%Nat.leb_le]. done.
Qed.

(** ** The bound on every reachable page *)

Section Sizes.
Context (f : option json → js string).

Lemma submit_sizes now b :
  (Z.abs now <= MAX_TIME_VALUE)%Z → fields_fit b →
  Forall (λ c, String.length (stringify c) ≤ RECORD_MAX) (comments b) →
  length (comments b) ≤ MAX_COMMENTS →
  Forall (λ c, String.length (stringify c) ≤ RECORD_MAX) (comments (fst (submit f now b))) ∧
  length (comments (fst (submit f now b))) ≤ MAX_COMMENTS.
Proof.
  intros Hz [Hn Hb] Hc Hl. rewrite submit_comments. case_match; [done|].
  split; [|apply length_cap]. apply slice_neg_Forall, Forall_app. split; [done|].
  constructor; [|done]. apply entry_fits; [..|done]; (etrans; [apply length_trim | done]).
Qed.

(** The events other than a submission and a clear leave the array alone. *)
Lemma keydown_comments k p : pg_comments (on_keydown k p) = pg_comments p.
Proof. unfold on_keydown. by destruct (keydown k) as [[]|]. Qed.

Lemma page_step_stored_ok ev p :
  event_ok ev = true → stored_ok p → stored_ok (fst (page_step f ev p)).
Proof.
  intros Hev (Hf & Hc & Hl). split; [by apply page_step_form_ok|].
  pose proof Hf as [Hff _].
  destruct ev as [| |y|k|now|c|v| | |name body]; simpl; rewrite ?keydown_comments; try done.
  - rewrite form_submit_submit. apply Z.leb_le in Hev.
    pose proof (submit_sizes now (board_of p) Hev Hff Hc Hl) as Hs.
    destruct (submit f now (board_of p)) as [b err]. exact Hs.
  - rewrite clear_comments. case_match; [split; [constructor | simpl; lia] | done].
Qed.

Lemma page_init_stored_ok html_class st y p :
  Forall (λ c, record_fits c = true) (loadComments st) → length (loadComments st) ≤ MAX_COMMENTS →
  page_init f html_class st y = Started p → stored_ok p.
Proof.
  intros Hr Hl Hi. apply record_fits_Forall in Hr as [Hw Hs].
  split; [by eapply page_init_form_ok|]. revert Hi. unfold page_init.
  destruct (mkBtn false EmptyString), topBtn.
  pose proof (board_init_comments f st) as Hb.
  destruct (board_init f st) as [b err]. destruct err; [done|]. intros [= <-].
  simpl in *. by rewrite Hb.
Qed.

End Sizes.

(** ** Properties *)

(** C10. On every page reachable from a start-up whose stored array
    holds at most 200 records within the form's limits, the text the
    board stores for its array has at most [STORED_MAX] = 2488401
    characters; so on a storage with room for that text beside the other
    keys, the next write of the array fits and is not dropped. *)
Theorem page_reachable_stored_size f html_class st y p :
  Forall (λ c, record_fits c = true) (loadComments st) → length (loadComments st) ≤ MAX_COMMENTS →
  page_reachable f html_class st y p →
  String.length (stringify (JArr (pg_comments p))) ≤ STORED_MAX ∧
  (enabled (pg_ls p) = true →
   usage (delete COMMENTS_KEY (items (pg_ls p))) + String.length COMMENTS_KEY + STORED_MAX
     ≤ quota (pg_ls p) →
   write_fits COMMENTS_KEY (stringify (JArr (pg_comments p))) (pg_ls p)).
Proof.
  intros Hr Hl Hreach. assert (stored_ok p) as (_ & Hs & Hn).
  { induction Hreach as [p Hi|p ev _ IH Hev];
      [by eapply page_init_stored_ok | by apply page_step_stored_ok]. }
  pose proof (stored_text_bound _ Hs Hn) as Hb. split; [done|].
  intros He Hq. split; [done|]. rewrite usage_insert. lia.
Qed.

Lemma page_reachable_stored_size_witness :
  let f : option json → js string := λ _, inr "1/2/2025" in
  let st := mkStorage {[COMMENTS_KEY := stringify (JArr [mk_entry "Ann" "hi there" 7])]}
              true 5000 in
  let p0 := match page_init f "dark" st 0 with Started p => p | Crashed _ p => p end in
  let p := fst (page_step f (SubmitForm 9) (fst (page_step f (EditForm "Bo" " nice post ") p0))) in
  Forall (λ c, record_fits c = true) (loadComments st) ∧ length (loadComments st) ≤ MAX_COMMENTS ∧
  page_reachable f "dark" st 0 p ∧
  (String.length (stringify (JArr (pg_comments p))) ≤ STORED_MAX ∧
   (enabled (pg_ls p) = true →
    usage (delete COMMENTS_KEY (items (pg_ls p))) + String.length COMMENTS_KEY + STORED_MAX
      ≤ quota (pg_ls p) →
    write_fits COMMENTS_KEY (stringify (JArr (pg_comments p))) (pg_ls p))).
Proof.
  intros f st p0 p.
  assert (H1 : Forall (λ c, record_fits c = true) (loadComments st))
    by (apply (bool_decide_unpack _); vm_compute; exact I).
  assert (H2 : length (loadComments st) ≤ MAX_COMMENTS) by (vm_compute; lia).
  assert (H3 : page_reachable f "dark" st 0 p).
  { do 2 (apply page_reachable_step; [|reflexivity]). apply page_reachable_init.
    vm_compute. reflexivity. }
  exact (conj H1 (conj H2 (conj H3 (page_reachable_stored_size f "dark" st 0 p H1 H2 H3)))).
Defined.

End Quota.
